(** * Enzyme-reactor simulator: a shallow embedding of the mock-data generator
    and of the reactor context's tick, with the properties of its
    specification.

    Numbers.  A JavaScript [number] is modelled as an extended real: a
    finite real, one of the two infinities, or NaN.  The special values
    follow IEEE 754 as JavaScript exposes it ([0/0] is NaN, [log 0] is
    [-Infinity], [Math.max] propagates NaN, every comparison with NaN is
    false).  Rounding, overflow of finite results and the sign of zero are
    not tracked: finite results are the exact real results.  The only
    division whose divisor can be zero in the modelled code is the division
    by [reactors.length], a non-negative count.

    The seed of the random source is an integer; the recurrence is exact on
    integers as long as [seed * 9301 + 49297] stays below [2^53] in absolute
    value, which holds after the first draw for every seed and from the
    start for the seeds the program uses for its simulators. *)

From Stdlib Require Import Reals Lra Lia ZArith List String Bool Arith.
Import ListNotations.

(** ** JavaScript numbers *)

Module JS.

Inductive number : Type :=
| NaN
| PInf
| NInf
| Fin (x : R).

Definition Rgtb (x y : R) : bool := if Rlt_dec y x then true else false.
Definition Reqb (x y : R) : bool := if Req_dec_T x y then true else false.

(** Infinity scaled by a finite factor: the sign of the factor decides, and
    a zero factor gives NaN. *)
Definition scale_inf (positive : bool) (x : R) : number :=
  if Rgtb x 0 then (if positive then PInf else NInf)
  else if Rgtb 0 x then (if positive then NInf else PInf)
  else NaN.

Definition neg (a : number) : number :=
  match a with
  | NaN => NaN
  | PInf => NInf
  | NInf => PInf
  | Fin x => Fin (- x)
  end.

Definition add (a b : number) : number :=
  match a, b with
  | NaN, _ | _, NaN => NaN
  | PInf, NInf | NInf, PInf => NaN
  | PInf, _ | _, PInf => PInf
  | NInf, _ | _, NInf => NInf
  | Fin x, Fin y => Fin (x + y)
  end.

Definition sub (a b : number) : number :=
  match a, b with
  | NaN, _ | _, NaN => NaN
  | PInf, PInf | NInf, NInf => NaN
  | PInf, _ | _, NInf => PInf
  | NInf, _ | _, PInf => NInf
  | Fin x, Fin y => Fin (x - y)
  end.

Definition mul (a b : number) : number :=
  match a, b with
  | NaN, _ | _, NaN => NaN
  | PInf, PInf | NInf, NInf => PInf
  | PInf, NInf | NInf, PInf => NInf
  | PInf, Fin y | Fin y, PInf => scale_inf true y
  | NInf, Fin y | Fin y, NInf => scale_inf false y
  | Fin x, Fin y => Fin (x * y)
  end.

Definition div (a b : number) : number :=
  match a, b with
  | NaN, _ | _, NaN => NaN
  | (PInf | NInf), (PInf | NInf) => NaN
  | Fin _, (PInf | NInf) => Fin 0
  | PInf, Fin y => if Rgtb 0 y then NInf else PInf
  | NInf, Fin y => if Rgtb 0 y then PInf else NInf
  | Fin x, Fin y =>
      if Reqb y 0 then scale_inf true x else Fin (x / y)
  end.

(** [a > b] and [a < b]: false as soon as one side is NaN. *)
Definition gt (a b : number) : bool :=
  match a, b with
  | NaN, _ | _, NaN => false
  | PInf, PInf => false
  | PInf, _ => true
  | _, PInf => false
  | NInf, _ => false
  | Fin _, NInf => true
  | Fin x, Fin y => Rgtb x y
  end.

Definition lt (a b : number) : bool := gt b a.

(** [Math.max], [Math.min], [Math.abs]: NaN is contagious. *)
Definition max (a b : number) : number :=
  match a, b with
  | NaN, _ | _, NaN => NaN
  | PInf, _ | _, PInf => PInf
  | NInf, c | c, NInf => c
  | Fin x, Fin y => Fin (Rmax x y)
  end.

Definition min (a b : number) : number :=
  match a, b with
  | NaN, _ | _, NaN => NaN
  | NInf, _ | _, NInf => NInf
  | PInf, c | c, PInf => c
  | Fin x, Fin y => Fin (Rmin x y)
  end.

Definition abs (a : number) : number :=
  match a with
  | NaN => NaN
  | PInf | NInf => PInf
  | Fin x => Fin (Rabs x)
  end.

(** [Math.log]: NaN below zero, [-Infinity] at zero. *)
Definition log (a : number) : number :=
  match a with
  | NaN | NInf => NaN
  | PInf => PInf
  | Fin x => if Rgtb x 0 then Fin (ln x)
             else if Rgtb 0 x then NaN else NInf
  end.

Definition exp (a : number) : number :=
  match a with
  | NaN => NaN
  | PInf => PInf
  | NInf => Fin 0
  | Fin x => Fin (Rtrigo_def.exp x)
  end.

Definition sqrt (a : number) : number :=
  match a with
  | NaN | NInf => NaN
  | PInf => PInf
  | Fin x => if Rgtb 0 x then NaN else Fin (R_sqrt.sqrt x)
  end.

Definition cos (a : number) : number :=
  match a with
  | Fin x => Fin (Rtrigo_def.cos x)
  | _ => NaN
  end.

Definition PI : number := Fin Rtrigo1.PI.

Definition ofZ (z : Z) : number := Fin (IZR z).
Definition ofNat (n : nat) : number := Fin (INR n).

(** [Number.isFinite] and [Number.isNaN] as propositions. *)
Definition finite (a : number) : Prop := exists x, a = Fin x.
Definition isNaN (a : number) : Prop := a = NaN.

End JS.

Import JS.

Declare Scope js_scope.
Delimit Scope js_scope with js.
Bind Scope js_scope with number.
Notation "a + b" := (add a b) : js_scope.
Notation "a - b" := (sub a b) : js_scope.
Notation "a * b" := (mul a b) : js_scope.
Notation "a / b" := (div a b) : js_scope.
Notation "- a" := (neg a) : js_scope.
Notation "a >? b" := (gt a b) (at level 70, no associativity) : js_scope.
Notation "a <? b" := (lt a b) (at level 70, no associativity) : js_scope.
Notation "# x" := (Fin x%R) (at level 5, x at level 0, format "# x") : js_scope.

Local Open Scope js_scope.

(** ** State threading for the random source

    Every method of [SeededRandom] reads and writes the private field
    [seed]; a computation that draws from it is a function of the seed that
    returns its result and the next seed. *)

Definition Rand (A : Type) : Type := Z -> A * Z.

Definition ret {A} (a : A) : Rand A := fun s => (a, s).

Definition bind {A B} (c : Rand A) (k : A -> Rand B) : Rand B :=
  fun s => let (a, s') := c s in k a s'.

Notation "x <- c ;; k" := (bind c (fun x => k))
  (at level 61, c at next level, right associativity).

(** ** [class SeededRandom] *)

Module SeededRandom.

(** [constructor(seed)]: the object is its seed. *)
Definition new (seed : Z) : Z := seed.

(** [this.seed = (this.seed * 9301 + 49297) % 233280]: [%] keeps the sign
    of the dividend, as [Z.rem] does. *)
Definition advance (seed : Z) : Z := Z.rem (seed * 9301 + 49297) 233280.

Definition next : Rand number :=
  fun seed => let seed' := advance seed in (ofZ seed' / #233280, seed').

Definition range (lo hi : number) : Rand number :=
  u <- next ;;
  ret (lo + u * (hi - lo)).

(** Box-Muller transform. *)
Definition gaussian (mean stdDev : number) : Rand number :=
  u1 <- next ;;
  u2 <- next ;;
  let z0 := sqrt (#(-2) * log u1) * cos (#2 * PI * u2) in
  ret (mean + z0 * stdDev).

(** A call sequence on one instance: the methods a client can invoke, and
    the values they return in order. *)
Inductive call : Type :=
| Next
| Range (lo hi : number)
| Gaussian (mean stdDev : number).

Definition perform (c : call) : Rand number :=
  match c with
  | Next => next
  | Range lo hi => range lo hi
  | Gaussian mean stdDev => gaussian mean stdDev
  end.

Fixpoint performAll (cs : list call) : Rand (list number) :=
  match cs with
  | [] => ret []
  | c :: rest =>
      v <- perform c ;;
      vs <- performAll rest ;;
      ret (v :: vs)
  end.

End SeededRandom.

(** ** Data model ([types/reactor.ts]) *)

(** [Date] values are held as their epoch milliseconds; [Date_of v] is
    [new Date(v)], which keeps the whole milliseconds of a time value within
    the representable range and is an invalid date (NaN) otherwise. *)
Definition Date := number.

Definition Rtrunc (x : R) : R :=
  if Rgtb 0 x then (- IZR (Int_part (- x)))%R else IZR (Int_part x).

Definition Date_of (v : number) : Date :=
  match v with
  | Fin x => if Rgtb (Rabs x) 8640000000000000 then NaN else Fin (Rtrunc x)
  | _ => NaN
  end.

Record ReactorMetrics : Type := mkMetrics {
  temperature : number;
  pH : number;
  pressure : number;
  flowRate : number;
  enzymeActivity : number;
  substrateConcentration : number;
  productYield : number;
  dissolvedOxygen : number;
  timestamp : Date
}.

Record HistoricalDataPoint : Type := mkPoint {
  point_metrics : ReactorMetrics;
  point_id : string
}.

Inductive OperatingMode := batch | continuous | fed_batch.

Record ReactorConfig : Type := mkConfig {
  targetTemperature : number;
  targetPH : number;
  targetPressure : number;
  targetFlowRate : number;
  minEnzymeActivity : number;
  maxSubstrateConcentration : number;
  operatingMode : OperatingMode;
  autoOptimize : bool
}.

Inductive AlertType := info | warning | critical | success.

Definition AlertType_eqb (a b : AlertType) : bool :=
  match a, b with
  | info, info | warning, warning | critical, critical | success, success => true
  | _, _ => false
  end.

Record Alert : Type := mkAlert {
  alert_id : string;
  alert_reactorId : string;
  alert_type : AlertType;
  alert_message : string;
  alert_timestamp : Date;
  alert_resolved : bool;
  alert_parameter : option string;
  alert_value : option number
}.

Inductive Priority := low | medium | high.

Record ParameterAdjustment : Type := mkAdjustment {
  parameter : string;
  currentValue : number;
  suggestedValue : number;
  impact : string;
  priority : Priority
}.

Record EnzymeDeactivation : Type := mkDeactivation {
  hoursRemaining : number;
  confidence : number;
  suggestedAction : option string
}.

Record YieldOptimization : Type := mkYieldOpt {
  currentYield : number;
  predictedYield : number;
  confidenceInterval : number * number;
  recommendedChanges : list ParameterAdjustment
}.

Record AnomalyDetection : Type := mkAnomaly {
  score : number;
  parameters : list string
}.

Record AIPrediction : Type := mkPrediction {
  enzymeDeactivation : EnzymeDeactivation;
  yieldOptimization : YieldOptimization;
  anomalyDetection : AnomalyDetection
}.

Inductive Status := running | idle | maintenance | error | optimizing.

Record Reactor : Type := mkReactor {
  id : string;
  name : string;
  location : string;
  status : Status;
  currentMetrics : ReactorMetrics;
  history : list HistoricalDataPoint;
  alerts : list Alert;
  predictions : AIPrediction;
  config : ReactorConfig;
  uptime : number;
  totalBatches : number;
  lastMaintenance : Date
}.

Record DashboardStats : Type := mkStats {
  totalReactors : number;
  activeReactors : number;
  averageYield : number;
  totalAlerts : number;
  criticalAlerts : number;
  systemHealth : number;
  dailyProduction : number;
  stats_uptime : number
}.

(** ** [class EnzymeKineticsModel]

    The model keeps a reference to the simulator's random source, so its
    draws advance the same seed: [calculateActivity] is a [Rand]
    computation. *)

Module EnzymeKineticsModel.

Record t : Type := mk {
  time : number;
  initialActivity : number;
  deactivationRate : number
}.

Definition new : t := mk #0 #95 #0.002.

Definition calculateActivity (self : t) (hours temp ph : number) : Rand number :=
  let tempFactor := if temp >? #37 then #1 + (temp - #37) * #0.05 else #1 in
  let pHDeviation := abs (ph - #7.4) in
  let pHFactor := #1 + pHDeviation * #0.1 in
  let effectiveRate := deactivationRate self * tempFactor * pHFactor in
  let activity := initialActivity self * exp (- effectiveRate * hours) in
  noise <- SeededRandom.gaussian #0 #0.5 ;;
  ret (max #0 (activity + noise)).

Definition reset (self : t) : Rand t :=
  a <- SeededRandom.range #92 #98 ;;
  ret (mk #0 a (deactivationRate self)).

End EnzymeKineticsModel.

(** ** [class ReactorSimulator] *)

Module ReactorSimulator.

Record t : Type := mk {
  metrics : ReactorMetrics;
  config : ReactorConfig;
  startTime : Date;
  enzymeModel : EnzymeKineticsModel.t;
  random : Z;
  runningTime : number
}.

(** The constructor reads the clock three times: [now1] and [now2] are the
    two [Date.now()] readings, [now3] is the [new Date()] of the first
    snapshot. *)
Definition new (reactorId : string) (seed : Z) (now1 now2 now3 : number) : t :=
  let enzymeModel := EnzymeKineticsModel.new in
  let build : Rand (ReactorMetrics * ReactorConfig * Date * number) :=
    r <- SeededRandom.range #2 #48 ;;
    let startTime := Date_of (now1 - r * #3600000) in
    let runningTime := (now2 - startTime) / #3600000 in
    let config := mkConfig #35 #7.4 #1.2 #150 #70 #20 continuous true in
    g_temp <- SeededRandom.gaussian #0 #0.3 ;;
    g_ph <- SeededRandom.gaussian #0 #0.1 ;;
    g_press <- SeededRandom.gaussian #0 #0.05 ;;
    g_flow <- SeededRandom.gaussian #0 #5 ;;
    act <- EnzymeKineticsModel.calculateActivity enzymeModel runningTime
             (targetTemperature config) (targetPH config) ;;
    subst <- SeededRandom.range #10 #15 ;;
    yield <- SeededRandom.range #75 #85 ;;
    oxy <- SeededRandom.range #85 #95 ;;
    ret (mkMetrics (targetTemperature config + g_temp)
                   (targetPH config + g_ph)
                   (targetPressure config + g_press)
                   (targetFlowRate config + g_flow)
                   act subst yield oxy now3,
         config, startTime, runningTime) in
  let '(m, config, startTime, runningTime, seed') := build (SeededRandom.new seed) in
  mk m config startTime enzymeModel seed' runningTime.

(** One time step; [now] is the [new Date()] of the new snapshot.  The
    result is the copy [{ ...this.metrics }] and the updated object. *)
Definition update (now : number) (self : t) : ReactorMetrics * t :=
  let runningTime := runningTime self + #1 / #3600 in
  let m := metrics self in
  let cfg := config self in
  let step : Rand ReactorMetrics :=
    let tempError := targetTemperature cfg - temperature m in
    g_temp <- SeededRandom.gaussian #0 #0.05 ;;
    let temperature' := temperature m + (tempError * #0.02 + g_temp) in
    let pHError := targetPH cfg - pH m in
    g_ph <- SeededRandom.gaussian #0 #0.02 ;;
    let pH' := pH m + (pHError * #0.01 + g_ph) in
    let targetPressure := #1.0 + (flowRate m / #200) * #0.4 in
    g_press <- SeededRandom.gaussian #0 #0.01 ;;
    let pressure' := pressure m + ((targetPressure - pressure m) * #0.05 + g_press) in
    g_flow <- SeededRandom.gaussian #0 #2 ;;
    let flowRate' := max #0 (flowRate m + g_flow) in
    act <- EnzymeKineticsModel.calculateActivity (enzymeModel self)
             runningTime temperature' pH' ;;
    let consumptionRate := #0.5 * (act / #100) * (flowRate' / #150) in
    g_sub <- SeededRandom.gaussian #0 #0.1 ;;
    let substrate' :=
      max #5 (substrateConcentration m - consumptionRate * #0.001 + g_sub) in
    let theoreticalYield := (act / #100) * (substrate' / #15) * #90 in
    g_yield <- SeededRandom.gaussian #0 #0.5 ;;
    let yield1 := productYield m + ((theoreticalYield - productYield m) * #0.05 + g_yield) in
    let yield' := max #0 (min #100 yield1) in
    g_oxy <- SeededRandom.gaussian #0 #1 ;;
    let oxy1 := dissolvedOxygen m + g_oxy in
    let oxy' := max #70 (min #100 oxy1) in
    ret (mkMetrics temperature' pH' pressure' flowRate' act substrate' yield' oxy' now) in
  let (m', seed') := step (random self) in
  (m', mk m' cfg (startTime self) (enzymeModel self) seed' runningTime).

(** [adjustParameter(param, value)]: three independent [if]s on the
    parameter name. *)
Definition adjustParameter (param : string) (value : number) (self : t) : t :=
  let self1 :=
    if String.eqb param "temperature" then
      let c := config self in
      mk (metrics self)
         (mkConfig value (targetPH c) (targetPressure c) (targetFlowRate c)
                   (minEnzymeActivity c) (maxSubstrateConcentration c)
                   (operatingMode c) (autoOptimize c))
         (startTime self) (enzymeModel self) (random self) (runningTime self)
    else self in
  let self2 :=
    if String.eqb param "pH" then
      let c := config self1 in
      mk (metrics self1)
         (mkConfig (targetTemperature c) value (targetPressure c) (targetFlowRate c)
                   (minEnzymeActivity c) (maxSubstrateConcentration c)
                   (operatingMode c) (autoOptimize c))
         (startTime self1) (enzymeModel self1) (random self1) (runningTime self1)
    else self1 in
  if String.eqb param "flowRate" then
    let m := metrics self2 in
    mk (mkMetrics (temperature m) (pH m) (pressure m) value (enzymeActivity m)
                  (substrateConcentration m) (productYield m) (dissolvedOxygen m)
                  (timestamp m))
       (config self2) (startTime self2) (enzymeModel self2) (random self2)
       (runningTime self2)
  else self2.

Definition getConfig (self : t) : ReactorConfig := config self.
Definition getCurrentMetrics (self : t) : ReactorMetrics := metrics self.
Definition getRunningTime (self : t) : number := runningTime self.

(** [n] successive calls of [update], the clock read at each call given by
    [clock]; the result lists the snapshots in the order they were
    returned. *)
Fixpoint run (clock : list number) (self : t) : list ReactorMetrics * t :=
  match clock with
  | [] => ([], self)
  | now :: rest =>
      let (m, self') := update now self in
      let (ms, self'') := run rest self' in
      (m :: ms, self'')
  end.

End ReactorSimulator.

(** ** Array helpers *)

(** [xs.push(x)]. *)
Definition push {A} (xs : list A) (x : A) : list A := (xs ++ [x])%list.

(** [xs.slice(-n)] for a positive [n]: the last [n] elements, or all of
    them when there are fewer. *)
Definition slice_last {A} (n : nat) (xs : list A) : list A :=
  skipn (List.length xs - n) xs.

(** [xs.slice(0, n)]. *)
Definition slice_first {A} (n : nat) (xs : list A) : list A := firstn n xs.

(** [xs.reduce((sum, x) => sum + f(x), 0)]. *)
Definition sum_by {A} (f : A -> number) (xs : list A) : number :=
  fold_left (fun sum x => sum + f x) xs #0.

(** [xs.filter(p).length]. *)
Definition count_by {A} (p : A -> bool) (xs : list A) : number :=
  ofNat (List.length (filter p xs)).

Definition Status_eqb (a b : Status) : bool :=
  match a, b with
  | running, running | idle, idle | maintenance, maintenance
  | error, error | optimizing, optimizing => true
  | _, _ => false
  end.

Definition is_open_critical (a : Alert) : bool :=
  AlertType_eqb (alert_type a) critical && negb (alert_resolved a).

(** ** The functions of the mock-data generator

    Number formatting is left abstract: [toFixed d x] stands for
    [x.toFixed(d)] and [toString x] for the interpolation of a number in a
    template string. *)

Section Generator.

Variable toFixed : nat -> number -> string.
Variable toString : number -> string.

Local Open Scope string_scope.
Local Open Scope js_scope.

(** [generateAlerts].  [now] is the [new Date()] taken on entry; [stamp k]
    and [rnd k] are the [Date.now()] reading and the [Math.random()] draw
    made by the [k]-th rule when it fires (each rule makes at most one of
    each). *)
Definition generateAlerts (reactorId : string) (m : ReactorMetrics)
    (history : list HistoricalDataPoint)
    (now : number) (stamp rnd : nat -> number) : list Alert :=
  let alerts0 : list Alert := [] in
  let alerts1 :=
    if abs (pH m - #7.4) >? #0.3 then
      push alerts0
        (mkAlert ("alert-" ++ reactorId ++ "-ph-" ++ toString (stamp 0%nat))
               reactorId
               (if abs (pH m - #7.4) >? #0.5 then critical else warning)
               ("pH deviation detected: " ++ toFixed 2 (pH m) ++ " (target: 7.4)")
               (Date_of (now - rnd 0%nat * #3600000))
               false (Some "pH") (Some (pH m)))
    else alerts0 in
  let alerts2 :=
    if enzymeActivity m <? #75 then
      push alerts1
        (mkAlert ("alert-" ++ reactorId ++ "-enzyme-" ++ toString (stamp 1%nat))
               reactorId
               (if enzymeActivity m <? #70 then critical else warning)
               ("Low enzyme activity: " ++ toFixed 1 (enzymeActivity m) ++ "%")
               (Date_of (now - rnd 1%nat * #7200000))
               false (Some "enzymeActivity") (Some (enzymeActivity m)))
    else alerts1 in
  let alerts3 :=
    if (10 <=? List.length history)%nat then
      let recentTemps :=
        map (fun d => temperature (point_metrics d)) (slice_last 10 history) in
      let tempVariance :=
        fold_left (fun sum t =>
                     sum + (t - temperature m) * (t - temperature m))
                  recentTemps #0 / #10 in
      if tempVariance >? #0.5 then
        push alerts2
        (mkAlert ("alert-" ++ reactorId ++ "-temp-" ++ toString (stamp 2%nat))
                 reactorId info
                 "Temperature fluctuation detected - control system compensating"
                 (Date_of (now - rnd 2%nat * #1800000))
                 true (Some "temperature") (Some (temperature m)))
      else alerts2
    else alerts2 in
  let alerts4 :=
    if productYield m >? #82 then
      push alerts3
        (mkAlert ("alert-" ++ reactorId ++ "-success-" ++ toString (stamp 3%nat))
               reactorId success
               ("High yield achieved: " ++ toFixed 1 (productYield m) ++ "%")
               (Date_of (now - rnd 3%nat * #900000))
               true (Some "productYield") (Some (productYield m)))
    else alerts3 in
  slice_first 5 alerts4.

(** The deactivation forecast shared by [generateAIPredictions] and the
    provider's tick:
    [Math.max(0, Math.log(currentActivity / 70) / deactivationRate)]. *)
Definition forecastHoursRemaining (currentActivity : number) : number :=
  let deactivationRate := #0.002 in
  let hoursTo70Percent := log (currentActivity / #70) / deactivationRate in
  max #0 hoursTo70Percent.

(** The recommendation list of [generateAIPredictions]. *)
Definition recommendations (m : ReactorMetrics) : list ParameterAdjustment :=
  let optimizedTemp := #35.8 in
  let optimizedPH := #7.35 in
  let optimizedFlow := #165 in
  let tempDelta := abs (temperature m - optimizedTemp) in
  let pHDelta := abs (pH m - optimizedPH) in
  let flowDelta := abs (flowRate m - optimizedFlow) in
  let recs0 : list ParameterAdjustment := [] in
  let recs1 :=
    if tempDelta >? #0.5 then
      push recs0
        (mkAdjustment "temperature" (temperature m) optimizedTemp
                  ("+" ++ toFixed 1 (tempDelta * #2) ++ "% yield")
                  (if tempDelta >? #1 then high else medium))
    else recs0 in
  let recs2 :=
    if pHDelta >? #0.1 then
      push recs1
        (mkAdjustment "pH" (pH m) optimizedPH
                  ("+" ++ toFixed 1 (pHDelta * #15) ++ "% yield")
                  (if pHDelta >? #0.3 then high else medium))
    else recs1 in
  if flowDelta >? #10 then
    push recs2
        (mkAdjustment "flowRate" (flowRate m) optimizedFlow
                ("+" ++ toFixed 1 (flowDelta * #0.05) ++ "% yield")
                low)
  else recs2.

(** [generateAIPredictions]; [nowSeed] is the [Date.now()] reading that
    seeds the local random source.  The [history] and [runningTime]
    arguments are not read by the source. *)
Definition generateAIPredictions (m : ReactorMetrics)
    (history : list HistoricalDataPoint) (runningTime : number)
    (nowSeed : Z) : AIPrediction :=
  let random := SeededRandom.new nowSeed in
  let currentActivity := enzymeActivity m in
  let currentYield := productYield m in
  let tempDelta := abs (temperature m - #35.8) in
  let pHDelta := abs (pH m - #7.35) in
  let flowDelta := abs (flowRate m - #165) in
  let potentialGain := (tempDelta * #2) + (pHDelta * #15) + (flowDelta * #0.05) in
  let predictedYield := min #95 (currentYield + potentialGain) in
  let anomalyScore :=
    max #0 (min #1 ((tempDelta / #5) + (pHDelta / #2)
                    + ((#100 - enzymeActivity m) / #100))) in
  mkPrediction
    (mkDeactivation
       (forecastHoursRemaining currentActivity)
       (#0.87 + fst (SeededRandom.range #0 #0.1 random))
       (if currentActivity <? #80
        then Some "Consider enzyme replenishment or batch termination"
        else None))
    (mkYieldOpt currentYield predictedYield
       (predictedYield - #2.5, predictedYield + #2.5)
       (recommendations m))
    (mkAnomaly anomalyScore
       (if anomalyScore >? #0.3 then ["temperature"; "pH"] else [])).

(** [generateDashboardStats]. *)
Definition generateDashboardStats (reactors : list Reactor) : DashboardStats :=
  let len := ofNat (List.length reactors) in
  let activeReactors :=
    count_by (fun r => Status_eqb (status r) running
                       || Status_eqb (status r) optimizing) reactors in
  let averageYield :=
    sum_by (fun r => productYield (currentMetrics r)) reactors / len in
  let totalAlerts := sum_by (fun r => ofNat (List.length (alerts r))) reactors in
  let criticalAlerts :=
    sum_by (fun r => count_by is_open_critical (alerts r)) reactors in
  let avgEnzymeActivity :=
    sum_by (fun r => enzymeActivity (currentMetrics r)) reactors / len in
  mkStats len activeReactors averageYield totalAlerts criticalAlerts
          avgEnzymeActivity
          (sum_by (fun r => if Status_eqb (status r) running
                            then productYield (currentMetrics r) * #0.5
                            else #0) reactors)
          ((activeReactors / len) * #100).

End Generator.

(** ** The reactor context ([ReactorProvider]) *)

Module ReactorProvider.

(** What one reactor's update reads from the outside during a tick:
    [rnd k] is its [k]-th [Math.random()] draw (nine draws, all
    unconditional), [now] its [new Date()], [stamp] its [Date.now()];
    [isOptimizing] and [selectedReactor] are the provider's state captured
    by the interval callback. *)
Record TickEnv : Type := mkEnv {
  rnd : nat -> number;
  now : number;
  stamp : number;
  isOptimizing : bool;
  selectedReactor : option Reactor
}.

(** [[...history.slice(-287), newHistoryPoint]]. *)
Definition appendHistory (h : list HistoricalDataPoint) (p : HistoricalDataPoint)
  : list HistoricalDataPoint :=
  (slice_last 287 h ++ [p])%list.

Section Provider.

Variable toFixed : nat -> number -> string.
Variable toString : number -> string.

Local Open Scope string_scope.
Local Open Scope js_scope.

(** The drifted metrics of one reactor. *)
Definition tickMetrics (e : TickEnv) (reactor : Reactor) : ReactorMetrics :=
  let m := currentMetrics reactor in
  let tempTarget := targetTemperature (config reactor) in
  let tempError := tempTarget - temperature m in
  let temperature' :=
    temperature m + (tempError * #0.02 + (rnd e 0%nat - #0.5) * #0.1) in
  let pHTarget := targetPH (config reactor) in
  let pHError := pHTarget - pH m in
  let pH' := pH m + (pHError * #0.01 + (rnd e 1%nat - #0.5) * #0.03) in
  let targetPressure := #1.0 + (flowRate m / #200) * #0.4 in
  let pressureError := targetPressure - pressure m in
  let pressure' :=
    pressure m + (pressureError * #0.05 + (rnd e 2%nat - #0.5) * #0.02) in
  let flow1 := flowRate m + (rnd e 3%nat - #0.5) * #3 in
  let flowRate' := max #100 (min #200 flow1) in
  let hoursRunning := uptime reactor in
  let deactivationRate := #0.002 in
  let act1 :=
    #95 * exp (- deactivationRate * hoursRunning) + (rnd e 4%nat - #0.5) * #0.5 in
  let act' := max #60 act1 in
  let consumptionRate := #0.5 * (act' / #100) in
  let sub1 := substrateConcentration m - consumptionRate * #0.001 in
  let substrate' := max #5 (sub1 + (rnd e 5%nat - #0.5) * #0.2) in
  let theoreticalYield := (act' / #100) * #90 in
  let yieldError := theoreticalYield - productYield m in
  let yield1 :=
    productYield m + (yieldError * #0.05 + (rnd e 6%nat - #0.5) * #0.5) in
  let yield' := max #60 (min #95 yield1) in
  let oxy1 := dissolvedOxygen m + (rnd e 7%nat - #0.5) * #2 in
  let oxy' := max #75 (min #100 oxy1) in
  mkMetrics temperature' pH' pressure' flowRate' act' substrate' yield' oxy'
            (now e).

(** The history point the tick appends. *)
Definition newHistoryPoint (e : TickEnv) (reactor : Reactor) : HistoricalDataPoint :=
  mkPoint (tickMetrics e reactor) (id reactor ++ "-" ++ toString (stamp e)).

(** The body of [prevReactors.map((reactor) => ...)] in the interval
    callback. *)
Definition tickReactor (e : TickEnv) (reactor : Reactor) : Reactor :=
  let metrics := tickMetrics e reactor in
  let history' := appendHistory (history reactor) (newHistoryPoint e reactor) in
  let uptime' := uptime reactor + #2 / #3600 in
  let currentActivity := enzymeActivity metrics in
  let old := predictions reactor in
  let predictions' :=
    mkPrediction
      (mkDeactivation
         (forecastHoursRemaining currentActivity)
         (#0.87 + rnd e 8%nat * #0.1)
         (if currentActivity <? #80 then Some "Consider enzyme replenishment"
          else None))
      (yieldOptimization old) (anomalyDetection old) in
  let status' :=
    if enzymeActivity metrics <? #70 then maintenance
    else if existsb is_open_critical (alerts reactor) then error
    else if isOptimizing e
            && match selectedReactor e with
               | Some sel => String.eqb (id reactor) (id sel)
               | None => false
               end
         then optimizing
    else running in
  mkReactor (id reactor) (name reactor) (location reactor) status' metrics
            history' (alerts reactor) predictions' (config reactor) uptime'
            (totalBatches reactor) (lastMaintenance reactor).

(** One firing of the interval: every reactor is updated, with its own
    readings, and the dashboard statistics are recomputed. *)
Fixpoint tickAll (envs : nat -> TickEnv) (i : nat) (reactors : list Reactor)
  : list Reactor :=
  match reactors with
  | [] => []
  | r :: rest => tickReactor (envs i) r :: tickAll envs (S i) rest
  end.

Definition tick (envs : nat -> TickEnv) (reactors : list Reactor)
  : list Reactor * DashboardStats :=
  let updated := tickAll envs 0 reactors in
  (updated, generateDashboardStats updated).

(** Successive ticks of one reactor, and the points they append. *)
Fixpoint ticks (envs : list TickEnv) (reactor : Reactor) : Reactor :=
  match envs with
  | [] => reactor
  | e :: rest => ticks rest (tickReactor e reactor)
  end.

Fixpoint appended (envs : list TickEnv) (reactor : Reactor)
  : list HistoricalDataPoint :=
  match envs with
  | [] => []
  | e :: rest => newHistoryPoint e reactor :: appended rest (tickReactor e reactor)
  end.

(** [updateReactorParameter]: the body of the [map] for the reactor whose id
    matches.  The assignment to [updated.config] writes through the shallow
    copy into the reactor's own config object; the result carries the
    written config. *)
Definition adjustReactor (reactorId parameter : string) (value : number)
    (now stamp : number) (reactor : Reactor) : Reactor :=
  let c := config reactor in
  let m := currentMetrics reactor in
  let config' :=
    if String.eqb parameter "temperature" then
      mkConfig value (targetPH c) (targetPressure c) (targetFlowRate c)
               (minEnzymeActivity c) (maxSubstrateConcentration c)
               (operatingMode c) (autoOptimize c)
    else if String.eqb parameter "pH" then
      mkConfig (targetTemperature c) value (targetPressure c) (targetFlowRate c)
               (minEnzymeActivity c) (maxSubstrateConcentration c)
               (operatingMode c) (autoOptimize c)
    else c in
  let metrics' :=
    if String.eqb parameter "temperature" then m
    else if String.eqb parameter "pH" then m
    else if String.eqb parameter "flowRate" then
      mkMetrics (temperature m) (pH m) (pressure m) value (enzymeActivity m)
                (substrateConcentration m) (productYield m) (dissolvedOxygen m)
                (timestamp m)
    else m in
  let alerts' :=
    (mkAlert ("alert-" ++ reactorId ++ "-manual-" ++ toString stamp)
             reactorId info
             ("Manual adjustment: " ++ parameter ++ " set to " ++ toFixed 2 value)
             now false (Some parameter) (Some value)
     :: slice_first 4 (alerts reactor))%list in
  mkReactor (id reactor) (name reactor) (location reactor) (status reactor)
            metrics' (history reactor) alerts' (predictions reactor) config'
            (uptime reactor) (totalBatches reactor) (lastMaintenance reactor).

Definition updateReactorParameter (reactorId parameter : string) (value : number)
    (now stamp : number) (reactors : list Reactor) : list Reactor :=
  map (fun reactor =>
         if negb (String.eqb (id reactor) reactorId) then reactor
         else adjustReactor reactorId parameter value now stamp reactor)
      reactors.

End Provider.

End ReactorProvider.

(** * Further operations of the generator and of the reactor context *)

(** [Math.floor]. *)
Definition floor (a : number) : number :=
  match a with
  | Fin x => Fin (IZR (Int_part x))
  | other => other
  end.

(** [s.charCodeAt(0)] for a string of one-byte characters.  On the empty
    string the source obtains NaN; a NaN seed is outside the integer seeds
    of [SeededRandom], so the callers below give no result ([None]) there. *)
Definition charCodeAt0 (s : string) : option Z :=
  match s with
  | EmptyString => None
  | String c _ => Some (Z.of_nat (Ascii.nat_of_ascii c))
  end.

(** [{ ...metrics, timestamp: t }]. *)
Definition with_timestamp (m : ReactorMetrics) (t : Date) : ReactorMetrics :=
  mkMetrics (temperature m) (pH m) (pressure m) (flowRate m) (enzymeActivity m)
            (substrateConcentration m) (productYield m) (dissolvedOxygen m) t.

(** [xs.map((x, i) => f(i, x))], the index starting at [i]. *)
Fixpoint mapi_from {A B} (f : nat -> A -> B) (i : nat) (xs : list A) : list B :=
  match xs with
  | [] => []
  | x :: rest => f i x :: mapi_from f (S i) rest
  end.

(** What [generateHistoricalData] reads from the clock: the three readings
    of the simulator's constructor, the [new Date()] of the [j]-th update
    of point [i], and the [Date.now()] of point [i]. *)
Record HistoryEnv : Type := mkHistoryEnv {
  hist_now1 : number;
  hist_now2 : number;
  hist_now3 : number;
  hist_tick : nat -> nat -> number;
  hist_point : nat -> number
}.

(** What [createMockReactor] reads from the outside, in the order of its
    calls. *)
Record MockEnv : Type := mkMockEnv {
  mock_now1 : number;
  mock_now2 : number;
  mock_now3 : number;
  mock_history : HistoryEnv;
  mock_alertsNow : number;
  mock_alertsStamp : nat -> number;
  mock_alertsRnd : nat -> number;
  mock_predictionSeed : Z;
  mock_maintenanceNow : number
}.

Section MoreGenerator.

Variable toFixed : nat -> number -> string.
Variable toString : number -> string.

Local Open Scope string_scope.
Local Open Scope js_scope.

(** The inner loop [for (j = 0; j < n; j++) simulator.update()], from
    index [j]. *)
Fixpoint updates (clock : nat -> number) (j n : nat) (sim : ReactorSimulator.t)
  : ReactorSimulator.t :=
  match n with
  | O => sim
  | S n' => updates clock (S j) n' (snd (ReactorSimulator.update (clock j) sim))
  end.

(** [(hours * 60) / intervalMinutes], as the source computes it. *)
Definition pointsCount (hours intervalMinutes : nat) : number :=
  (ofNat hours * #60) / ofNat intervalMinutes.

(** The number of passes of [for (i = 0; i < pointsCount; i++)]: the
    quotient rounded up; none when [pointsCount] is NaN ([0 / 0]); [None]
    when it is [Infinity], where the loop does not end. *)
Definition pointPasses (hours intervalMinutes : nat) : option nat :=
  if (intervalMinutes =? 0)%nat then
    if (hours =? 0)%nat then Some O else None
  else Some ((hours * 60 + intervalMinutes - 1) / intervalMinutes)%nat.

(** The outer loop from point [i], with [n] passes left. *)
Fixpoint historyPoints (env : HistoryEnv) (reactorId : string)
    (hours intervalMinutes : nat) (n i : nat) (sim : ReactorSimulator.t)
  : list HistoricalDataPoint :=
  match n with
  | O => []
  | S n' =>
      let sim' := updates (hist_tick env i) 0 (intervalMinutes * 60) sim in
      let metrics := ReactorSimulator.getCurrentMetrics sim' in
      mkPoint
        (with_timestamp metrics
           (Date_of (hist_point env i
                     - (pointsCount hours intervalMinutes - ofNat i)
                       * ofNat intervalMinutes * #60000)))
        (reactorId ++ "-" ++ toString (ofNat i))
      :: historyPoints env reactorId hours intervalMinutes n' (S i) sim'
  end.

(** [generateHistoricalData(reactorId, hours, intervalMinutes)]. *)
Definition generateHistoricalData (reactorId : string)
    (hours intervalMinutes : nat) (env : HistoryEnv)
  : option (list HistoricalDataPoint) :=
  match charCodeAt0 reactorId, pointPasses hours intervalMinutes with
  | Some seed, Some n =>
      let simulator :=
        ReactorSimulator.new reactorId seed
          (hist_now1 env) (hist_now2 env) (hist_now3 env) in
      Some (historyPoints env reactorId hours intervalMinutes n 0 simulator)
  | _, _ => None
  end.

(** [createMockReactor(id, name, location, seed)]. *)
Definition createMockReactor (id name location : string) (seed : Z)
    (env : MockEnv) : option Reactor :=
  let simulator :=
    ReactorSimulator.new id seed (mock_now1 env) (mock_now2 env) (mock_now3 env) in
  let currentMetrics := ReactorSimulator.getCurrentMetrics simulator in
  match generateHistoricalData id 24 5 (mock_history env) with
  | None => None
  | Some history =>
      let alerts :=
        generateAlerts toFixed toString id currentMetrics history
          (mock_alertsNow env) (mock_alertsStamp env) (mock_alertsRnd env) in
      let predictions :=
        generateAIPredictions toFixed currentMetrics history
          (ReactorSimulator.getRunningTime simulator) (mock_predictionSeed env) in
      let random := SeededRandom.new seed in
      let status :=
        if enzymeActivity currentMetrics <? #70 then maintenance
        else if existsb (fun a => AlertType_eqb (alert_type a) critical) alerts
             then error
        else running in
      let (batches, random1) := SeededRandom.range #50 #200 random in
      let (days, _) := SeededRandom.range #5 #30 random1 in
      Some (mkReactor id name location status currentMetrics history alerts
              predictions (ReactorSimulator.getConfig simulator)
              (ReactorSimulator.getRunningTime simulator)
              (floor batches)
              (Date_of (mock_maintenanceNow env - days * #86400000)))
  end.

(** [updateReactorMetrics(reactor)]: a fresh simulator seeded from the
    first character of the id, advanced once. *)
Definition updateReactorMetrics (reactor : Reactor)
    (now1 now2 now3 now : number) : option ReactorMetrics :=
  match charCodeAt0 (id reactor) with
  | None => None
  | Some seed =>
      Some (fst (ReactorSimulator.update now
                   (ReactorSimulator.new (id reactor) seed now1 now2 now3)))
  end.

End MoreGenerator.

(** ** The state of the reactor context and its callbacks *)

Module ReactorContext.

Inductive ResultStatus := result_running | result_completed | result_failed.

Record Improvements : Type := mkImprovements {
  yieldIncrease : number;
  efficiencyGain : number;
  costReduction : number
}.

Record OptimizationResult : Type := mkResult {
  result_reactorId : string;
  result_timestamp : Date;
  result_status : ResultStatus;
  progress : number;
  parametersAnalyzed : number;
  improvements : Improvements;
  appliedChanges : list ParameterAdjustment
}.

(** The [useState] cells of [ReactorProvider]. *)
Record State : Type := mkState {
  reactors : list Reactor;
  selectedReactor : option Reactor;
  dashboardStats : DashboardStats;
  isOptimizing : bool;
  optimizationResult : option OptimizationResult
}.

(** What the deferred callback of [startOptimization] reads: its three
    [Math.random()] draws, the [new Date()] of the result, and for the
    reactor at position [i] the [Date.now()] and [new Date()] of its
    alert. *)
Record CompletionEnv : Type := mkCompletionEnv {
  done_rnd : nat -> number;
  done_now : number;
  done_alertStamp : nat -> number;
  done_alertNow : nat -> number
}.

Section Callbacks.

Variable toFixed : nat -> number -> string.
Variable toString : number -> string.

Local Open Scope string_scope.
Local Open Scope js_scope.

(** [reactors.find((r) => r.id === reactorId)]. *)
Definition findReactor (reactorId : string) (rs : list Reactor) : option Reactor :=
  find (fun r => String.eqb (id r) reactorId) rs.

(** [selectReactor(reactorId)]. *)
Definition selectReactor (reactorId : string) (st : State) : State :=
  mkState (reactors st) (findReactor reactorId (reactors st))
          (dashboardStats st) (isOptimizing st) (optimizationResult st).

(** [dismissAlert(reactorId, alertId)]. *)
Definition dismissIn (alertId : string) (a : Alert) : Alert :=
  if String.eqb (alert_id a) alertId then
    mkAlert (alert_id a) (alert_reactorId a) (alert_type a) (alert_message a)
            (alert_timestamp a) true (alert_parameter a) (alert_value a)
  else a.

Definition dismissAlert (reactorId alertId : string) (rs : list Reactor)
  : list Reactor :=
  map (fun reactor =>
         if negb (String.eqb (id reactor) reactorId) then reactor
         else mkReactor (id reactor) (name reactor) (location reactor)
                (status reactor) (currentMetrics reactor) (history reactor)
                (map (dismissIn alertId) (alerts reactor))
                (predictions reactor) (config reactor) (uptime reactor)
                (totalBatches reactor) (lastMaintenance reactor))
      rs.

(** [applyOptimization(reactorId, changes)]: one [updateReactorParameter]
    per change, in order; [now k] and [stamp k] are the readings of the
    [k]-th one. *)
Fixpoint applyChanges (reactorId : string) (changes : list ParameterAdjustment)
    (now stamp : nat -> number) (k : nat) (rs : list Reactor) : list Reactor :=
  match changes with
  | [] => rs
  | change :: rest =>
      applyChanges reactorId rest now stamp (S k)
        (ReactorProvider.updateReactorParameter toFixed toString reactorId
           (parameter change) (suggestedValue change) (now k) (stamp k) rs)
  end.

Definition applyOptimization (reactorId : string)
    (changes : list ParameterAdjustment) (now stamp : nat -> number)
    (st : State) : State :=
  mkState (applyChanges reactorId changes now stamp 0 (reactors st))
          (selectedReactor st) (dashboardStats st) (isOptimizing st)
          (optimizationResult st).

(** The timer of [applyOptimization], five seconds later. *)
Definition clearOptimizationResult (st : State) : State :=
  mkState (reactors st) (selectedReactor st) (dashboardStats st)
          (isOptimizing st) None.

(** [startOptimization(reactorId)], up to the [setTimeout]: the latch is
    set first, and the callback is scheduled only when the reactor is
    found; the second component is the reactor the callback captures. *)
Definition startOptimization (reactorId : string) (st : State)
  : State * option Reactor :=
  (mkState (reactors st) (selectedReactor st) (dashboardStats st) true
           (optimizationResult st),
   findReactor reactorId (reactors st)).

(** The deferred callback of [startOptimization], run on the state of its
    time with the reactor captured at the start. *)
Definition completeOptimization (reactorId : string) (captured : Reactor)
    (env : CompletionEnv) (st : State) : State :=
  let imp :=
    mkImprovements (#8.5 + done_rnd env 0%nat * #5)
                   (#12.3 + done_rnd env 1%nat * #3)
                   (#7.8 + done_rnd env 2%nat * #2) in
  let result :=
    mkResult reactorId (done_now env) result_completed #100 #14 imp
      (recommendedChanges (yieldOptimization (predictions captured))) in
  let reactors' :=
    mapi_from
      (fun i r =>
         if negb (String.eqb (id r) reactorId) then r
         else mkReactor (id r) (name r) (location r) running
                (currentMetrics r) (history r)
                (mkAlert ("alert-" ++ reactorId ++ "-opt-"
                          ++ toString (done_alertStamp env i))
                         reactorId success
                         ("Optimization complete: +"
                          ++ toFixed 1 (yieldIncrease imp)
                          ++ "% yield predicted")
                         (done_alertNow env i) false None None
                 :: slice_first 4 (alerts r))%list
                (predictions r) (config r) (uptime r) (totalBatches r)
                (lastMaintenance r))
      0 (reactors st) in
  mkState reactors' (selectedReactor st) (dashboardStats st) false (Some result).

(** [refreshReactor(reactorId)]: every reactor with that id is rebuilt from
    the first character of its id, its config kept; [envs i] are the
    readings for the reactor at position [i]. *)
Fixpoint refreshFrom (reactorId : string) (envs : nat -> MockEnv) (i : nat)
    (rs : list Reactor) : option (list Reactor) :=
  match rs with
  | [] => Some []
  | reactor :: rest =>
      let refreshed :=
        if negb (String.eqb (id reactor) reactorId) then Some reactor
        else
          match charCodeAt0 (id reactor) with
          | None => None
          | Some seed =>
              match createMockReactor toFixed toString (id reactor)
                      (name reactor) (location reactor) seed (envs i) with
              | None => None
              | Some fresh =>
                  Some (mkReactor (id fresh) (name fresh) (location fresh)
                          (status fresh) (currentMetrics fresh) (history fresh)
                          (alerts fresh) (predictions fresh) (config reactor)
                          (uptime fresh) (totalBatches fresh)
                          (lastMaintenance fresh))
              end
          end in
      match refreshed, refreshFrom reactorId envs (S i) rest with
      | Some r, Some rest' => Some (r :: rest')
      | _, _ => None
      end
  end.

Definition refreshReactor (reactorId : string) (envs : nat -> MockEnv)
    (rs : list Reactor) : option (list Reactor) :=
  refreshFrom reactorId envs 0 rs.

End Callbacks.

End ReactorContext.

(** The condition of the temperature-stability rule of [generateAlerts]:
    at least ten history points, and a mean squared distance of the last
    ten temperatures to the current one above 0.5. *)
Definition temperatureFluctuates (m : ReactorMetrics)
    (history : list HistoricalDataPoint) : bool :=
  (10 <=? List.length history)%nat
  && (fold_left (fun sum t => sum + (t - temperature m) * (t - temperature m))
        (map (fun d => temperature (point_metrics d)) (slice_last 10 history))
        #0 / #10 >? #0.5).

(** What an alert says, apart from its texts and times. *)
Definition alert_summary (a : Alert) : option string * AlertType * bool :=
  (alert_parameter a, alert_type a, alert_resolved a).

(** The shape of the alert that a manual adjustment prepends: an
    unresolved info alert carrying a parameter and a value. *)
Definition is_manual (a : Alert) : Prop :=
  alert_type a = info /\ alert_resolved a = false /\
  alert_parameter a <> None /\ alert_value a <> None.

(** Two reactors that differ at most in their alerts, element by element
    according to [R]. *)
Definition same_but_alerts (R : Alert -> Alert -> Prop) (r r' : Reactor) : Prop :=
  id r' = id r /\ name r' = name r /\ location r' = location r /\
  status r' = status r /\ currentMetrics r' = currentMetrics r /\
  history r' = history r /\ predictions r' = predictions r /\
  config r' = config r /\ uptime r' = uptime r /\
  totalBatches r' = totalBatches r /\ lastMaintenance r' = lastMaintenance r /\
  Forall2 R (alerts r) (alerts r').

(** * Derived notions used by the statements *)

(** What [refreshReactor] does to one reactor: identity and config are
    kept; a reactor with another id is returned as it is; a reactor with
    the id is rebuilt with a history of 288 points, at most four alerts and
    a status computed from the fresh state. *)
Definition refreshed (reactorId : string) (r r' : Reactor) : Prop :=
  id r' = id r /\ name r' = name r /\ location r' = location r /\
  config r' = config r /\
  (id r <> reactorId -> r' = r) /\
  (id r = reactorId ->
   List.length (history r') = 288%nat /\
   (List.length (alerts r') <= 4)%nat /\
   (status r' = maintenance \/ status r' = error \/ status r' = running)).


(** No alert of the list is about the pH. *)
Definition no_pH_alert (l : list Alert) : Prop :=
  Forall (fun b => alert_parameter b <> Some "pH"%string) l.

(** The uniform value drawn from a state of the random source, as a real. *)
Definition uniform (s : Z) : R := (IZR (SeededRandom.advance s) / 233280)%R.

(** The Box-Muller factor [sqrt(-2 ln u1) * cos(2 pi u2)] of a state, as a
    real; it is the factor [z0] of [gaussian] when the first draw is
    positive. *)
Definition boxMuller (s : Z) : R :=
  (R_sqrt.sqrt (-2 * ln (uniform s))
   * Rtrigo_def.cos (2 * Rtrigo1.PI * uniform (SeededRandom.advance s)))%R.

(** The first uniform draw of each of the next [n] Gaussian draws is
    positive. *)
Fixpoint positive_draws (n : nat) (s : Z) : Prop :=
  match n with
  | O => True
  | S n' => (0 < SeededRandom.advance s)%Z
            /\ positive_draws n' (SeededRandom.advance (SeededRandom.advance s))
  end.

(** A finite number within [[lo, hi]], or at least [lo]. *)
Definition between (lo hi : R) (a : number) : Prop :=
  exists x, a = #x /\ (lo <= x <= hi)%R.

Definition at_least (lo : R) (a : number) : Prop :=
  exists x, a = #x /\ (lo <= x)%R.

(** The bounds of the specification, with the lower clamp of the dissolved
    oxygen as a parameter (70 in the simulator, 75 in the provider). *)
Definition within_bounds (oxygenFloor : R) (m : ReactorMetrics) : Prop :=
  between 0 100 (enzymeActivity m) /\
  between 0 100 (productYield m) /\
  between oxygenFloor 100 (dissolvedOxygen m) /\
  at_least 0 (flowRate m) /\
  at_least 5 (substrateConcentration m).

Definition finite_metrics (m : ReactorMetrics) : Prop :=
  finite (temperature m) /\ finite (pH m) /\ finite (pressure m) /\
  finite (flowRate m) /\ finite (enzymeActivity m) /\
  finite (substrateConcentration m) /\ finite (productYield m) /\
  finite (dissolvedOxygen m).

(** A simulator as the constructor leaves it and [update] keeps it: finite
    metrics and targets, a non-negative running time, the kinetics model of
    the constructor, a non-negative seed. *)
Definition sim_ready (s : ReactorSimulator.t) : Prop :=
  finite_metrics (ReactorSimulator.metrics s) /\
  finite (targetTemperature (ReactorSimulator.config s)) /\
  finite (targetPH (ReactorSimulator.config s)) /\
  at_least 0 (ReactorSimulator.runningTime s) /\
  ReactorSimulator.enzymeModel s = EnzymeKineticsModel.new /\
  (0 <= ReactorSimulator.random s)%Z.

(** A [Math.random()] draw: a finite number in [[0, 1)]. *)
Definition unit_draw (a : number) : Prop :=
  exists u, a = #u /\ (0 <= u < 1)%R.

(** * Predicates of the specification *)

(** The reading of the specification: every field is the number zero. *)
Definition all_zero (s : DashboardStats) : Prop :=
  totalReactors s = #0 /\ activeReactors s = #0 /\ averageYield s = #0 /\
  totalAlerts s = #0 /\ criticalAlerts s = #0 /\ systemHealth s = #0 /\
  dailyProduction s = #0 /\ stats_uptime s = #0.

(** The kinetics formula in the words of the specification:
    [tempFactor = 1 + max(0, temperature - 37) * 0.05],
    [pHFactor = 1 + |pH - 7.4| * 0.1], and the decayed activity
    [initialActivity * exp(-(0.002 * tempFactor * pHFactor) * elapsedHours)]. *)
Definition spec_tempFactor (temperature : R) : R :=
  (1 + Rmax 0 (temperature - 37) * 0.05)%R.

Definition spec_pHFactor (pH : R) : R :=
  (1 + Rabs (pH - 7.4) * 0.1)%R.

Definition spec_decay (initialActivity elapsedHours temperature pH : R) : R :=
  (initialActivity
   * Rtrigo_def.exp (- (0.002 * spec_tempFactor temperature * spec_pHFactor pH)
                     * elapsedHours))%R.

(** The same formula read on JavaScript numbers, for inputs that need not
    be finite. *)
Definition spec_tempFactor_js (temperature : number) : number :=
  #1 + max #0 (temperature - #37) * #0.05.

Definition spec_pHFactor_js (pH : number) : number :=
  #1 + abs (pH - #7.4) * #0.1.

Definition spec_activity_js
    (initialActivity elapsedHours temperature pH noise : number) : number :=
  max #0 (initialActivity
          * exp (- (#0.002 * spec_tempFactor_js temperature * spec_pHFactor_js pH)
                 * elapsedHours)
          + noise).

(** * Sample inputs *)

Definition sample_toString : number -> string := fun _ => "0"%string.
Definition sample_toFixed : nat -> number -> string := fun _ _ => "0.0"%string.

Definition sample_metrics : ReactorMetrics :=
  mkMetrics #35 #7.4 #1.2 #150 #90 #12 #80 #90 #0.

Definition sample_config : ReactorConfig :=
  mkConfig #35 #7.4 #1.2 #150 #70 #20 continuous true.

Definition sample_prediction : AIPrediction :=
  mkPrediction (mkDeactivation #0 #0.9 None)
               (mkYieldOpt #80 #85 (#82.5, #87.5) [])
               (mkAnomaly #0 []).

Definition sample_reactor : Reactor :=
  mkReactor "RXN-001" "Reactor Alpha" "California Facility - Bay 1" running
            sample_metrics [] [] sample_prediction sample_config #10 #100 #0.

Definition sample_env : ReactorProvider.TickEnv :=
  ReactorProvider.mkEnv (fun _ => #0.5) #0 #0 false None.

Definition sample_alkaline : ReactorMetrics :=
  mkMetrics #35 #8 #1.2 #150 #90 #12 #80 #90 #0.

(** A reactor of the provider whose pH snapshot reads 8.0, with an empty
    alert list. *)
Definition sample_alkaline_reactor : Reactor :=
  mkReactor "RXN-001" "Reactor Alpha" "California Facility - Bay 1" running
            sample_alkaline [] [] sample_prediction sample_config #10 #100 #0.

Definition sample_simulator : ReactorSimulator.t :=
  ReactorSimulator.mk sample_metrics sample_config #0 EnzymeKineticsModel.new
                      12345 #10.

(** A simulator, as constructed from seed 211849 with the clock at 0, whose
    fifth Gaussian draw of the first tick (the noise of the enzyme
    activity) starts from the uniform value 0. *)
Definition sample_unlucky : ReactorSimulator.t :=
  ReactorSimulator.new "RXN-001" 211849 #0 #0 #0.

(** Readings for the generator with every clock at 0 and every
    [Math.random()] draw at 0.5. *)
Definition sample_history_env : HistoryEnv :=
  mkHistoryEnv #0 #0 #0 (fun _ _ => #0) (fun _ => #0).

Definition sample_mock_env : MockEnv :=
  mkMockEnv #0 #0 #0 sample_history_env #0 (fun _ => #0) (fun _ => #0.5)
            42 #0.

Definition sample_completion_env : ReactorContext.CompletionEnv :=
  ReactorContext.mkCompletionEnv (fun _ => #0.5) #0 (fun _ => #0) (fun _ => #0).

Definition sample_changes : list ParameterAdjustment :=
  [mkAdjustment "temperature" #35 #35.8 "+1.6% yield" medium;
   mkAdjustment "pH" #7.4 #7.35 "+0.8% yield" medium;
   mkAdjustment "flowRate" #150 #165 "+0.8% yield" low;
   mkAdjustment "temperature" #35 #36 "+0.4% yield" medium;
   mkAdjustment "pH" #7.4 #7.3 "+0.8% yield" medium]%string.

(** * Properties *)

(** ** Arithmetic of the number model *)

Lemma Rgtb_true (x y : R) : (y < x)%R -> Rgtb x y = true.
Proof. intros H. unfold Rgtb. destruct (Rlt_dec y x); [reflexivity | contradiction]. Qed.

Lemma Rgtb_false (x y : R) : (x <= y)%R -> Rgtb x y = false.
Proof. intros H. unfold Rgtb. destruct (Rlt_dec y x); [lra | reflexivity]. Qed.

Lemma Rgtb_spec (x y : R) : Rgtb x y = true <-> (y < x)%R.
Proof.
  unfold Rgtb. destruct (Rlt_dec y x); split; intros; auto; discriminate.
Qed.

Lemma Reqb_true (x y : R) : x = y -> Reqb x y = true.
Proof. intros H. unfold Reqb. destruct (Req_dec_T x y); [reflexivity | contradiction]. Qed.

Lemma Reqb_false (x y : R) : x <> y -> Reqb x y = false.
Proof. intros H. unfold Reqb. destruct (Req_dec_T x y); [contradiction | reflexivity]. Qed.

Lemma div_fin (x y : R) : y <> 0%R -> #x / #y = #(x / y).
Proof. intros H. unfold div. now rewrite Reqb_false. Qed.

Lemma div_zero_zero : #0 / #0 = NaN.
Proof.
  unfold div. rewrite Reqb_true by reflexivity.
  unfold scale_inf. now rewrite !Rgtb_false by lra.
Qed.

Lemma gt_fin (x y : R) : (#x >? #y) = Rgtb x y.
Proof. reflexivity. Qed.

Lemma lt_fin (x y : R) : (#x <? #y) = Rgtb y x.
Proof. reflexivity. Qed.

(** Decides the real comparisons left in the goal by linear arithmetic. *)
Ltac decide_R :=
  repeat match goal with
    | |- context [Rgtb ?x ?y] =>
        first [ rewrite (Rgtb_true x y) by lra
              | rewrite (Rgtb_false x y) by lra ]
    | |- context [Reqb ?x ?y] =>
        first [ rewrite (Reqb_true x y) by lra
              | rewrite (Reqb_false x y) by lra ]
    end.

Lemma log_pos (x : R) : (0 < x)%R -> log #x = #(ln x).
Proof. intros H. unfold log. now decide_R. Qed.

Lemma log_zero : log #0 = NInf.
Proof. unfold log. now decide_R. Qed.

Lemma log_neg (x : R) : (x < 0)%R -> log #x = NaN.
Proof. intros H. unfold log. now decide_R. Qed.

Lemma sqrt_nonneg (x : R) : (0 <= x)%R -> sqrt #x = #(R_sqrt.sqrt x).
Proof. intros H. unfold sqrt. now decide_R. Qed.

Lemma finite_Fin (x : R) : finite #x.
Proof. now exists x. Qed.

Lemma not_finite_NaN : ~ finite NaN.
Proof. intros [x H]. discriminate. Qed.

Lemma not_finite_PInf : ~ finite PInf.
Proof. intros [x H]. discriminate. Qed.

Lemma not_finite_NInf : ~ finite NInf.
Proof. intros [x H]. discriminate. Qed.

Create HintDb js.
#[local] Hint Resolve finite_Fin not_finite_NaN not_finite_PInf not_finite_NInf : js.

(** ** Aggregate statistics of an empty reactor list (C1) *)

Lemma dashboard_empty :
  generateDashboardStats [] = mkStats #0 #0 NaN #0 #0 NaN #0 NaN.
Proof.
  unfold generateDashboardStats, count_by, sum_by, ofNat.
  cbn [List.length filter fold_left INR].
  rewrite div_zero_zero. reflexivity.
Qed.

(** C1, as the code has it: on the empty list the counts and the sums are 0,
    and the three quotients by the reactor count ([averageYield],
    [systemHealth], [uptime]) are NaN, the value of [0 / 0]. *)
Theorem generateDashboardStats_empty :
  let s := generateDashboardStats [] in
  totalReactors s = #0 /\ activeReactors s = #0 /\ totalAlerts s = #0 /\
  criticalAlerts s = #0 /\ dailyProduction s = #0 /\
  isNaN (averageYield s) /\ isNaN (systemHealth s) /\ isNaN (stats_uptime s).
Proof.
  cbv zeta. rewrite dashboard_empty. unfold isNaN. cbn. repeat split.
Qed.

(** C1 as stated fails: the statistics of the empty list are not all zero,
    since [averageYield] is NaN. *)
Lemma generateDashboardStats_empty_not_zero :
  ~ all_zero (generateDashboardStats []).
Proof.
  rewrite dashboard_empty. unfold all_zero. cbn.
  intros (_ & _ & H & _). discriminate.
Qed.

(** ** The history window (C6) *)

Section HistoryWindow.

Context {A : Type}.
Implicit Types (xs ys : list A) (n : nat).
Local Open Scope nat_scope.

Lemma slice_last_length n xs :
  List.length (slice_last n xs) = Nat.min n (List.length xs).
Proof. unfold slice_last. rewrite length_skipn. lia. Qed.

Lemma slice_last_short n xs : List.length xs <= n -> slice_last n xs = xs.
Proof.
  intros H. unfold slice_last.
  replace (List.length xs - n) with 0 by lia. reflexivity.
Qed.

(** Dropping a prefix that leaves at least [n] elements does not change
    the last [n]. *)
Lemma slice_last_app n xs ys :
  n <= List.length ys -> slice_last n (xs ++ ys) = slice_last n ys.
Proof.
  intros H. unfold slice_last. rewrite length_app, skipn_app.
  rewrite skipn_all2 by lia. cbn [app]. f_equal. lia.
Qed.

Lemma slice_last_idem n xs ys :
  slice_last n (slice_last n xs ++ ys) = slice_last n (xs ++ ys).
Proof.
  destruct (Nat.le_gt_cases (List.length xs) n) as [Hle | Hgt].
  - now rewrite (slice_last_short n xs Hle).
  - rewrite <- (firstn_skipn (List.length xs - n) xs) at 2.
    rewrite <- app_assoc.
    rewrite (slice_last_app n (firstn (List.length xs - n) xs)); [reflexivity |].
    rewrite length_app, length_skipn. lia.
Qed.

Lemma slice_last_snoc n xs (x : A) :
  (slice_last n xs ++ [x])%list = slice_last (S n) (xs ++ [x]).
Proof.
  unfold slice_last. rewrite length_app, skipn_app. cbn [List.length].
  replace (List.length xs + 1 - S n) with (List.length xs - n) by lia.
  replace (List.length xs - n - List.length xs) with 0 by lia.
  reflexivity.
Qed.

Lemma slice_last_hd n xs :
  n <= List.length xs ->
  hd_error (slice_last n xs) = nth_error xs (List.length xs - n).
Proof. intros _. unfold slice_last. apply hd_error_skipn. Qed.

End HistoryWindow.

Section ProviderHistory.

Import ReactorProvider.
Variable toString : number -> string.
Local Open Scope nat_scope.

Lemma appendHistory_window h p :
  appendHistory h p = slice_last 288 (h ++ [p]).
Proof. unfold appendHistory. apply slice_last_snoc. Qed.

Lemma tickReactor_history e r :
  history (tickReactor toString e r)
  = slice_last 288 (history r ++ [newHistoryPoint toString e r]).
Proof. cbn [tickReactor history]. apply appendHistory_window. Qed.

Lemma appended_length envs : forall r,
  List.length (appended toString envs r) = List.length envs.
Proof. induction envs as [| e rest IH]; intros r; cbn; [reflexivity | now rewrite IH]. Qed.

(** After at least one tick the history is the last 288 entries of the
    starting history followed by the appended points. *)
Lemma ticks_history rest : forall e r,
  history (ticks toString (e :: rest) r)
  = slice_last 288 (history r ++ appended toString (e :: rest) r).
Proof.
  induction rest as [| e' rest IH]; intros e r.
  - cbn [ticks appended]. apply tickReactor_history.
  - change (ticks toString (e :: e' :: rest) r)
      with (ticks toString (e' :: rest) (tickReactor toString e r)).
    rewrite IH, tickReactor_history, slice_last_idem, <- app_assoc.
    reflexivity.
Qed.

(** C6: a tick appends the new snapshot as the last history point and keeps
    at most 288 points; after more than 288 ticks the history holds exactly
    288 points and the oldest one is the point appended at tick [N - 287]
    (position [N - 288] in the list of appended points, counted from 0). *)
Theorem history_sliding_window :
  (forall e r d,
     last (history (tickReactor toString e r)) d = newHistoryPoint toString e r /\
     point_metrics (newHistoryPoint toString e r)
       = currentMetrics (tickReactor toString e r) /\
     List.length (history (tickReactor toString e r))
       = Nat.min (List.length (history r) + 1) 288) /\
  (forall envs r,
     288 < List.length envs ->
     List.length (history (ticks toString envs r)) = 288 /\
     hd_error (history (ticks toString envs r))
       = nth_error (appended toString envs r) (List.length envs - 288)).
Proof.
  split.
  - intros e r d. split; [| split].
    + cbn [tickReactor history]. unfold appendHistory. apply last_last.
    + reflexivity.
    + rewrite tickReactor_history, slice_last_length, length_app.
      cbn [List.length]. lia.
  - intros [| e rest] r Hlen; [cbn in Hlen; lia |].
    rewrite ticks_history.
    pose proof (appended_length (e :: rest) r) as Ha.
    split.
    + rewrite slice_last_length, length_app. lia.
    + rewrite slice_last_hd by (rewrite length_app; lia).
      rewrite length_app, nth_error_app2 by lia.
      f_equal. lia.
Qed.

End ProviderHistory.

Lemma history_sliding_window_witness :
  288 < List.length (repeat sample_env 289) /\
  List.length (history (ReactorProvider.ticks sample_toString
                          (repeat sample_env 289) sample_reactor)) = 288.
Proof.
  split.
  - rewrite repeat_length. lia.
  - apply (proj2 (history_sliding_window sample_toString)).
    rewrite repeat_length. lia.
Defined.

(** ** The deactivation forecast (C7) *)

Lemma forecast_positive (x : R) :
  (0 < x)%R ->
  forecastHoursRemaining #x = #(Rmax 0 (ln (x / 70) / 0.002)).
Proof.
  intros Hx. unfold forecastHoursRemaining.
  rewrite div_fin by lra. rewrite log_pos by lra.
  rewrite div_fin by lra. reflexivity.
Qed.

Lemma forecast_zero : forecastHoursRemaining #0 = #0.
Proof.
  unfold forecastHoursRemaining. rewrite div_fin by lra.
  replace (0 / 70)%R with 0%R by lra. rewrite log_zero.
  unfold div. decide_R. reflexivity.
Qed.

Lemma forecast_negative (x : R) :
  (x < 0)%R -> forecastHoursRemaining #x = NaN.
Proof.
  intros Hx. unfold forecastHoursRemaining.
  rewrite div_fin by lra. rewrite log_neg by lra. reflexivity.
Qed.

Lemma ln_ratio_nonpos (x : R) : (0 < x <= 70)%R -> (ln (x / 70) <= 0)%R.
Proof.
  intros [H0 H70]. rewrite <- ln_1.
  destruct (Req_dec_T (x / 70) 1) as [-> | Hne]; [lra |].
  apply Rlt_le, ln_increasing; lra.
Qed.

(** C7, as the code has it: both forecasts are
    [max(0, ln(currentActivity/70) / 0.002)]; for a finite activity in
    [[0, 70]] the result is 0, for every finite non-negative activity it is
    a non-negative number, and for a negative activity it is NaN. *)
Theorem forecast_hours_remaining :
  (forall toFixed m h rt seed,
     hoursRemaining (enzymeDeactivation (generateAIPredictions toFixed m h rt seed))
     = forecastHoursRemaining (enzymeActivity m)) /\
  (forall toString e r,
     hoursRemaining (enzymeDeactivation
                       (predictions (ReactorProvider.tickReactor toString e r)))
     = forecastHoursRemaining
         (enzymeActivity (currentMetrics (ReactorProvider.tickReactor toString e r)))) /\
  (forall x : R,
     ((0 < x)%R ->
      forecastHoursRemaining #x = #(Rmax 0 (ln (x / 70) / 0.002))) /\
     ((0 <= x <= 70)%R -> forecastHoursRemaining #x = #0) /\
     ((0 <= x)%R -> exists h, forecastHoursRemaining #x = #h /\ (0 <= h)%R) /\
     ((x < 0)%R -> forecastHoursRemaining #x = NaN)).
Proof.
  split; [reflexivity | split; [reflexivity |]].
  intros x. split; [apply forecast_positive | split; [| split]].
  - intros [H0 H70]. destruct (Req_dec_T x 0) as [-> | Hne].
    + apply forecast_zero.
    + rewrite forecast_positive by lra. f_equal.
      assert (ln (x / 70) <= 0)%R by (apply ln_ratio_nonpos; lra).
      apply Rmax_left. apply Rle_trans with (0 / 0.002)%R; [| lra].
      apply Rmult_le_compat_r; [| assumption].
      apply Rlt_le, Rinv_0_lt_compat. lra.
  - intros H0. destruct (Req_dec_T x 0) as [-> | Hne].
    + exists 0%R. split; [apply forecast_zero | lra].
    + eexists. split; [apply forecast_positive; lra | apply Rmax_l].
  - apply forecast_negative.
Qed.

Lemma forecast_hours_remaining_witness :
  (0 <= 50 <= 70)%R /\ forecastHoursRemaining #50 = #0.
Proof.
  split; [lra |].
  apply (proj2 (proj2 forecast_hours_remaining) 50%R). lra.
Defined.

(** C7 as stated fails below zero: the forecast of activity [-1] is NaN,
    not 0. *)
Lemma forecast_hours_remaining_negative_activity :
  forecastHoursRemaining #(-1) = NaN /\ forecastHoursRemaining #(-1) <> #0.
Proof.
  assert (H : forecastHoursRemaining #(-1) = NaN) by (apply forecast_negative; lra).
  split; [exact H | rewrite H; discriminate].
Qed.

(** ** Alert derivation for pH *)

Section Alerts.

Variable toFixed : nat -> number -> string.
Variable toString : number -> string.

Lemma pH_deviation_8 : abs (#8 - #7.4) = #0.6.
Proof.
  cbn [abs sub]. f_equal. rewrite Rabs_right by lra. lra.
Qed.

(** The pH rule is the first one, so its alert heads the list and survives
    the final [slice(0, 5)]. *)
Lemma generateAlerts_pH_head reactorId m history now stamp rnd :
  (abs (pH m - #7.4) >? #0.3) = true ->
  exists rest,
    generateAlerts toFixed toString reactorId m history now stamp rnd
    = mkAlert ("alert-" ++ reactorId ++ "-ph-" ++ toString (stamp 0%nat))
              reactorId
              (if abs (pH m - #7.4) >? #0.5 then critical else warning)
              ("pH deviation detected: " ++ toFixed 2 (pH m) ++ " (target: 7.4)")
              (Date_of (now - rnd 0%nat * #3600000))
              false (Some "pH"%string) (Some (pH m))
      :: rest.
Proof.
  intros H. unfold generateAlerts. rewrite H.
  repeat match goal with
         | |- context [if ?c then push _ _ else _] => destruct c
         | |- context [if (?a <=? ?b)%nat then _ else _] => destruct (a <=? b)%nat
         end; cbn [push app slice_first firstn]; eexists; reflexivity.
Qed.

(** The provider's tick does not derive alerts: it carries the reactor's
    alert list over unchanged. *)
Lemma tickReactor_alerts e r :
  alerts (ReactorProvider.tickReactor toString e r) = alerts r.
Proof. reflexivity. Qed.

End Alerts.

(** ** Parameter adjustment (C9) *)

Lemma eqb_other (param name : string) : param <> name -> String.eqb param name = false.
Proof. intros H. now apply String.eqb_neq. Qed.

(** C9: [adjustParameter] with [temperature] rewrites only
    [config.targetTemperature], with [pH] only [config.targetPH], with
    [flowRate] only the [flowRate] metric, and with any other name it
    returns the simulator unchanged; the provider's
    [updateReactorParameter] treats the reactor's config and metrics the
    same way. *)
Theorem adjustParameter_frame (value : number) :
  (forall s : ReactorSimulator.t,
     let c := ReactorSimulator.config s in
     let m := ReactorSimulator.metrics s in
     ReactorSimulator.adjustParameter "temperature" value s
     = ReactorSimulator.mk m
         (mkConfig value (targetPH c) (targetPressure c) (targetFlowRate c)
                   (minEnzymeActivity c) (maxSubstrateConcentration c)
                   (operatingMode c) (autoOptimize c))
         (ReactorSimulator.startTime s) (ReactorSimulator.enzymeModel s)
         (ReactorSimulator.random s) (ReactorSimulator.runningTime s) /\
     ReactorSimulator.adjustParameter "pH" value s
     = ReactorSimulator.mk m
         (mkConfig (targetTemperature c) value (targetPressure c) (targetFlowRate c)
                   (minEnzymeActivity c) (maxSubstrateConcentration c)
                   (operatingMode c) (autoOptimize c))
         (ReactorSimulator.startTime s) (ReactorSimulator.enzymeModel s)
         (ReactorSimulator.random s) (ReactorSimulator.runningTime s) /\
     ReactorSimulator.adjustParameter "flowRate" value s
     = ReactorSimulator.mk
         (mkMetrics (temperature m) (pH m) (pressure m) value (enzymeActivity m)
                    (substrateConcentration m) (productYield m)
                    (dissolvedOxygen m) (timestamp m))
         c (ReactorSimulator.startTime s) (ReactorSimulator.enzymeModel s)
         (ReactorSimulator.random s) (ReactorSimulator.runningTime s) /\
     (forall param : string,
        param <> "temperature"%string -> param <> "pH"%string ->
        param <> "flowRate"%string ->
        ReactorSimulator.adjustParameter param value s = s)) /\
  (forall toFixed toString reactorId now stamp (r : Reactor),
     let adjust param :=
       ReactorProvider.adjustReactor toFixed toString reactorId param value
                                     now stamp r in
     let c := config r in
     let m := currentMetrics r in
     (config (adjust "temperature"%string)
      = mkConfig value (targetPH c) (targetPressure c) (targetFlowRate c)
                 (minEnzymeActivity c) (maxSubstrateConcentration c)
                 (operatingMode c) (autoOptimize c) /\
      currentMetrics (adjust "temperature"%string) = m) /\
     (config (adjust "pH"%string)
      = mkConfig (targetTemperature c) value (targetPressure c) (targetFlowRate c)
                 (minEnzymeActivity c) (maxSubstrateConcentration c)
                 (operatingMode c) (autoOptimize c) /\
      currentMetrics (adjust "pH"%string) = m) /\
     (config (adjust "flowRate"%string) = c /\
      currentMetrics (adjust "flowRate"%string)
      = mkMetrics (temperature m) (pH m) (pressure m) value (enzymeActivity m)
                  (substrateConcentration m) (productYield m)
                  (dissolvedOxygen m) (timestamp m)) /\
     (forall param : string,
        param <> "temperature"%string -> param <> "pH"%string ->
        param <> "flowRate"%string ->
        config (adjust param) = c /\ currentMetrics (adjust param) = m)).
Proof.
  split.
  - intros s c m. subst c m. repeat split.
    intros param Ht Hp Hf. unfold ReactorSimulator.adjustParameter.
    rewrite !eqb_other by assumption. reflexivity.
  - intros toFixed toString reactorId now stamp r adjust c m.
    subst adjust c m. repeat split.
    + unfold ReactorProvider.adjustReactor. cbn [config].
      rewrite !eqb_other by assumption. reflexivity.
    + unfold ReactorProvider.adjustReactor. cbn [currentMetrics].
      rewrite !eqb_other by assumption. reflexivity.
Qed.

Lemma adjustParameter_frame_witness :
  "pressure"%string <> "temperature"%string /\
  ReactorSimulator.adjustParameter "pressure" #2 sample_simulator
  = sample_simulator.
Proof.
  split; [discriminate |].
  apply (proj1 (adjustParameter_frame #2) sample_simulator); discriminate.
Defined.

(** ** Recommendations of the prediction engine (C10) *)

(** C10: the recommended changes are the sublist of temperature, pH,
    flowRate (in that order) whose absolute delta from the optimal setpoint
    exceeds 0.5, 0.1 and 10 respectively; hence at most three entries and
    no parameter twice. *)
Theorem recommendedChanges_order toFixed (m : ReactorMetrics) :
  let recs := recommendations toFixed m in
  (forall history rt seed,
     recommendedChanges
       (yieldOptimization (generateAIPredictions toFixed m history rt seed))
     = recs) /\
  map parameter recs
  = ((if abs (temperature m - #35.8) >? #0.5 then ["temperature"%string] else [])
     ++ (if abs (pH m - #7.35) >? #0.1 then ["pH"%string] else [])
     ++ (if abs (flowRate m - #165) >? #10 then ["flowRate"%string] else []))%list /\
  (List.length recs <= 3)%nat /\
  NoDup (map parameter recs).
Proof.
  intros recs. subst recs. split; [reflexivity |].
  unfold recommendations.
  destruct (abs (temperature m - #35.8) >? #0.5);
    destruct (abs (pH m - #7.35) >? #0.1);
    destruct (abs (flowRate m - #165) >? #10);
    cbn [push app map parameter List.length];
    (split; [reflexivity | split; [lia |]]);
    repeat (constructor; [cbn [In]; intuition discriminate |]);
    constructor.
Qed.

(** ** The kinetics formula (C4) *)

Lemma tempFactor_code (t : R) :
  (if #t >? #37 then #1 + (#t - #37) * #0.05 else #1) = #(spec_tempFactor t).
Proof.
  rewrite gt_fin. unfold spec_tempFactor, Rgtb.
  destruct (Rlt_dec 37 t) as [Hgt | Hle]; cbn [add sub mul]; f_equal.
  - rewrite Rmax_right by lra. reflexivity.
  - rewrite Rmax_left by lra. lra.
Qed.

Lemma calculateActivity_decay self (ia h t p : R) (seed : Z) :
  EnzymeKineticsModel.initialActivity self = #ia ->
  EnzymeKineticsModel.deactivationRate self = #0.002 ->
  EnzymeKineticsModel.calculateActivity self #h #t #p seed
  = (max #0 (#(spec_decay ia h t p) + fst (SeededRandom.gaussian #0 #0.5 seed)),
     snd (SeededRandom.gaussian #0 #0.5 seed)).
Proof.
  intros Hia Hrate. unfold EnzymeKineticsModel.calculateActivity, bind, ret.
  rewrite Hia, Hrate, tempFactor_code.
  destruct (SeededRandom.gaussian #0 #0.5 seed) as [noise seed'].
  reflexivity.
Qed.

Lemma tempFactor_code_js (t : number) :
  t <> NaN ->
  (if t >? #37 then #1 + (t - #37) * #0.05 else #1) = spec_tempFactor_js t.
Proof.
  intros Hnan. unfold spec_tempFactor_js.
  destruct t as [| | | x]; [congruence | | |].
  - reflexivity.
  - cbn [gt sub max mul add]. f_equal. lra.
  - rewrite tempFactor_code. reflexivity.
Qed.

(** C4: on finite inputs the computed activity is the decayed activity of
    the specification plus the Gaussian draw (mean 0, deviation 0.5),
    floored at 0 by [Math.max]; with a finite draw [n] it is the real
    [max 0 (decay + n)]; the formula also holds on infinite inputs, read
    on JavaScript numbers, for every temperature that is a number. *)
Theorem calculateActivity_formula self (ia h t p : R) (seed : Z) :
  EnzymeKineticsModel.initialActivity self = #ia ->
  EnzymeKineticsModel.deactivationRate self = #0.002 ->
  let noise := fst (SeededRandom.gaussian #0 #0.5 seed) in
  let out := fst (EnzymeKineticsModel.calculateActivity self #h #t #p seed) in
  out = max #0 (#(spec_decay ia h t p) + noise) /\
  (forall n : R, noise = #n -> out = #(Rmax 0 (spec_decay ia h t p + n))) /\
  (forall hours temp ph : number,
     temp <> NaN ->
     fst (EnzymeKineticsModel.calculateActivity self hours temp ph seed)
     = spec_activity_js #ia hours temp ph noise).
Proof.
  intros Hia Hrate noise out. subst noise out.
  rewrite (calculateActivity_decay self ia h t p seed Hia Hrate). cbn [fst].
  split; [reflexivity | split].
  - intros n ->. reflexivity.
  - intros hours temp ph Hnan.
    unfold EnzymeKineticsModel.calculateActivity, spec_activity_js,
      spec_pHFactor_js, bind, ret.
    rewrite Hia, Hrate, (tempFactor_code_js temp Hnan).
    destruct (SeededRandom.gaussian #0 #0.5 seed) as [noise seed'].
    reflexivity.
Qed.

Lemma calculateActivity_formula_witness :
  EnzymeKineticsModel.initialActivity EnzymeKineticsModel.new = #95 /\
  fst (EnzymeKineticsModel.calculateActivity EnzymeKineticsModel.new
         #10 #40 #7 12345%Z)
  = max #0 (#(spec_decay 95 10 40 7) + fst (SeededRandom.gaussian #0 #0.5 12345%Z)).
Proof.
  split; [reflexivity |].
  exact (proj1 (calculateActivity_formula EnzymeKineticsModel.new 95 10 40 7
                  12345%Z eq_refl eq_refl)).
Defined.

(** ** The Gaussian draw (C2) *)

Section Gaussian.

Import SeededRandom.

Lemma advance_bound (s : Z) : (-233280 < advance s < 233280)%Z.
Proof.
  unfold advance.
  pose proof (Z.rem_bound_abs (s * 9301 + 49297) 233280) as H.
  assert (Hb : (Z.abs (Z.rem (s * 9301 + 49297) 233280) < Z.abs 233280)%Z)
    by (apply H; lia).
  lia.
Qed.

Lemma advance_nonneg (s : Z) : (0 <= s)%Z -> (0 <= advance s)%Z.
Proof. intros H. unfold advance. apply Z.rem_nonneg; lia. Qed.

Lemma next_eq (s : Z) : next s = (#(IZR (advance s) / 233280), advance s).
Proof. unfold next, ofZ. cbv zeta. rewrite div_fin by lra. reflexivity. Qed.

Lemma gaussian_eq (mean stdDev : number) (s : Z) :
  gaussian mean stdDev s
  = (mean + sqrt (#(-2) * log #(uniform s))
            * #(Rtrigo_def.cos (2 * Rtrigo1.PI * uniform (advance s)))
            * stdDev,
     advance (advance s)).
Proof.
  unfold gaussian, bind, ret. rewrite !next_eq. reflexivity.
Qed.

Lemma uniform_pos (s : Z) : (0 < advance s)%Z -> (/ 233280 <= uniform s < 1)%R.
Proof.
  intros H. pose proof (advance_bound s) as [_ Hb]. unfold uniform.
  assert (1 <= IZR (advance s))%R by (apply IZR_le; lia).
  assert (IZR (advance s) <= 233279)%R by (apply IZR_le; lia).
  split; lra.
Qed.

Lemma ln_uniform_neg (s : Z) : (0 < advance s)%Z -> (ln (uniform s) < 0)%R.
Proof.
  intros H. destruct (uniform_pos s H) as [Hlo Hhi].
  rewrite <- ln_1. apply ln_increasing; lra.
Qed.

Lemma gaussian_positive_draw (m sd : R) (s : Z) :
  (0 < advance s)%Z ->
  gaussian #m #sd s = (#(m + boxMuller s * sd), advance (advance s)).
Proof.
  intros H. rewrite gaussian_eq.
  destruct (uniform_pos s H) as [Hlo Hhi].
  pose proof (ln_uniform_neg s H) as Hln.
  rewrite log_pos by lra. cbn [mul].
  rewrite sqrt_nonneg by lra. reflexivity.
Qed.

Lemma gaussian_negative_draw (m sd : R) (s : Z) :
  (advance s < 0)%Z -> fst (gaussian #m #sd s) = NaN.
Proof.
  intros H. rewrite gaussian_eq. cbn [fst].
  assert (IZR (advance s) <= -1)%R by (apply IZR_le; lia).
  rewrite log_neg by (unfold uniform; lra). reflexivity.
Qed.

Lemma advance_zero : advance 0 = 49297%Z.
Proof. reflexivity. Qed.

Lemma cos_after_zero :
  (0 < Rtrigo_def.cos (2 * Rtrigo1.PI * uniform 0))%R.
Proof.
  unfold uniform. rewrite advance_zero.
  pose proof PI_RGT_0 as Hpi.
  apply cos_gt_0; lra.
Qed.

(** With a first draw of exactly 0 the logarithm is [-Infinity] and the
    Box-Muller factor is [+Infinity]. *)
Lemma gaussian_zero_draw (mean stdDev : number) (s : Z) :
  advance s = 0%Z ->
  gaussian mean stdDev s = (mean + PInf * stdDev, 49297%Z).
Proof.
  intros H. rewrite gaussian_eq. unfold uniform at 1. rewrite H.
  replace (0 / 233280)%R with 0%R by lra. rewrite log_zero.
  assert (Hs : #(-2) * NInf = PInf).
  { unfold mul, scale_inf. decide_R. reflexivity. }
  rewrite Hs. cbn [sqrt]. rewrite advance_zero.
  assert (Hc : PInf * #(Rtrigo_def.cos (2 * Rtrigo1.PI * uniform 0)) = PInf).
  { unfold mul, scale_inf. rewrite Rgtb_true by apply cos_after_zero. reflexivity. }
  rewrite Hc. reflexivity.
Qed.

Lemma gaussian_zero_not_finite (m sd : R) (s : Z) :
  advance s = 0%Z -> ~ finite (fst (gaussian #m #sd s)).
Proof.
  intros H. rewrite (gaussian_zero_draw #m #sd s H). cbn [fst].
  unfold mul, scale_inf, Rgtb.
  destruct (Rlt_dec 0 sd); [| destruct (Rlt_dec sd 0)]; cbn [add];
    auto with js.
Qed.

Lemma gaussian_finite_iff (m sd : R) (s : Z) :
  finite (fst (gaussian #m #sd s)) <-> (0 < advance s)%Z.
Proof.
  split.
  - intros Hfin.
    destruct (Z.lt_trichotomy (advance s) 0) as [Hneg | [Hz | Hpos]];
      [| | assumption].
    + rewrite gaussian_negative_draw in Hfin by assumption.
      now apply not_finite_NaN in Hfin.
    + now apply gaussian_zero_not_finite in Hfin.
  - intros Hpos. rewrite gaussian_positive_draw by assumption. cbn [fst].
    auto with js.
Qed.

End Gaussian.

(** C2, as the code has it: for finite [mean] and [stdDev] the Gaussian
    draw is a finite number exactly when the first uniform draw is
    positive, and is then [mean + z * stdDev] for the Box-Muller factor
    [z]; nothing guards the logarithm, so a first draw of 0 gives an
    infinity or NaN. *)
Theorem gaussian_finite (m sd : R) (s : Z) :
  (finite (fst (SeededRandom.gaussian #m #sd s))
   <-> (0 < SeededRandom.advance s)%Z) /\
  ((0 < SeededRandom.advance s)%Z ->
   fst (SeededRandom.gaussian #m #sd s) = #(m + boxMuller s * sd)) /\
  (SeededRandom.advance s = 0%Z ->
   fst (SeededRandom.gaussian #m #sd s) = #m + PInf * #sd).
Proof.
  split; [apply gaussian_finite_iff | split].
  - intros H. now rewrite gaussian_positive_draw.
  - intros H. now rewrite (gaussian_zero_draw #m #sd s H).
Qed.

Lemma gaussian_finite_witness :
  (0 < SeededRandom.advance 12345)%Z /\
  fst (SeededRandom.gaussian #0 #0.5 12345%Z) = #(0 + boxMuller 12345 * 0.5).
Proof.
  split; [reflexivity |].
  apply (proj1 (proj2 (gaussian_finite 0 0.5 12345%Z))). reflexivity.
Defined.

(** C2 as stated fails: from seed 22643 the first uniform draw is 0 and the
    Gaussian draw with mean 0 and deviation 0.5 is [+Infinity]; with
    deviation 0 it is NaN. *)
Lemma gaussian_seed_22643 :
  fst (SeededRandom.next 22643%Z) = #0 /\
  fst (SeededRandom.gaussian #0 #0.5 22643%Z) = PInf /\
  ~ finite (fst (SeededRandom.gaussian #0 #0.5 22643%Z)) /\
  isNaN (fst (SeededRandom.gaussian #0 #0 22643%Z)).
Proof.
  assert (Hz : SeededRandom.advance 22643 = 0%Z) by reflexivity.
  split; [| split; [| split]].
  - rewrite next_eq, Hz. cbn [fst]. f_equal. lra.
  - rewrite (gaussian_zero_draw #0 #0.5 22643%Z Hz). cbn [fst].
    unfold mul, scale_inf. decide_R. reflexivity.
  - now apply gaussian_zero_not_finite.
  - rewrite (gaussian_zero_draw #0 #0 22643%Z Hz). cbn [fst].
    unfold isNaN, mul, scale_inf. decide_R. reflexivity.
Qed.

(** ** Reproducibility (C3) *)

Lemma iter_advance_shift (k : nat) (s : Z) :
  Nat.iter k SeededRandom.advance (SeededRandom.advance s)
  = Nat.iter (S k) SeededRandom.advance s.
Proof.
  induction k as [| k IH]; [reflexivity |].
  change (Nat.iter (S k) SeededRandom.advance (SeededRandom.advance s))
    with (SeededRandom.advance
            (Nat.iter k SeededRandom.advance (SeededRandom.advance s))).
  rewrite IH. reflexivity.
Qed.

(** The values of [n] successive calls of [next] are the uniform values
    along the orbit of the seed under the recurrence. *)
Lemma next_sequence (n : nat) : forall seed : Z,
  SeededRandom.performAll (repeat SeededRandom.Next n) seed
  = (map (fun k => #(uniform (Nat.iter k SeededRandom.advance seed))) (seq 0 n),
     Nat.iter n SeededRandom.advance seed).
Proof.
  induction n as [| n IH]; intros seed; [reflexivity |].
  cbn [repeat SeededRandom.performAll SeededRandom.perform].
  unfold bind at 1. rewrite next_eq.
  unfold bind at 1. rewrite IH. unfold ret.
  rewrite iter_advance_shift. f_equal.
  cbn [seq map]. f_equal.
  rewrite <- seq_shift, map_map.
  apply map_ext. intros k. now rewrite iter_advance_shift.
Qed.

(** C3: two random sources built from the same seed return the same values
    under the same call sequence and end in the same state, the values of
    successive [next] calls being those of the orbit of the seed; two
    simulators built from the same seed (whatever their reactor ids) with
    the same clock readings return the same snapshots under the same ticks
    and end in the same state. *)
Theorem same_seed_same_trajectory (seed : Z) :
  (forall (a b : Z) (calls : list SeededRandom.call),
     a = SeededRandom.new seed -> b = SeededRandom.new seed ->
     SeededRandom.performAll calls a = SeededRandom.performAll calls b) /\
  (forall n : nat,
     fst (SeededRandom.performAll (repeat SeededRandom.Next n)
            (SeededRandom.new seed))
     = map (fun k => #(uniform (Nat.iter k SeededRandom.advance seed)))
           (seq 0 n)) /\
  (forall (id1 id2 : string) (now1 now2 now3 : number) (clock : list number)
          (sim1 sim2 : ReactorSimulator.t),
     sim1 = ReactorSimulator.new id1 seed now1 now2 now3 ->
     sim2 = ReactorSimulator.new id2 seed now1 now2 now3 ->
     ReactorSimulator.run clock sim1 = ReactorSimulator.run clock sim2).
Proof.
  split; [| split].
  - intros a b calls -> ->. reflexivity.
  - intros n. unfold SeededRandom.new. now rewrite next_sequence.
  - intros id1 id2 now1 now2 now3 clock sim1 sim2 -> ->. reflexivity.
Qed.

Lemma same_seed_same_trajectory_witness :
  SeededRandom.performAll
    [SeededRandom.Next; SeededRandom.Range #2 #48; SeededRandom.Gaussian #0 #0.5]
    (SeededRandom.new 12345%Z)
  = SeededRandom.performAll
      [SeededRandom.Next; SeededRandom.Range #2 #48; SeededRandom.Gaussian #0 #0.5]
      (SeededRandom.new 12345%Z).
Proof.
  apply (proj1 (same_seed_same_trajectory 12345%Z)); reflexivity.
Defined.

(** ** Bounds after a tick (C5) *)

Section Bounds.

Import SeededRandom.

Lemma exp_50_large : (233280 <= Rtrigo_def.exp 50)%R.
Proof.
  pose proof (exp_ineq1_le 6.25) as H1.
  assert (H2 : Rtrigo_def.exp 12.5 = (Rtrigo_def.exp 6.25 * Rtrigo_def.exp 6.25)%R)
    by (rewrite <- exp_plus; f_equal; lra).
  assert (H3 : Rtrigo_def.exp 25 = (Rtrigo_def.exp 12.5 * Rtrigo_def.exp 12.5)%R)
    by (rewrite <- exp_plus; f_equal; lra).
  assert (H4 : Rtrigo_def.exp 50 = (Rtrigo_def.exp 25 * Rtrigo_def.exp 25)%R)
    by (rewrite <- exp_plus; f_equal; lra).
  assert (H5 : (52 <= Rtrigo_def.exp 12.5)%R) by (rewrite H2; nra).
  assert (H6 : (2704 <= Rtrigo_def.exp 25)%R) by (rewrite H3; nra).
  rewrite H4. nra.
Qed.

Lemma ln_uniform_lower (s : Z) : (0 < advance s)%Z -> (-50 <= ln (uniform s))%R.
Proof.
  intros H. destruct (uniform_pos s H) as [Hlo Hhi].
  assert (He : (Rtrigo_def.exp (Ropp 50) <= uniform s)%R).
  { rewrite exp_Ropp. apply Rle_trans with (/ 233280)%R; [| assumption].
    apply Rinv_le_contravar; [lra | apply exp_50_large]. }
  replace (-50)%R with (Ropp 50) by lra.
  rewrite <- (ln_exp (Ropp 50)).
  destruct (Req_dec_T (Rtrigo_def.exp (Ropp 50)) (uniform s)) as [-> | Hne]; [lra |].
  apply Rlt_le, ln_increasing; [apply exp_pos | lra].
Qed.

(** The Box-Muller factor of this generator has magnitude at most 10. *)
Lemma boxMuller_bound (s : Z) :
  (0 < advance s)%Z -> (-10 <= boxMuller s <= 10)%R.
Proof.
  intros H. unfold boxMuller.
  pose proof (ln_uniform_lower s H) as Hlo.
  pose proof (ln_uniform_neg s H) as Hneg.
  set (x := (-2 * ln (uniform s))%R) in *.
  assert (Hx : (0 <= x <= 100)%R) by (unfold x; lra).
  assert (Hs : (0 <= R_sqrt.sqrt x <= 10)%R).
  { split; [apply sqrt_pos |].
    replace 10%R with (R_sqrt.sqrt (10 * 10)) by (apply sqrt_square; lra).
    apply sqrt_le_1_alt. lra. }
  pose proof (COS_bound (2 * Rtrigo1.PI * uniform (advance s))) as [Hc1 Hc2].
  split; nra.
Qed.

Lemma spec_tempFactor_ge_1 (t : R) : (1 <= spec_tempFactor t)%R.
Proof. unfold spec_tempFactor. pose proof (Rmax_l 0 (t - 37)). lra. Qed.

Lemma spec_pHFactor_ge_1 (p : R) : (1 <= spec_pHFactor p)%R.
Proof. unfold spec_pHFactor. pose proof (Rabs_pos (p - 7.4)). lra. Qed.

(** With a non-negative elapsed time the decayed activity lies between 0
    and the initial activity. *)
Lemma spec_decay_bound (ia h t p : R) :
  (0 <= ia)%R -> (0 <= h)%R -> (0 <= spec_decay ia h t p <= ia)%R.
Proof.
  intros Hia Hh. unfold spec_decay.
  pose proof (spec_tempFactor_ge_1 t) as Ht.
  pose proof (spec_pHFactor_ge_1 p) as Hp.
  set (rate := (0.002 * spec_tempFactor t * spec_pHFactor p)%R).
  assert (Hrate : (0 <= rate)%R) by (unfold rate; nra).
  set (e := Rtrigo_def.exp (- rate * h)).
  assert (He : (0 < e <= 1)%R).
  { split; [apply exp_pos |]. unfold e. rewrite <- exp_0.
    destruct (Req_dec_T (- rate * h) 0) as [-> | Hne]; [lra |].
    apply Rlt_le, exp_increasing. nra. }
  split; nra.
Qed.

Lemma exp_nonpos (x : R) : (x <= 0)%R -> (0 < Rtrigo_def.exp x <= 1)%R.
Proof.
  intros H. split; [apply exp_pos |]. rewrite <- exp_0.
  destruct (Req_dec_T x 0) as [-> | Hne]; [lra |].
  apply Rlt_le, exp_increasing. lra.
Qed.

Lemma Rmax_within (lo hi c x : R) :
  (lo <= c)%R -> (c <= hi)%R -> (x <= hi)%R -> (lo <= Rmax c x <= hi)%R.
Proof.
  intros H1 H2 H3. split; [| now apply Rmax_lub].
  apply Rle_trans with c; [assumption | apply Rmax_l].
Qed.

Lemma clamp_within (lo hi c d x : R) :
  (lo <= c)%R -> (c <= d)%R -> (d <= hi)%R ->
  (lo <= Rmax c (Rmin d x) <= hi)%R.
Proof.
  intros H1 H2 H3. apply Rmax_within; [assumption | lra |].
  apply Rle_trans with d; [apply Rmin_l | assumption].
Qed.

(** Reduces the arithmetic of finite numbers. *)
Ltac js_eval :=
  repeat (cbv beta iota zeta;
          cbn [add sub mul neg max min abs exp fst snd];
          rewrite ?div_fin by lra).

Ltac project_fields :=
  cbn [ReactorSimulator.metrics ReactorSimulator.config
       ReactorSimulator.runningTime ReactorSimulator.enzymeModel
       ReactorSimulator.random ReactorSimulator.startTime
       temperature pH pressure flowRate enzymeActivity substrateConcentration
       productYield dissolvedOxygen timestamp targetTemperature targetPH
       currentMetrics config uptime].

Ltac finite_now := eexists; reflexivity.

(** The simulator's [update]: bounds and the invariant, when no Gaussian
    draw of the tick starts from the uniform value 0. *)
Lemma update_bounds now s :
  sim_ready s -> positive_draws 8 (ReactorSimulator.random s) ->
  within_bounds 70 (fst (ReactorSimulator.update now s)) /\
  sim_ready (snd (ReactorSimulator.update now s)).
Proof.
  destruct s as [[t p pr f ea sb py ox ts] [tt tp tpr tf mea msc om ao]
                   st em seed rt].
  unfold sim_ready, finite_metrics, at_least. project_fields.
  intros (([t' ->] & [p' ->] & [pr' ->] & [f' ->] & [ea' ->] & [sb' ->]
           & [py' ->] & [ox' ->])
          & [tt' ->] & [tp' ->] & (rt' & -> & Hrt) & -> & Hseed).
  intros (H1 & H2 & H3 & H4 & H5 & H6 & H7 & H8 & _).
  unfold ReactorSimulator.update. project_fields. unfold bind, ret.
  rewrite (gaussian_positive_draw 0 0.05 seed H1). js_eval.
  rewrite (gaussian_positive_draw 0 0.02 _ H2). js_eval.
  rewrite (gaussian_positive_draw 0 0.01 _ H3). js_eval.
  rewrite (gaussian_positive_draw 0 2 _ H4). js_eval.
  rewrite (calculateActivity_decay EnzymeKineticsModel.new 95 _ _ _ _
             eq_refl eq_refl).
  rewrite (gaussian_positive_draw 0 0.5 _ H5). js_eval.
  rewrite (gaussian_positive_draw 0 0.1 _ H6). js_eval.
  rewrite (gaussian_positive_draw 0 0.5 _ H7). js_eval.
  rewrite (gaussian_positive_draw 0 1 _ H8). js_eval.
  pose proof (boxMuller_bound _ H5) as Hnoise.
  match goal with
  | |- context [spec_decay 95 ?h ?a ?b] =>
      assert (Hdecay : (0 <= spec_decay 95 h a b <= 95)%R)
        by (apply spec_decay_bound; lra);
      set (decay := spec_decay 95 h a b) in *
  end.
  split.
  - unfold within_bounds, between, at_least. project_fields.
    repeat split; eexists; (split; [reflexivity |]).
    + apply Rmax_within; lra.
    + apply clamp_within; lra.
    + apply clamp_within; lra.
    + apply Rmax_l.
    + apply Rmax_l.
  - unfold sim_ready, finite_metrics, at_least. project_fields.
    repeat split; try finite_now.
    + eexists. split; [reflexivity | lra].
    + repeat apply advance_nonneg. assumption.
Qed.

(** Unrolling the iterated recurrence, one step at a time. *)
Lemma iter_advance_S (n : nat) (s : Z) :
  Nat.iter (S n) advance s = advance (Nat.iter n advance s).
Proof. reflexivity. Qed.

Lemma iter_advance_0 (s : Z) : Nat.iter 0 advance s = s.
Proof. reflexivity. Qed.

Ltac unroll_iter := rewrite ?iter_advance_S; rewrite ?iter_advance_0.
Ltac unroll_iter_in H := rewrite ?iter_advance_S in H; rewrite ?iter_advance_0 in H.

(** With a uniform value 0 at its noise the computed activity is
    [+Infinity]. *)
Lemma calculateActivity_zero_draw (h t p : R) (z : Z) :
  advance z = 0%Z ->
  EnzymeKineticsModel.calculateActivity EnzymeKineticsModel.new #h #t #p z
  = (PInf, 49297%Z).
Proof.
  intros Hzero.
  rewrite (calculateActivity_decay EnzymeKineticsModel.new 95 h t p z
             eq_refl eq_refl).
  rewrite (gaussian_zero_draw #0 #0.5 z Hzero).
  assert (Hinf : PInf * #0.5 = PInf)
    by (unfold mul, scale_inf; decide_R; reflexivity).
  cbn [fst snd]. rewrite Hinf. reflexivity.
Qed.

Lemma update_zero_enzyme_draw now s :
  sim_ready s -> positive_draws 4 (ReactorSimulator.random s) ->
  advance (Nat.iter 8 advance (ReactorSimulator.random s)) = 0%Z ->
  enzymeActivity (fst (ReactorSimulator.update now s)) = PInf.
Proof.
  destruct s as [[t p pr f ea sb py ox ts] [tt tp tpr tf mea msc om ao]
                   st em seed rt].
  unfold sim_ready, finite_metrics, at_least. project_fields.
  intros (([t' ->] & [p' ->] & [pr' ->] & [f' ->] & [ea' ->] & [sb' ->]
           & [py' ->] & [ox' ->])
          & [tt' ->] & [tp' ->] & (rt' & -> & Hrt) & -> & Hseed).
  intros (H1 & H2 & H3 & H4 & _) Hzero. unroll_iter_in Hzero.
  unfold ReactorSimulator.update. project_fields. unfold bind, ret.
  rewrite (gaussian_positive_draw 0 0.05 seed H1). js_eval.
  rewrite (gaussian_positive_draw 0 0.02 _ H2). js_eval.
  rewrite (gaussian_positive_draw 0 0.01 _ H3). js_eval.
  rewrite (gaussian_positive_draw 0 2 _ H4). js_eval.
  match goal with
  | |- context [EnzymeKineticsModel.calculateActivity ?m (Fin ?h) (Fin ?a)
                                                      (Fin ?b) ?z] =>
      pose proof (calculateActivity_zero_draw h a b z Hzero) as Hact;
      destruct (EnzymeKineticsModel.calculateActivity m #h #a #b z)
        as [act s5]
  end.
  cbv beta iota zeta.
  repeat match goal with
         | |- context [gaussian ?m ?sd ?z] =>
             destruct (gaussian m sd z); cbv beta iota zeta
         end.
  cbn [fst enzymeActivity]. congruence.
Qed.

(** *** The constructor *)

Lemma range_eq (lo hi : R) (s : Z) :
  range #lo #hi s = (#(lo + uniform s * (hi - lo)), advance s).
Proof. unfold range, bind, ret. rewrite next_eq. reflexivity. Qed.

Lemma uniform_nonneg (s : Z) : (0 <= s)%Z -> (0 <= uniform s < 1)%R.
Proof.
  intros H. pose proof (advance_nonneg s H) as H0.
  pose proof (advance_bound s) as [_ Hb]. unfold uniform.
  assert (0 <= IZR (advance s))%R by (apply IZR_le; lia).
  assert (IZR (advance s) <= 233279)%R by (apply IZR_le; lia).
  split; lra.
Qed.

Lemma Rtrunc_le (x : R) : (Rtrunc x <= x + 1)%R.
Proof.
  unfold Rtrunc, Rgtb. destruct (Rlt_dec x 0).
  - destruct (base_Int_part (- x)) as [_ H]. lra.
  - destruct (base_Int_part x) as [H _]. lra.
Qed.

Lemma Date_of_in_range (x : R) :
  (Rabs x <= 8640000000000000)%R -> Date_of #x = #(Rtrunc x).
Proof. intros H. unfold Date_of. now rewrite Rgtb_false. Qed.

Lemma new_random id seed now1 now2 now3 :
  ReactorSimulator.random (ReactorSimulator.new id seed now1 now2 now3)
  = Nat.iter 14 advance seed.
Proof.
  unroll_iter.
  unfold ReactorSimulator.new, SeededRandom.new,
    EnzymeKineticsModel.calculateActivity, range, bind, ret.
  repeat (first [rewrite gaussian_eq | rewrite next_eq]; cbv beta iota zeta).
  reflexivity.
Qed.

(** With the clock held at [t] and no Gaussian draw starting from the
    uniform value 0, the constructed simulator is ready and within the
    bounds. *)
Lemma new_ready id seed (t : R) now3 :
  (0 <= seed)%Z -> (0 <= t <= 8000000000000000)%R ->
  positive_draws 5 (advance seed) ->
  sim_ready (ReactorSimulator.new id seed #t #t now3) /\
  within_bounds 70
    (ReactorSimulator.metrics (ReactorSimulator.new id seed #t #t now3)).
Proof.
  intros Hseed Ht (H1 & H2 & H3 & H4 & H5 & _).
  pose proof (uniform_nonneg seed Hseed) as Hu.
  pose proof (new_random id seed #t #t now3) as Hrandom.
  revert Hrandom.
  unfold ReactorSimulator.new, SeededRandom.new, bind, ret.
  rewrite range_eq. js_eval.
  rewrite Date_of_in_range by (apply Rabs_le; nra).
  js_eval. cbn [targetTemperature targetPH targetPressure targetFlowRate].
  rewrite (gaussian_positive_draw 0 0.3 _ H1). js_eval.
  rewrite (gaussian_positive_draw 0 0.1 _ H2). js_eval.
  rewrite (gaussian_positive_draw 0 0.05 _ H3). js_eval.
  rewrite (gaussian_positive_draw 0 5 _ H4). js_eval.
  rewrite (calculateActivity_decay EnzymeKineticsModel.new 95 _ _ _ _
             eq_refl eq_refl).
  rewrite (gaussian_positive_draw 0 0.5 _ H5). js_eval.
  rewrite !range_eq. js_eval. project_fields. intros Hrandom.
  pose proof (boxMuller_bound _ H4) as Hflow.
  pose proof (boxMuller_bound _ H5) as Hnoise.
  set (y := (t - (2 + uniform seed * (48 - 2)) * 3600000)%R) in *.
  pose proof (Rtrunc_le y) as Hy.
  assert (Hrt : (0 <= (t - Rtrunc y) / 3600000)%R).
  { assert (Hyb : (y <= t - 7200000)%R) by (unfold y; lra).
    apply Rmult_le_pos; [lra |].
    apply Rlt_le, Rinv_0_lt_compat. lra. }
  match goal with
  | |- context [spec_decay 95 ?h ?a ?b] =>
      assert (Hdecay : (0 <= spec_decay 95 h a b <= 95)%R)
        by (apply spec_decay_bound; lra);
      set (decay := spec_decay 95 h a b) in *
  end.
  assert (Hpos : forall k, (0 <= Nat.iter k advance seed)%Z).
  { induction k as [| k IH]; [exact Hseed | apply advance_nonneg, IH]. }
  pose proof (uniform_nonneg _ (Hpos 11%nat)) as Hu1.
  pose proof (uniform_nonneg _ (Hpos 12%nat)) as Hu2.
  pose proof (uniform_nonneg _ (Hpos 13%nat)) as Hu3.
  unroll_iter_in Hu1. unroll_iter_in Hu2. unroll_iter_in Hu3.
  split.
  - unfold sim_ready, finite_metrics, at_least. project_fields.
    repeat split; try finite_now.
    + eexists. split; [reflexivity | exact Hrt].
    + rewrite Hrandom. apply Hpos.
  - unfold within_bounds, between, at_least. project_fields.
    repeat split; eexists; (split; [reflexivity |]).
    + apply Rmax_within; lra.
    + split; nra.
    + split; nra.
    + nra.
    + nra.
Qed.

Lemma sample_unlucky_ready :
  sim_ready sample_unlucky /\
  within_bounds 70 (ReactorSimulator.metrics sample_unlucky).
Proof.
  unfold sample_unlucky. apply new_ready; [lia | lra |].
  cbn [positive_draws]. repeat split.
Qed.

Lemma update_unlucky :
  enzymeActivity (fst (ReactorSimulator.update #0 sample_unlucky)) = PInf.
Proof.
  apply update_zero_enzyme_draw.
  - apply sample_unlucky_ready.
  - unfold sample_unlucky. rewrite new_random.
    cbn [positive_draws]. repeat split.
  - unfold sample_unlucky. rewrite new_random. reflexivity.
Qed.

(** The provider's tick: bounds for every uniform noise. *)
Lemma tickMetrics_bounds e r :
  finite_metrics (currentMetrics r) ->
  finite (targetTemperature (config r)) ->
  finite (targetPH (config r)) ->
  at_least 0 (uptime r) ->
  (forall k, (k < 8)%nat -> unit_draw (ReactorProvider.rnd e k)) ->
  within_bounds 75 (ReactorProvider.tickMetrics e r) /\
  finite_metrics (ReactorProvider.tickMetrics e r).
Proof.
  intros ([t' Ht] & [p' Hp] & [pr' Hpr] & [f' Hf] & [ea' Hea] & [sb' Hsb]
          & [py' Hpy] & [ox' Hox]) [tt' Htt] [tp' Htp] (u & Hu & Hu0) Hrnd.
  destruct (Hrnd 0%nat ltac:(lia)) as (u0 & E0 & B0).
  destruct (Hrnd 1%nat ltac:(lia)) as (u1 & E1 & B1).
  destruct (Hrnd 2%nat ltac:(lia)) as (u2 & E2 & B2).
  destruct (Hrnd 3%nat ltac:(lia)) as (u3 & E3 & B3).
  destruct (Hrnd 4%nat ltac:(lia)) as (u4 & E4 & B4).
  destruct (Hrnd 5%nat ltac:(lia)) as (u5 & E5 & B5).
  destruct (Hrnd 6%nat ltac:(lia)) as (u6 & E6 & B6).
  destruct (Hrnd 7%nat ltac:(lia)) as (u7 & E7 & B7).
  unfold ReactorProvider.tickMetrics.
  rewrite Ht, Hp, Hpr, Hf, Hsb, Hpy, Hox, Htt, Htp, Hu,
    E0, E1, E2, E3, E4, E5, E6, E7.
  js_eval.
  pose proof (exp_nonpos (Ropp 0.002 * u)%R ltac:(lra)) as He.
  split.
  - unfold within_bounds, between, at_least. project_fields.
    repeat split; eexists; (split; [reflexivity |]).
    + apply Rmax_within; lra.
    + apply clamp_within; lra.
    + apply clamp_within; lra.
    + apply Rle_trans with 100%R; [lra | apply Rmax_l].
    + apply Rmax_l.
  - unfold finite_metrics. project_fields. repeat split; finite_now.
Qed.

Lemma update_random now s :
  ReactorSimulator.random (snd (ReactorSimulator.update now s))
  = Nat.iter 16 advance (ReactorSimulator.random s).
Proof.
  unroll_iter.
  unfold ReactorSimulator.update, EnzymeKineticsModel.calculateActivity,
    bind, ret.
  repeat (rewrite gaussian_eq; cbv beta iota zeta).
  reflexivity.
Qed.

(** Every snapshot of a run is within the bounds when none of its Gaussian
    draws starts from the uniform value 0. *)
Lemma run_bounds clock : forall s,
  sim_ready s ->
  positive_draws (8 * List.length clock) (ReactorSimulator.random s) ->
  Forall (within_bounds 70) (fst (ReactorSimulator.run clock s)).
Proof.
  induction clock as [| now rest IH]; intros s Hready Hpos.
  - constructor.
  - replace (8 * List.length (now :: rest))%nat
      with (8 + 8 * List.length rest)%nat in Hpos by (cbn [List.length]; lia).
    cbn [positive_draws Nat.add] in Hpos.
    destruct Hpos as (H1 & H2 & H3 & H4 & H5 & H6 & H7 & H8 & Hrest).
    assert (P8 : positive_draws 8 (ReactorSimulator.random s))
      by (cbn [positive_draws]; tauto).
    destruct (update_bounds now s Hready P8) as [Hb Hready'].
    pose proof (update_random now s) as Hrandom.
    cbn [ReactorSimulator.run].
    destruct (ReactorSimulator.update now s) as [m s'].
    cbn [fst snd] in Hb, Hready', Hrandom.
    specialize (IH s' Hready').
    rewrite Hrandom in IH. unroll_iter_in IH. specialize (IH Hrest).
    destruct (ReactorSimulator.run rest s') as [ms s''].
    cbn [fst] in *. constructor; assumption.
Qed.

End Bounds.

(** C5, as the code has it: a simulator constructed with a non-negative
    seed and the clock held fixed has finite metrics within the bounds and
    a non-negative running time; from a simulator with finite metrics and
    targets and a non-negative running time, a tick whose Gaussian draws
    all start from a positive uniform value leaves enzymeActivity and
    productYield in [[0, 100]], dissolvedOxygen in [[70, 100]], flowRate at
    least 0 and substrateConcentration at least 5, and keeps the simulator
    in that condition, so the bounds hold along every such run; the
    provider's tick gives the same bounds, with dissolvedOxygen in
    [[75, 100]], for every uniform noise in [[0, 1)]. *)
Theorem tick_bounds :
  (forall id seed (t : R) now3,
     (0 <= seed)%Z -> (0 <= t <= 8000000000000000)%R ->
     positive_draws 5 (SeededRandom.advance seed) ->
     sim_ready (ReactorSimulator.new id seed #t #t now3) /\
     within_bounds 70
       (ReactorSimulator.metrics (ReactorSimulator.new id seed #t #t now3))) /\
  (forall now s,
     sim_ready s -> positive_draws 8 (ReactorSimulator.random s) ->
     within_bounds 70 (fst (ReactorSimulator.update now s)) /\
     sim_ready (snd (ReactorSimulator.update now s))) /\
  (forall clock s,
     sim_ready s ->
     positive_draws (8 * List.length clock) (ReactorSimulator.random s) ->
     Forall (within_bounds 70) (fst (ReactorSimulator.run clock s))) /\
  (forall e r,
     finite_metrics (currentMetrics r) ->
     finite (targetTemperature (config r)) ->
     finite (targetPH (config r)) ->
     at_least 0 (uptime r) ->
     (forall k, (k < 8)%nat -> unit_draw (ReactorProvider.rnd e k)) ->
     within_bounds 75 (ReactorProvider.tickMetrics e r) /\
     finite_metrics (ReactorProvider.tickMetrics e r)).
Proof.
  split; [exact new_ready |].
  split; [exact update_bounds |].
  split; [exact run_bounds | exact tickMetrics_bounds].
Qed.

Lemma sample_simulator_ready :
  sim_ready sample_simulator /\
  positive_draws 8 (ReactorSimulator.random sample_simulator).
Proof.
  split.
  - unfold sim_ready, finite_metrics, at_least, sample_simulator,
      sample_metrics, sample_config.
    cbn [ReactorSimulator.metrics ReactorSimulator.config
         ReactorSimulator.runningTime ReactorSimulator.enzymeModel
         ReactorSimulator.random temperature pH pressure flowRate
         enzymeActivity substrateConcentration productYield dissolvedOxygen
         targetTemperature targetPH].
    repeat split; try (eexists; reflexivity); try lia.
    exists 10%R. split; [reflexivity | lra].
  - cbn [positive_draws sample_simulator ReactorSimulator.random].
    repeat split.
Defined.

Lemma tick_bounds_witness :
  sim_ready sample_simulator /\
  positive_draws 8 (ReactorSimulator.random sample_simulator) /\
  within_bounds 70 (fst (ReactorSimulator.update #0 sample_simulator)).
Proof.
  destruct sample_simulator_ready as [Hready Hpos].
  split; [exact Hready | split; [exact Hpos |]].
  apply (proj1 (proj2 tick_bounds) #0 sample_simulator Hready Hpos).
Defined.

(** C5 as stated fails: the simulator constructed from seed 211849 with
    the clock at 0 is within the bounds, its enzyme noise of the first tick
    starts from the uniform value 0, and its enzymeActivity is [+Infinity]
    after that tick. *)
Lemma update_breaks_activity_bound :
  sim_ready sample_unlucky /\
  within_bounds 70 (ReactorSimulator.metrics sample_unlucky) /\
  ~ within_bounds 70 (fst (ReactorSimulator.update #0 sample_unlucky)).
Proof.
  destruct sample_unlucky_ready as [Hready Hin].
  split; [exact Hready | split; [exact Hin |]].
  intros ((x & Hx & _) & _). rewrite update_unlucky in Hx. discriminate.
Qed.

(** ** Alert derivation and the alert lists of reactors (C8) *)

Section AlertsOfReactors.

Import ReactorProvider.
Variable toFixed : nat -> number -> string.
Variable toString : number -> string.

Local Open Scope string_scope.
Local Open Scope js_scope.

Lemma generateAlerts_pH_tail reactorId m history now stamp rnd :
  let derived := generateAlerts toFixed toString reactorId m history now stamp rnd in
  if abs (pH m - #7.4) >? #0.3
  then no_pH_alert (tl derived)
  else no_pH_alert derived.
Proof.
  cbv zeta. unfold generateAlerts, no_pH_alert.
  destruct (abs (pH m - #7.4) >? #0.3);
    destruct (enzymeActivity m <? #75);
    destruct (10 <=? List.length history)%nat;
    try destruct (_ / #10 >? #0.5);
    destruct (productYield m >? #82);
    cbn [push app slice_first firstn tl];
    repeat (constructor; [cbn [alert_parameter]; discriminate |]);
    constructor.
Qed.

Lemma createMockReactor_alerts (reactorId nm loc : string) (code seed : Z)
    (env : MockEnv) :
  charCodeAt0 reactorId = Some code ->
  exists r,
    createMockReactor toFixed toString reactorId nm loc seed env = Some r /\
    id r = reactorId /\
    currentMetrics r
    = ReactorSimulator.getCurrentMetrics
        (ReactorSimulator.new reactorId seed (mock_now1 env) (mock_now2 env)
           (mock_now3 env)) /\
    alerts r
    = generateAlerts toFixed toString reactorId (currentMetrics r) (history r)
        (mock_alertsNow env) (mock_alertsStamp env) (mock_alertsRnd env).
Proof.
  intros Hcode. unfold createMockReactor, generateHistoricalData, pointPasses.
  rewrite Hcode. cbn [Nat.eqb]. unfold SeededRandom.new.
  rewrite !range_eq.
  eexists. split; [reflexivity |].
  cbn [id currentMetrics alerts history]. repeat split.
Qed.

Lemma ticks_alerts (envs : list TickEnv) : forall r,
  alerts (ticks toString envs r) = alerts r /\
  config (ticks toString envs r) = config r.
Proof.
  induction envs as [| e rest IH]; intros r; [split; reflexivity |].
  change (ticks toString (e :: rest) r)
    with (ticks toString rest (tickReactor toString e r)).
  destruct (IH (tickReactor toString e r)) as [Ha Hc].
  rewrite Ha, Hc. split; reflexivity.
Qed.

(** C8: when the pH of the snapshot deviates from 7.4 by more than 0.3
    the derived list starts with an unresolved alert on parameter [pH],
    critical when the deviation exceeds 0.5 and warning otherwise, and it
    is the only pH alert; otherwise no pH alert is derived; a snapshot
    with pH 8.0 gets a critical pH alert.  The alert list of the reactor
    that [createMockReactor] builds is the list derived from the
    constructor's snapshot, so it starts with that alert under the same
    condition.  The provider does not run the derivation: ticks leave the
    alert list as it is, and forcing the pH with [updateReactorParameter]
    sets the target, leaves the pH snapshot as it is and puts an info
    alert before the first four old alerts. *)
Theorem generateAlerts_pH :
  (forall reactorId m history now stamp rnd,
     let dev := abs (pH m - #7.4) in
     let derived :=
       generateAlerts toFixed toString reactorId m history now stamp rnd in
     ((dev >? #0.3) = true ->
      exists a rest,
        derived = a :: rest /\
        alert_parameter a = Some "pH" /\
        alert_type a = (if dev >? #0.5 then critical else warning) /\
        alert_reactorId a = reactorId /\
        alert_value a = Some (pH m) /\
        alert_resolved a = false /\
        no_pH_alert rest) /\
     ((dev >? #0.3) = false -> no_pH_alert derived) /\
     (pH m = #8 ->
      exists a,
        In a derived /\ alert_type a = critical /\
        alert_parameter a = Some "pH")) /\
  (forall reactorId nm loc code seed env,
     charCodeAt0 reactorId = Some code ->
     exists r,
       createMockReactor toFixed toString reactorId nm loc seed env = Some r /\
       currentMetrics r
       = ReactorSimulator.getCurrentMetrics
           (ReactorSimulator.new reactorId seed (mock_now1 env) (mock_now2 env)
              (mock_now3 env)) /\
       let dev := abs (pH (currentMetrics r) - #7.4) in
       ((dev >? #0.3) = true ->
        exists a rest,
          alerts r = a :: rest /\
          alert_parameter a = Some "pH" /\
          alert_type a = (if dev >? #0.5 then critical else warning) /\
          alert_reactorId a = reactorId /\
          alert_resolved a = false /\
          no_pH_alert rest) /\
       ((dev >? #0.3) = false -> no_pH_alert (alerts r))) /\
  (forall envs r, alerts (ticks toString envs r) = alerts r) /\
  (forall reactorId value now stamp envs r,
     let forced :=
       adjustReactor toFixed toString reactorId "pH" value now stamp r in
     let r' := ticks toString envs forced in
     targetPH (config r') = value /\
     pH (currentMetrics forced) = pH (currentMetrics r) /\
     exists a,
       alerts r' = a :: slice_first 4 (alerts r) /\
       alert_type a = info /\ alert_resolved a = false /\
       alert_parameter a = Some "pH").
Proof.
  assert (Hrules : forall reactorId m history now stamp rnd,
     let dev := abs (pH m - #7.4) in
     let derived :=
       generateAlerts toFixed toString reactorId m history now stamp rnd in
     ((dev >? #0.3) = true ->
      exists a rest,
        derived = a :: rest /\
        alert_parameter a = Some "pH" /\
        alert_type a = (if dev >? #0.5 then critical else warning) /\
        alert_reactorId a = reactorId /\
        alert_value a = Some (pH m) /\
        alert_resolved a = false /\
        no_pH_alert rest) /\
     ((dev >? #0.3) = false -> no_pH_alert derived)).
  { intros reactorId m history now stamp rnd dev derived. subst dev derived.
    pose proof (generateAlerts_pH_tail reactorId m history now stamp rnd) as Ht.
    cbv zeta in Ht. split; intros H; rewrite H in Ht; [| exact Ht].
    destruct (generateAlerts_pH_head toFixed toString reactorId m history now
                stamp rnd H) as [rest Hrest].
    rewrite Hrest in Ht |- *. cbn [tl] in Ht.
    eexists; eexists. repeat split. exact Ht. }
  split; [| split; [| split]].
  - intros reactorId m history now stamp rnd dev derived.
    destruct (Hrules reactorId m history now stamp rnd) as [H3 Hno].
    split; [exact H3 | split; [exact Hno |]].
    intros H8.
    assert (Hd : (abs (pH m - #7.4) >? #0.3) = true).
    { rewrite H8, pH_deviation_8. apply Rgtb_true. lra. }
    destruct (H3 Hd) as (a & rest & Hl & Hp & Ht & _).
    exists a. subst derived. rewrite Hl. split; [left; reflexivity |].
    split; [| exact Hp]. rewrite Ht. subst dev.
    rewrite H8, pH_deviation_8, gt_fin, Rgtb_true by lra. reflexivity.
  - intros reactorId nm loc code seed env Hcode.
    destruct (createMockReactor_alerts reactorId nm loc code seed env Hcode)
      as (r & Hr & _ & Hm & Ha).
    exists r. split; [exact Hr |]. split; [exact Hm |]. cbv zeta. rewrite Ha.
    destruct (Hrules reactorId (currentMetrics r) (history r)
                (mock_alertsNow env) (mock_alertsStamp env)
                (mock_alertsRnd env)) as [H3 Hno].
    split; [| exact Hno].
    intros Hd. destruct (H3 Hd) as (a & rest & Hl & Hp & Ht & Hi & _ & Hres & Hrest).
    exists a, rest. repeat split; assumption.
  - intros envs r. apply ticks_alerts.
  - intros reactorId value now stamp envs r forced r'. subst r'.
    destruct (ticks_alerts envs forced) as [Ha Hc]. rewrite Ha, Hc.
    subst forced. cbn [adjustReactor config alerts currentMetrics targetPH pH
                       String.eqb Ascii.eqb Bool.eqb].
    repeat split. eexists. repeat split.
Qed.

End AlertsOfReactors.

Section AlertExamples.

Import SeededRandom.
Local Open Scope string_scope.
Local Open Scope js_scope.

Lemma new_pH id seed now1 now2 now3 :
  pH (ReactorSimulator.metrics (ReactorSimulator.new id seed now1 now2 now3))
  = #7.4 + fst (gaussian #0 #0.1 (advance (advance (advance seed)))).
Proof.
  unfold ReactorSimulator.new, SeededRandom.new,
    EnzymeKineticsModel.calculateActivity, range, bind, ret.
  repeat (first [rewrite gaussian_eq | rewrite next_eq]; cbv beta iota zeta).
  reflexivity.
Qed.

(** From seed 131972 the first uniform value of the pH noise is 0 and the
    constructor's pH is [+Infinity]. *)
Lemma seed_131972_pH now1 now2 now3 :
  pH (ReactorSimulator.metrics
        (ReactorSimulator.new "RXN-001" 131972 now1 now2 now3)) = PInf.
Proof.
  rewrite new_pH.
  rewrite (gaussian_zero_draw #0 #0.1 (advance (advance (advance 131972)))
             eq_refl).
  cbn [fst]. unfold mul, scale_inf. decide_R. reflexivity.
Qed.

Lemma generateAlerts_pH_witness :
  (pH sample_alkaline = #8 /\
   exists a,
     In a (generateAlerts sample_toFixed sample_toString "RXN-001"
             sample_alkaline [] #0 (fun _ => #0) (fun _ => #0.5)) /\
     alert_type a = critical /\ alert_parameter a = Some "pH") /\
  (exists r a rest,
     createMockReactor sample_toFixed sample_toString "RXN-001" "Reactor Alpha"
       "California Facility - Bay 1" 131972 sample_mock_env = Some r /\
     alerts r = a :: rest /\
     alert_parameter a = Some "pH" /\ alert_type a = critical).
Proof.
  destruct (generateAlerts_pH sample_toFixed sample_toString)
    as (Hrules & Hmock & _ & _).
  split.
  - split; [reflexivity |].
    apply (Hrules "RXN-001" sample_alkaline [] #0 (fun _ => #0) (fun _ => #0.5)).
    reflexivity.
  - destruct (Hmock "RXN-001" "Reactor Alpha" "California Facility - Bay 1"
                82%Z 131972%Z sample_mock_env eq_refl)
      as (r & Hr & Hm & H3 & _).
    assert (HpH : pH (currentMetrics r) = PInf).
    { rewrite Hm. apply seed_131972_pH. }
    rewrite HpH in H3. cbn [sub abs gt] in H3.
    destruct (H3 eq_refl) as (a & rest & Hl & Hp & Ht & _).
    exists r, a, rest. repeat split; assumption.
Defined.

(** A reactor of the provider whose pH reads 8.0 and whose pH has been
    forced to 8.0 still reads 8.0 after a tick and carries the info alert
    of the adjustment only: no critical alert on pH is in its list. *)
Theorem forced_pH_without_alert :
  let forced :=
    ReactorProvider.updateReactorParameter sample_toFixed sample_toString
      "RXN-001" "pH" #8 #0 #0 [sample_alkaline_reactor] in
  exists r,
    fst (ReactorProvider.tick sample_toString (fun _ => sample_env) forced) = [r] /\
    pH (currentMetrics r) = #8 /\ targetPH (config r) = #8 /\
    ~ (exists a,
         In a (alerts r) /\ alert_type a = critical /\
         alert_parameter a = Some "pH").
Proof.
  cbv zeta. eexists. split; [reflexivity |].
  assert (Hid : String.eqb (id sample_alkaline_reactor) "RXN-001" = true)
    by reflexivity.
  cbn [ReactorProvider.tickReactor ReactorProvider.tickMetrics currentMetrics
       config alerts pH targetPH].
  rewrite Hid. cbn [negb].
  cbn [ReactorProvider.adjustReactor ReactorProvider.tickReactor
       ReactorProvider.tickMetrics currentMetrics config alerts pH targetPH
       sample_alkaline_reactor sample_alkaline sample_config sample_env
       ReactorProvider.rnd String.eqb Ascii.eqb Bool.eqb slice_first firstn
       add sub mul].
  split; [f_equal; lra |]. split; [reflexivity |].
  intros (a & [<- | []] & Ht & _). discriminate.
Qed.

End AlertExamples.

(** * Further properties *)

(** ** The random source *)

(** X1: from a non-negative seed, [next] returns a number in [[0, 1)] and
    leaves a seed in [[0, 233280)]; from any seed the value lies strictly
    between -1 and 1. *)
Theorem next_unit_interval (seed : Z) :
  (exists u, fst (SeededRandom.next seed) = #u /\ (-1 < u < 1)%R) /\
  ((0 <= seed)%Z ->
   (exists u, fst (SeededRandom.next seed) = #u /\ (0 <= u < 1)%R) /\
   (0 <= snd (SeededRandom.next seed) < 233280)%Z).
Proof.
  rewrite next_eq. cbn [fst snd].
  pose proof (advance_bound seed) as [Hlo Hhi].
  split.
  - eexists. split; [reflexivity |].
    assert (-233279 <= IZR (SeededRandom.advance seed))%R by (apply IZR_le; lia).
    assert (IZR (SeededRandom.advance seed) <= 233279)%R by (apply IZR_le; lia).
    split; lra.
  - intros Hseed. pose proof (advance_nonneg seed Hseed) as H0. split.
    + eexists. split; [reflexivity | apply (uniform_nonneg seed Hseed)].
    + lia.
Qed.

Lemma next_unit_interval_witness :
  (0 <= 12345)%Z /\
  (0 <= snd (SeededRandom.next 12345) < 233280)%Z.
Proof.
  split; [lia |].
  apply (proj2 (next_unit_interval 12345)). lia.
Defined.

(** X2: from a non-negative seed, [range(lo, hi)] with [lo <= hi] returns a
    number in [[lo, hi]], below [hi] when [lo < hi], and uses one draw. *)
Theorem range_within (lo hi : R) (seed : Z) :
  (0 <= seed)%Z -> (lo <= hi)%R ->
  exists v,
    SeededRandom.range #lo #hi seed = (#v, SeededRandom.advance seed) /\
    (lo <= v <= hi)%R /\ ((lo < hi)%R -> (v < hi)%R).
Proof.
  intros Hseed Hle. rewrite range_eq.
  pose proof (uniform_nonneg seed Hseed) as Hu.
  eexists. split; [reflexivity |].
  split; [split; nra | intros Hlt; nra].
Qed.

Lemma range_within_witness :
  exists v,
    SeededRandom.range #2 #48 12345%Z = (#v, SeededRandom.advance 12345) /\
    (2 <= v <= 48)%R /\ ((2 < 48)%R -> (v < 48)%R).
Proof.
  apply (range_within 2 48 12345%Z); [lia | lra].
Defined.

(** X3: the recurrence never merges two states of [[0, 233280)]: distinct
    states have distinct successors. *)
Theorem advance_injective (s1 s2 : Z) :
  (0 <= s1 < 233280)%Z -> (0 <= s2 < 233280)%Z ->
  SeededRandom.advance s1 = SeededRandom.advance s2 -> s1 = s2.
Proof.
  intros H1 H2. unfold SeededRandom.advance.
  rewrite !Z.rem_mod_nonneg by lia.
  intros Heq.
  pose proof (Z.div_mod (s1 * 9301 + 49297) 233280 ltac:(lia)) as E1.
  pose proof (Z.div_mod (s2 * 9301 + 49297) 233280 ltac:(lia)) as E2.
  rewrite Heq in E1.
  set (q1 := ((s1 * 9301 + 49297) / 233280)%Z) in *.
  set (q2 := ((s2 * 9301 + 49297) / 233280)%Z) in *.
  assert (Hd : ((s1 - s2) * 9301 = 233280 * (q1 - q2))%Z) by lia.
  assert (Hm : ((s1 - s2)
                = 233280 * (123901 * (q1 - q2) - 4940 * (s1 - s2)))%Z) by lia.
  lia.
Qed.

Lemma advance_injective_witness :
  (0 <= 5 < 233280)%Z /\ 5%Z = 5%Z.
Proof.
  split; [lia |].
  apply (advance_injective 5 5); [lia | lia | reflexivity].
Defined.

(** X4: a Gaussian draw whose first uniform value is positive lies within
    ten standard deviations of the mean, and every Gaussian draw uses
    exactly two values of the generator. *)
Theorem gaussian_bounded (m sd : R) (s : Z) :
  snd (SeededRandom.gaussian #m #sd s)
  = SeededRandom.advance (SeededRandom.advance s) /\
  ((0 < SeededRandom.advance s)%Z ->
   exists g, fst (SeededRandom.gaussian #m #sd s) = #g /\
             (Rabs (g - m) <= 10 * Rabs sd)%R).
Proof.
  split; [rewrite gaussian_eq; reflexivity |].
  intros Hpos. rewrite gaussian_positive_draw by assumption. cbn [fst].
  eexists. split; [reflexivity |].
  pose proof (boxMuller_bound s Hpos) as Hb.
  replace (m + boxMuller s * sd - m)%R with (boxMuller s * sd)%R by ring.
  rewrite Rabs_mult. apply Rmult_le_compat_r; [apply Rabs_pos |].
  apply Rabs_le. lra.
Qed.

Lemma gaussian_bounded_witness :
  (0 < SeededRandom.advance 12345)%Z /\
  exists g, fst (SeededRandom.gaussian #0 #0.5 12345%Z) = #g /\
            (Rabs (g - 0) <= 10 * Rabs 0.5)%R.
Proof.
  split; [reflexivity |].
  apply (proj2 (gaussian_bounded 0 0.5 12345%Z)). reflexivity.
Defined.

(** ** The kinetics model *)

Lemma spec_decay_antitone_hours (ia h1 h2 t p : R) :
  (0 <= ia)%R -> (h1 <= h2)%R ->
  (spec_decay ia h2 t p <= spec_decay ia h1 t p)%R.
Proof.
  intros Hia Hh. unfold spec_decay.
  pose proof (spec_tempFactor_ge_1 t) as Ht.
  pose proof (spec_pHFactor_ge_1 p) as Hp.
  set (rate := (0.002 * spec_tempFactor t * spec_pHFactor p)%R).
  assert (Hrate : (0 <= rate)%R) by (unfold rate; nra).
  apply Rmult_le_compat_l; [assumption |].
  destruct (Req_dec_T (- rate * h2) (- rate * h1)) as [-> | Hne]; [lra |].
  apply Rlt_le, exp_increasing. nra.
Qed.

Lemma spec_tempFactor_monotone (t1 t2 : R) :
  (t1 <= t2)%R -> (spec_tempFactor t1 <= spec_tempFactor t2)%R.
Proof.
  intros H. unfold spec_tempFactor.
  assert (Rmax 0 (t1 - 37) <= Rmax 0 (t2 - 37))%R.
  { apply Rmax_lub; [apply Rmax_l |].
    apply Rle_trans with (t2 - 37)%R; [lra | apply Rmax_r]. }
  lra.
Qed.

Lemma spec_decay_antitone_temperature (ia h t1 t2 p : R) :
  (0 <= ia)%R -> (0 <= h)%R -> (t1 <= t2)%R ->
  (spec_decay ia h t2 p <= spec_decay ia h t1 p)%R.
Proof.
  intros Hia Hh Ht. unfold spec_decay.
  pose proof (spec_tempFactor_monotone t1 t2 Ht) as Hm.
  pose proof (spec_tempFactor_ge_1 t1) as H1.
  pose proof (spec_pHFactor_ge_1 p) as Hp.
  apply Rmult_le_compat_l; [assumption |].
  set (a := (- (0.002 * spec_tempFactor t2 * spec_pHFactor p) * h)%R).
  set (b := (- (0.002 * spec_tempFactor t1 * spec_pHFactor p) * h)%R).
  assert (Hph : (0 <= spec_pHFactor p * h)%R) by nra.
  assert (Hab : (a <= b)%R).
  { unfold a, b.
    assert (0 <= (spec_tempFactor t2 - spec_tempFactor t1)
                 * (spec_pHFactor p * h))%R
      by (apply Rmult_le_pos; lra).
    lra. }
  destruct (Req_dec_T a b) as [-> | Hne]; [lra |].
  apply Rlt_le, exp_increasing. lra.
Qed.

(** X5: with the same noise draw (first uniform value positive) and the
    constructor's model, the computed activity is a finite number between
    0 and 100, it does not increase when the elapsed hours grow, and for
    non-negative hours it does not increase when the temperature grows. *)
Theorem calculateActivity_antitone (h1 h2 t1 t2 p : R) (seed : Z) :
  (0 < SeededRandom.advance seed)%Z ->
  (0 <= h1 <= h2)%R -> (t1 <= t2)%R ->
  let activity h t :=
    fst (EnzymeKineticsModel.calculateActivity EnzymeKineticsModel.new
           #h #t #p seed) in
  exists a11 a21 a12,
    activity h1 t1 = #a11 /\ activity h2 t1 = #a21 /\ activity h1 t2 = #a12 /\
    (0 <= a11 <= 100)%R /\ (a21 <= a11)%R /\ (a12 <= a11)%R.
Proof.
  intros Hpos [Hh1 Hh] Ht activity. subst activity. cbv beta.
  rewrite (calculateActivity_decay EnzymeKineticsModel.new 95 h1 t1 p
             seed eq_refl eq_refl).
  rewrite (calculateActivity_decay EnzymeKineticsModel.new 95 h2 t1 p
             seed eq_refl eq_refl).
  rewrite (calculateActivity_decay EnzymeKineticsModel.new 95 h1 t2 p
             seed eq_refl eq_refl).
  rewrite (gaussian_positive_draw 0 0.5 seed Hpos). cbn [fst add max].
  pose proof (boxMuller_bound seed Hpos) as Hb.
  pose proof (spec_decay_bound 95 h1 t1 p ltac:(lra) Hh1) as Hd.
  pose proof (spec_decay_antitone_hours 95 h1 h2 t1 p ltac:(lra) Hh) as Hah.
  pose proof (spec_decay_antitone_temperature 95 h1 t1 t2 p ltac:(lra) Hh1 Ht)
    as Hat.
  do 3 eexists. repeat split.
  - apply Rmax_l.
  - apply Rmax_lub; lra.
  - apply Rle_max_compat_l. lra.
  - apply Rle_max_compat_l. lra.
Qed.

Lemma calculateActivity_antitone_witness :
  (0 < SeededRandom.advance 12345)%Z /\
  exists a11 a21 a12,
    fst (EnzymeKineticsModel.calculateActivity EnzymeKineticsModel.new
           #10 #35 #7.4 12345%Z) = #a11 /\
    fst (EnzymeKineticsModel.calculateActivity EnzymeKineticsModel.new
           #20 #35 #7.4 12345%Z) = #a21 /\
    fst (EnzymeKineticsModel.calculateActivity EnzymeKineticsModel.new
           #10 #40 #7.4 12345%Z) = #a12 /\
    (0 <= a11 <= 100)%R /\ (a21 <= a11)%R /\ (a12 <= a11)%R.
Proof.
  split; [reflexivity |].
  apply (calculateActivity_antitone 10 20 35 40 7.4 12345%Z);
    [reflexivity | lra | lra].
Defined.

(** X6: [reset] from a non-negative seed draws the new initial activity in
    [[92, 98)], sets the time to 0, keeps the deactivation rate and uses
    one value of the generator. *)
Theorem reset_range (self : EnzymeKineticsModel.t) (seed : Z) :
  (0 <= seed)%Z ->
  exists a,
    EnzymeKineticsModel.reset self seed
    = (EnzymeKineticsModel.mk #0 #a (EnzymeKineticsModel.deactivationRate self),
       SeededRandom.advance seed) /\
    (92 <= a < 98)%R.
Proof.
  intros Hseed. unfold EnzymeKineticsModel.reset, bind, ret.
  rewrite range_eq. pose proof (uniform_nonneg seed Hseed) as Hu.
  eexists. split; [reflexivity | split; nra].
Qed.

Lemma reset_range_witness :
  exists a,
    EnzymeKineticsModel.reset EnzymeKineticsModel.new 12345%Z
    = (EnzymeKineticsModel.mk #0 #a #0.002, SeededRandom.advance 12345) /\
    (92 <= a < 98)%R.
Proof.
  apply (reset_range EnzymeKineticsModel.new 12345%Z). lia.
Defined.

(** ** The simulator *)

Lemma update_fields now s :
  let s' := snd (ReactorSimulator.update now s) in
  ReactorSimulator.config s' = ReactorSimulator.config s /\
  ReactorSimulator.startTime s' = ReactorSimulator.startTime s /\
  ReactorSimulator.enzymeModel s' = ReactorSimulator.enzymeModel s /\
  ReactorSimulator.runningTime s' = ReactorSimulator.runningTime s + #1 / #3600 /\
  ReactorSimulator.metrics s' = fst (ReactorSimulator.update now s) /\
  timestamp (fst (ReactorSimulator.update now s)) = now.
Proof.
  unfold ReactorSimulator.update, EnzymeKineticsModel.calculateActivity,
    bind, ret.
  repeat (rewrite gaussian_eq; cbv beta iota zeta).
  cbn [fst snd ReactorSimulator.config ReactorSimulator.startTime
       ReactorSimulator.enzymeModel ReactorSimulator.runningTime
       ReactorSimulator.metrics timestamp].
  repeat split.
Qed.

Lemma iter_advance_add (a b : nat) (s : Z) :
  Nat.iter (a + b) SeededRandom.advance s
  = Nat.iter a SeededRandom.advance (Nat.iter b SeededRandom.advance s).
Proof.
  induction a as [| a IH]; [reflexivity |].
  change (S a + b)%nat with (S (a + b)).
  rewrite !iter_advance_S, IH. reflexivity.
Qed.

Lemma run_fields clock : forall s,
  List.length (fst (ReactorSimulator.run clock s)) = List.length clock /\
  ReactorSimulator.config (snd (ReactorSimulator.run clock s))
  = ReactorSimulator.config s /\
  ReactorSimulator.enzymeModel (snd (ReactorSimulator.run clock s))
  = ReactorSimulator.enzymeModel s /\
  ReactorSimulator.random (snd (ReactorSimulator.run clock s))
  = Nat.iter (16 * List.length clock) SeededRandom.advance
      (ReactorSimulator.random s).
Proof.
  induction clock as [| now rest IH]; intros s.
  - cbn [ReactorSimulator.run fst snd List.length]. rewrite Nat.mul_0_r.
    repeat split.
  - cbn [ReactorSimulator.run List.length].
    pose proof (update_fields now s) as (Hc & _ & Hm & _).
    pose proof (update_random now s) as Hr.
    destruct (ReactorSimulator.update now s) as [m s'].
    cbn [snd] in Hc, Hm, Hr.
    specialize (IH s'). destruct (ReactorSimulator.run rest s') as [ms s''].
    cbn [fst snd List.length] in *.
    destruct IH as (Hl & Hc' & Hm' & Hr').
    repeat split; [now rewrite Hl | congruence | congruence |].
    rewrite Hr', Hr.
    replace (16 * S (List.length rest))%nat
      with (16 * List.length rest + 16)%nat by lia.
    apply eq_sym, iter_advance_add.
Qed.

(** X7: whatever its state, one [update] leaves the config, the start time
    and the kinetics model as they are, adds 1/3600 to the running time,
    stamps the snapshot with the clock reading and uses exactly 16 values
    of the generator; [n] updates return [n] snapshots and use [16 n]
    values. *)
Theorem update_frame :
  (forall now s,
     let s' := snd (ReactorSimulator.update now s) in
     ReactorSimulator.config s' = ReactorSimulator.config s /\
     ReactorSimulator.startTime s' = ReactorSimulator.startTime s /\
     ReactorSimulator.enzymeModel s' = ReactorSimulator.enzymeModel s /\
     ReactorSimulator.runningTime s'
     = ReactorSimulator.runningTime s + #1 / #3600 /\
     ReactorSimulator.metrics s' = fst (ReactorSimulator.update now s) /\
     timestamp (fst (ReactorSimulator.update now s)) = now /\
     ReactorSimulator.random s'
     = Nat.iter 16 SeededRandom.advance (ReactorSimulator.random s)) /\
  (forall clock s,
     List.length (fst (ReactorSimulator.run clock s)) = List.length clock /\
     ReactorSimulator.config (snd (ReactorSimulator.run clock s))
     = ReactorSimulator.config s /\
     ReactorSimulator.random (snd (ReactorSimulator.run clock s))
     = Nat.iter (16 * List.length clock) SeededRandom.advance
         (ReactorSimulator.random s)).
Proof.
  split.
  - intros now s s'. subst s'.
    pose proof (update_fields now s) as (H1 & H2 & H3 & H4 & H5 & H6).
    pose proof (update_random now s) as H7.
    repeat split; assumption.
  - intros clock s.
    pose proof (run_fields clock s) as (H1 & H2 & _ & H4).
    repeat split; assumption.
Qed.

(** The drift laws of [update] on a finite state. *)
Lemma update_drift now s (T P tT tP : R) :
  temperature (ReactorSimulator.metrics s) = #T ->
  pH (ReactorSimulator.metrics s) = #P ->
  targetTemperature (ReactorSimulator.config s) = #tT ->
  targetPH (ReactorSimulator.config s) = #tP ->
  positive_draws 2 (ReactorSimulator.random s) ->
  let seed := ReactorSimulator.random s in
  temperature (fst (ReactorSimulator.update now s))
  = #(T + ((tT - T) * 0.02 + (0 + boxMuller seed * 0.05))) /\
  pH (fst (ReactorSimulator.update now s))
  = #(P + ((tP - P) * 0.01
           + (0 + boxMuller (SeededRandom.advance (SeededRandom.advance seed))
                  * 0.02))).
Proof.
  destruct s as [[t p pr f ea sb py ox ts] [tt tp tpr tf mea msc om ao]
                   st em seed0 rt].
  cbn [ReactorSimulator.metrics ReactorSimulator.config ReactorSimulator.random
       temperature pH targetTemperature targetPH].
  intros -> -> -> -> (H1 & H2 & _). cbv zeta.
  unfold ReactorSimulator.update, EnzymeKineticsModel.calculateActivity,
    bind, ret.
  cbn [ReactorSimulator.metrics ReactorSimulator.config ReactorSimulator.random
       temperature pH targetTemperature targetPH].
  rewrite (gaussian_positive_draw 0 0.05 seed0 H1). cbv beta iota zeta.
  rewrite (gaussian_positive_draw 0 0.02 _ H2). cbv beta iota zeta.
  repeat (rewrite gaussian_eq; cbv beta iota zeta).
  cbn [fst temperature pH]. split; reflexivity.
Qed.

Lemma contraction_bound (x tgt gain z sd bound : R) :
  (0 <= gain <= 1)%R -> (-10 <= z <= 10)%R -> (0 <= sd)%R ->
  (10 * sd <= bound)%R ->
  (Rabs (x + ((tgt - x) * gain + (0 + z * sd)) - tgt)
   <= (1 - gain) * Rabs (x - tgt) + bound)%R.
Proof.
  intros Hg Hz Hsd Hb.
  replace (x + ((tgt - x) * gain + (0 + z * sd)) - tgt)%R
    with ((1 - gain) * (x - tgt) + z * sd)%R by ring.
  eapply Rle_trans; [apply Rabs_triang |].
  rewrite Rabs_mult. rewrite (Rabs_right (1 - gain)) by lra.
  apply Rplus_le_compat_l.
  apply Rabs_le. split; nra.
Qed.

(** X8: on a finite state, when the two Gaussian draws involved start from
    positive uniform values, [update] brings the temperature and the pH
    closer to their targets up to the noise: the distance to the target
    is at most 0.98 (0.99 for pH) times the old one plus 0.5 (plus 0.2);
    the same holds towards a value just set by [adjustParameter]. *)
Theorem update_approaches_target now s (T P tT tP : R) :
  temperature (ReactorSimulator.metrics s) = #T ->
  pH (ReactorSimulator.metrics s) = #P ->
  targetTemperature (ReactorSimulator.config s) = #tT ->
  targetPH (ReactorSimulator.config s) = #tP ->
  positive_draws 2 (ReactorSimulator.random s) ->
  (exists T' P',
     temperature (fst (ReactorSimulator.update now s)) = #T' /\
     pH (fst (ReactorSimulator.update now s)) = #P' /\
     (Rabs (T' - tT) <= 0.98 * Rabs (T - tT) + 0.5)%R /\
     (Rabs (P' - tP) <= 0.99 * Rabs (P - tP) + 0.2)%R) /\
  (forall v : R,
     exists T',
       temperature
         (fst (ReactorSimulator.update now
                 (ReactorSimulator.adjustParameter "temperature" #v s))) = #T' /\
       (Rabs (T' - v) <= 0.98 * Rabs (T - v) + 0.5)%R).
Proof.
  intros HT HP HtT HtP Hpos.
  pose proof Hpos as (H1 & H2 & _).
  pose proof (boxMuller_bound _ H1) as B1.
  pose proof (boxMuller_bound _ H2) as B2.
  split.
  - destruct (update_drift now s T P tT tP HT HP HtT HtP Hpos) as [ET EP].
    do 2 eexists. split; [exact ET | split; [exact EP | split]].
    + replace 0.98%R with (1 - 0.02)%R by lra.
      apply contraction_bound; lra.
    + replace 0.99%R with (1 - 0.01)%R by lra.
      apply contraction_bound; lra.
  - intros v.
    destruct (update_drift now
                (ReactorSimulator.adjustParameter "temperature" #v s)
                T P v tP) as [ET _];
      try (destruct s as [m c st em seed rt]; assumption || reflexivity).
    eexists. split; [exact ET |].
    replace 0.98%R with (1 - 0.02)%R by lra.
    apply contraction_bound; try lra.
    destruct s; exact B1.
Qed.

Lemma update_approaches_target_witness :
  positive_draws 2 (ReactorSimulator.random sample_simulator) /\
  exists T' P',
    temperature (fst (ReactorSimulator.update #0 sample_simulator)) = #T' /\
    pH (fst (ReactorSimulator.update #0 sample_simulator)) = #P' /\
    (Rabs (T' - 35) <= 0.98 * Rabs (35 - 35) + 0.5)%R /\
    (Rabs (P' - 7.4) <= 0.99 * Rabs (7.4 - 7.4) + 0.2)%R.
Proof.
  assert (Hpos : positive_draws 2 (ReactorSimulator.random sample_simulator))
    by (cbn [positive_draws sample_simulator ReactorSimulator.random];
        repeat split).
  split; [exact Hpos |].
  apply (proj1 (update_approaches_target #0 sample_simulator 35 7.4 35 7.4
                  eq_refl eq_refl eq_refl eq_refl Hpos)).
Defined.

(** ** Alert derivation *)

Section AlertRules.

Variable toFixed : nat -> number -> string.
Variable toString : number -> string.

(** X9: the derived alerts are, in this order, the pH alert (deviation
    above 0.3), the enzyme alert (activity below 75, critical below 70),
    the temperature alert and the yield alert (yield above 82); the first
    two are created unresolved, the last two resolved; there are at most
    four, so the final [slice(0, 5)] never drops one, and each carries the
    reactor id it was derived for. *)
Theorem generateAlerts_rules reactorId m history now stamp rnd :
  let derived :=
    generateAlerts toFixed toString reactorId m history now stamp rnd in
  map alert_summary derived
  = ((if abs (pH m - #7.4) >? #0.3
      then [(Some "pH"%string,
             if abs (pH m - #7.4) >? #0.5 then critical else warning, false)]
      else [])
     ++ (if enzymeActivity m <? #75
         then [(Some "enzymeActivity"%string,
                if enzymeActivity m <? #70 then critical else warning, false)]
         else [])
     ++ (if temperatureFluctuates m history
         then [(Some "temperature"%string, info, true)] else [])
     ++ (if productYield m >? #82
         then [(Some "productYield"%string, success, true)] else []))%list /\
  (List.length derived <= 4)%nat /\
  Forall (fun a => alert_reactorId a = reactorId) derived.
Proof.
  intros derived. subst derived.
  unfold generateAlerts, temperatureFluctuates.
  destruct (abs (pH m - #7.4) >? #0.3);
    destruct (enzymeActivity m <? #75);
    destruct (10 <=? List.length history)%nat;
    cbn [andb];
    try destruct (_ / #10 >? #0.5);
    destruct (productYield m >? #82);
    cbn [push app slice_first firstn map alert_summary alert_parameter
         alert_type alert_resolved List.length];
    (split; [reflexivity | split; [lia |]]);
    repeat (constructor; [reflexivity |]); constructor.
Qed.

(** X10: the temperature rule looks at the last ten history points only:
    what precedes them does not change the derived alerts, and with fewer
    than ten points the history plays no part at all. *)
Theorem generateAlerts_last_ten reactorId m now stamp rnd
    (older older' recent short : list HistoricalDataPoint) :
  (10 <= List.length recent)%nat -> (List.length short < 10)%nat ->
  generateAlerts toFixed toString reactorId m (older ++ recent) now stamp rnd
  = generateAlerts toFixed toString reactorId m (older' ++ recent) now stamp rnd
  /\
  generateAlerts toFixed toString reactorId m short now stamp rnd
  = generateAlerts toFixed toString reactorId m [] now stamp rnd.
Proof.
  intros Hrecent Hshort. split.
  - unfold generateAlerts.
    rewrite !(slice_last_app 10) by assumption.
    assert (H1 : (10 <=? List.length (older ++ recent))%nat = true)
      by (apply Nat.leb_le; rewrite length_app; lia).
    assert (H2 : (10 <=? List.length (older' ++ recent))%nat = true)
      by (apply Nat.leb_le; rewrite length_app; lia).
    rewrite H1, H2. reflexivity.
  - unfold generateAlerts.
    assert (H1 : (10 <=? List.length short)%nat = false)
      by (apply Nat.leb_gt; assumption).
    rewrite H1. reflexivity.
Qed.

End AlertRules.

Lemma generateAlerts_last_ten_witness :
  generateAlerts sample_toFixed sample_toString "RXN-001" sample_metrics
    [mkPoint sample_metrics "p"] #0 (fun _ => #0) (fun _ => #0.5)
  = generateAlerts sample_toFixed sample_toString "RXN-001" sample_metrics
      [] #0 (fun _ => #0) (fun _ => #0.5).
Proof.
  apply (proj2 (generateAlerts_last_ten sample_toFixed sample_toString
                  "RXN-001" sample_metrics #0 (fun _ => #0) (fun _ => #0.5)
                  [] [] (repeat (mkPoint sample_metrics "p") 10)
                  [mkPoint sample_metrics "p"]
                  ltac:(rewrite repeat_length; lia)
                  ltac:(cbn [List.length]; lia))).
Defined.

(** ** The prediction engine *)

Section Predictions.

Variable toFixed : nat -> number -> string.

Local Open Scope string_scope.
Local Open Scope js_scope.

(** X11: on finite temperature, pH and enzyme activity the anomaly score
    is a number in [[0, 1]], and the flagged parameters are temperature
    and pH exactly when the score exceeds 0.3. *)
Theorem anomaly_score_range (m : ReactorMetrics) history rt seed (T P A : R) :
  temperature m = #T -> pH m = #P -> enzymeActivity m = #A ->
  let detection :=
    anomalyDetection (generateAIPredictions toFixed m history rt seed) in
  exists x,
    score detection = #x /\ (0 <= x <= 1)%R /\
    parameters detection
    = (if Rgtb x 0.3 then ["temperature"; "pH"] else []).
Proof.
  intros HT HP HA detection. subst detection.
  unfold generateAIPredictions.
  cbn [anomalyDetection score parameters].
  rewrite HT, HP, HA.
  cbn [sub abs]. rewrite !div_fin by lra. cbn [add min max].
  eexists. split; [reflexivity | split].
  - split; [apply Rmax_l |].
    apply Rmax_lub; [lra | apply Rmin_l].
  - reflexivity.
Qed.

(** X12: on finite metrics the predicted yield is the current yield plus
    a non-negative gain, capped at 95: it is at most 95 and at least the
    smaller of 95 and the current yield; the confidence interval is the
    prediction minus and plus 2.5. *)
Theorem predicted_yield_range (m : ReactorMetrics) history rt seed
    (T P F Y : R) :
  temperature m = #T -> pH m = #P -> flowRate m = #F -> productYield m = #Y ->
  let opt :=
    yieldOptimization (generateAIPredictions toFixed m history rt seed) in
  exists y,
    predictedYield opt = #y /\ currentYield opt = #Y /\
    (Rmin 95 Y <= y <= 95)%R /\
    confidenceInterval opt = (#(y - 2.5), #(y + 2.5)).
Proof.
  intros HT HP HF HY opt. subst opt.
  unfold generateAIPredictions.
  cbn [yieldOptimization predictedYield currentYield confidenceInterval].
  rewrite HT, HP, HF, HY. cbn [sub abs mul add min].
  eexists. split; [reflexivity | split; [reflexivity | split]].
  - pose proof (Rabs_pos (T - 35.8)). pose proof (Rabs_pos (P - 7.35)).
    pose proof (Rabs_pos (F - 165)).
    split; [| apply Rmin_l].
    apply Rmin_glb; [apply Rmin_l |].
    apply Rle_trans with Y; [apply Rmin_r | lra].
  - reflexivity.
Qed.

(** X13: the forecast's confidence lies in [[0.87, 0.97)], in the generator
    for every non-negative clock seed and in the provider's tick for every
    draw in [[0, 1)]; the suggested action is present exactly when the
    activity is below 80. *)
Theorem confidence_range :
  (forall m history rt (seed : Z),
     (0 <= seed)%Z ->
     let forecast :=
       enzymeDeactivation (generateAIPredictions toFixed m history rt seed) in
     (exists c, confidence forecast = #c /\ (0.87 <= c < 0.97)%R) /\
     (suggestedAction forecast <> None
      <-> (enzymeActivity m <? #80) = true)) /\
  (forall toString e r,
     unit_draw (ReactorProvider.rnd e 8%nat) ->
     let forecast :=
       enzymeDeactivation
         (predictions (ReactorProvider.tickReactor toString e r)) in
     (exists c, confidence forecast = #c /\ (0.87 <= c < 0.97)%R) /\
     (suggestedAction forecast <> None
      <-> (enzymeActivity (currentMetrics (ReactorProvider.tickReactor toString e r))
           <? #80) = true)).
Proof.
  split.
  - intros m history rt seed Hseed forecast. subst forecast.
    unfold generateAIPredictions, SeededRandom.new.
    cbn [enzymeDeactivation confidence suggestedAction].
    rewrite range_eq. cbn [fst add].
    pose proof (uniform_nonneg seed Hseed) as Hu.
    split.
    + eexists. split; [reflexivity | split; nra].
    + destruct (enzymeActivity m <? #80); split; congruence.
  - intros toString e r (u & Hu & Hb) forecast. subst forecast.
    cbn [ReactorProvider.tickReactor predictions enzymeDeactivation confidence
         suggestedAction currentMetrics].
    rewrite Hu. cbn [mul add].
    split.
    + eexists. split; [reflexivity | split; nra].
    + destruct (enzymeActivity (ReactorProvider.tickMetrics e r) <? #80);
        split; congruence.
Qed.

(** X14: every recommended change proposes the fixed setpoint of its
    parameter (35.8, 7.35, 165) in place of the current metric; a
    temperature change has priority high when the delta exceeds 1, a pH
    change when it exceeds 0.3, otherwise medium, and a flow change has
    priority low. *)
Theorem recommendation_contents (m : ReactorMetrics) :
  Forall
    (fun change =>
       (parameter change = "temperature" /\
        currentValue change = temperature m /\
        suggestedValue change = #35.8 /\
        priority change
        = (if abs (temperature m - #35.8) >? #1 then high else medium)) \/
       (parameter change = "pH" /\
        currentValue change = pH m /\
        suggestedValue change = #7.35 /\
        priority change
        = (if abs (pH m - #7.35) >? #0.3 then high else medium)) \/
       (parameter change = "flowRate" /\
        currentValue change = flowRate m /\
        suggestedValue change = #165 /\
        priority change = low))
    (recommendations toFixed m).
Proof.
  unfold recommendations.
  destruct (abs (temperature m - #35.8) >? #0.5);
    destruct (abs (pH m - #7.35) >? #0.1);
    destruct (abs (flowRate m - #165) >? #10);
    cbn [push app];
    repeat (constructor;
            [cbn [parameter currentValue suggestedValue priority]; tauto |]);
    constructor.
Qed.

End Predictions.

Lemma anomaly_score_range_witness :
  exists x,
    score (anomalyDetection
             (generateAIPredictions sample_toFixed sample_metrics [] #10 0%Z))
    = #x /\ (0 <= x <= 1)%R /\
    parameters (anomalyDetection
                  (generateAIPredictions sample_toFixed sample_metrics [] #10 0%Z))
    = (if Rgtb x 0.3 then ["temperature"%string; "pH"%string] else []).
Proof.
  apply (anomaly_score_range sample_toFixed sample_metrics [] #10 0%Z
           35 7.4 90 eq_refl eq_refl eq_refl).
Defined.

Lemma predicted_yield_range_witness :
  exists y,
    predictedYield (yieldOptimization
                      (generateAIPredictions sample_toFixed sample_metrics [] #10 0%Z))
    = #y /\
    currentYield (yieldOptimization
                    (generateAIPredictions sample_toFixed sample_metrics [] #10 0%Z))
    = #80 /\
    (Rmin 95 80 <= y <= 95)%R /\
    confidenceInterval (yieldOptimization
                          (generateAIPredictions sample_toFixed sample_metrics [] #10 0%Z))
    = (#(y - 2.5), #(y + 2.5)).
Proof.
  apply (predicted_yield_range sample_toFixed sample_metrics [] #10 0%Z
           35 7.4 150 80 eq_refl eq_refl eq_refl eq_refl).
Defined.

Lemma confidence_range_witness :
  (0 <= 12345)%Z /\
  exists c,
    confidence (enzymeDeactivation
                  (generateAIPredictions sample_toFixed sample_metrics [] #10
                     12345%Z)) = #c /\
    (0.87 <= c < 0.97)%R.
Proof.
  split; [lia |].
  apply (proj1 (confidence_range sample_toFixed) sample_metrics [] #10 12345%Z).
  lia.
Defined.

(** ** Dashboard statistics of a non-empty list *)

Section Dashboard.

Context {A : Type}.

Lemma fold_sum_finite (f : A -> number) (lo hi : R) (xs : list A) :
  Forall (fun x => between lo hi (f x)) xs ->
  forall a : R,
  exists s,
    fold_left (fun sum x => sum + f x) xs #a = #(a + s) /\
    (INR (List.length xs) * lo <= s <= INR (List.length xs) * hi)%R.
Proof.
  induction 1 as [| x xs (v & Hv & Hb) _ IH]; intros a.
  - exists 0%R. cbn [fold_left List.length INR]. split; [f_equal; lra | lra].
  - cbn [fold_left]. rewrite Hv. cbn [add].
    destruct (IH (a + v)%R) as (s & Hs & Hsb).
    exists (v + s)%R. split; [rewrite Hs; f_equal; lra |].
    rewrite length_cons, S_INR. lra.
Qed.

Lemma sum_by_finite (f : A -> number) (lo hi : R) (xs : list A) :
  Forall (fun x => between lo hi (f x)) xs ->
  exists s,
    sum_by f xs = #s /\
    (INR (List.length xs) * lo <= s <= INR (List.length xs) * hi)%R.
Proof.
  intros H. destruct (fold_sum_finite f lo hi xs H 0) as (s & Hs & Hb).
  exists s. split; [| assumption].
  unfold sum_by. rewrite Hs. f_equal. lra.
Qed.

Lemma fold_sum_counts (g : A -> nat) (xs : list A) : forall a : nat,
  fold_left (fun sum x => sum + ofNat (g x)) xs (ofNat a)
  = ofNat (a + list_sum (map g xs)).
Proof.
  induction xs as [| x xs IH]; intros a.
  - cbn [fold_left map list_sum]. now rewrite Nat.add_0_r.
  - cbn [fold_left map list_sum].
    change (ofNat a + ofNat (g x)) with #(INR a + INR (g x)).
    rewrite <- plus_INR. fold (ofNat (a + g x)). rewrite IH.
    cbn [list_sum fold_right]. unfold ofNat. do 2 f_equal. unfold list_sum. lia.
Qed.

Lemma sum_by_counts (g : A -> nat) (xs : list A) :
  sum_by (fun x => ofNat (g x)) xs = ofNat (list_sum (map g xs)).
Proof.
  unfold sum_by. change #0 with (ofNat 0). now rewrite fold_sum_counts.
Qed.

Lemma filter_length_le (p : A -> bool) (xs : list A) :
  (List.length (filter p xs) <= List.length xs)%nat.
Proof.
  induction xs as [| x xs IH]; [reflexivity |].
  cbn [filter]. destruct (p x); cbn [List.length]; lia.
Qed.

End Dashboard.

Lemma list_sum_le {A} (g h : A -> nat) (xs : list A) :
  (forall x, g x <= h x)%nat ->
  (list_sum (map g xs) <= list_sum (map h xs))%nat.
Proof.
  intros Hle. induction xs as [| x xs IH]; [reflexivity |].
  simpl. specialize (Hle x). lia.
Qed.

(** X15: for every reactor list the counts are natural numbers with
    [activeReactors <= totalReactors] and [criticalAlerts <= totalAlerts];
    for a non-empty list [uptime] is a number in [[0, 100]]. *)
Theorem dashboard_counts (reactors : list Reactor) :
  let stats := generateDashboardStats reactors in
  (exists active total critical all : nat,
     activeReactors stats = ofNat active /\
     totalReactors stats = ofNat total /\
     criticalAlerts stats = ofNat critical /\
     totalAlerts stats = ofNat all /\
     total = List.length reactors /\
     (active <= total)%nat /\ (critical <= all)%nat) /\
  (reactors <> [] ->
   exists u, stats_uptime stats = #u /\ (0 <= u <= 100)%R).
Proof.
  intros stats. subst stats. unfold generateDashboardStats.
  cbn [activeReactors totalReactors criticalAlerts totalAlerts stats_uptime].
  set (isActive := fun r : Reactor =>
         Status_eqb (status r) running || Status_eqb (status r) optimizing).
  pose proof (filter_length_le isActive reactors) as Hactive.
  split.
  - exists (List.length (filter isActive reactors)), (List.length reactors),
      (list_sum (map (fun r => List.length (filter is_open_critical (alerts r)))
                   reactors)),
      (list_sum (map (fun r => List.length (alerts r)) reactors)).
    repeat split; try assumption.
    + unfold count_by.
      apply (sum_by_counts
               (fun r => List.length (filter is_open_critical (alerts r)))).
    + apply (sum_by_counts (fun r => List.length (alerts r))).
    + apply list_sum_le. intros r. apply filter_length_le.
  - intros Hne. unfold count_by, ofNat.
    assert (Hn : (0 < INR (List.length reactors))%R).
    { apply lt_0_INR. destruct reactors; [contradiction | cbn; lia]. }
    rewrite div_fin by lra. cbn [mul].
    eexists. split; [reflexivity |].
    assert (Hk : (0 <= INR (List.length (filter isActive reactors))
                  <= INR (List.length reactors))%R)
      by (split; [apply pos_INR | apply le_INR; assumption]).
    set (k := INR (List.length (filter isActive reactors))) in *.
    set (n := INR (List.length reactors)) in *.
    assert (Hq : (0 <= k / n <= 1)%R).
    { split.
      - apply Rmult_le_pos; [lra | apply Rlt_le, Rinv_0_lt_compat; lra].
      - apply Rmult_le_reg_r with n; [lra |].
        unfold Rdiv. rewrite Rmult_assoc, Rinv_l by lra. lra. }
    lra.
Qed.

Lemma dashboard_counts_witness :
  [sample_reactor] <> [] /\
  exists u, stats_uptime (generateDashboardStats [sample_reactor]) = #u /\
            (0 <= u <= 100)%R.
Proof.
  split; [discriminate |].
  apply (proj2 (dashboard_counts [sample_reactor])). discriminate.
Defined.

(** X16: for a non-empty list whose product yields all lie in [[lo, hi]],
    [averageYield] is a number in [[lo, hi]], and likewise [systemHealth]
    for the enzyme activities: the averages never leave the range of the
    values averaged. *)
Theorem dashboard_averages (reactors : list Reactor) (lo hi lo' hi' : R) :
  reactors <> [] ->
  Forall (fun r => between lo hi (productYield (currentMetrics r))) reactors ->
  Forall (fun r => between lo' hi' (enzymeActivity (currentMetrics r)))
         reactors ->
  between lo hi (averageYield (generateDashboardStats reactors)) /\
  between lo' hi' (systemHealth (generateDashboardStats reactors)).
Proof.
  intros Hne Hy Ha. unfold generateDashboardStats.
  cbn [averageYield systemHealth].
  assert (Hn : (0 < INR (List.length reactors))%R).
  { apply lt_0_INR. destruct reactors; [contradiction | cbn; lia]. }
  destruct (sum_by_finite _ lo hi reactors Hy) as (sy & Ey & By).
  destruct (sum_by_finite _ lo' hi' reactors Ha) as (sa & Ea & Ba).
  rewrite Ey, Ea. unfold ofNat. rewrite !div_fin by lra.
  set (n := INR (List.length reactors)) in *.
  assert (Hdiv : forall s l h : R,
             (n * l <= s <= n * h)%R -> (l <= s / n <= h)%R).
  { intros s l h [H1 H2]. split.
    - apply Rmult_le_reg_r with n; [lra |].
      unfold Rdiv. rewrite Rmult_assoc, Rinv_l by lra. lra.
    - apply Rmult_le_reg_r with n; [lra |].
      unfold Rdiv. rewrite Rmult_assoc, Rinv_l by lra. lra. }
  split; eexists; (split; [reflexivity | apply Hdiv; assumption]).
Qed.

Lemma dashboard_averages_witness :
  between 80 80 (averageYield (generateDashboardStats [sample_reactor])) /\
  between 90 90 (systemHealth (generateDashboardStats [sample_reactor])).
Proof.
  apply (dashboard_averages [sample_reactor] 80 80 90 90).
  - discriminate.
  - constructor; [| constructor]. exists 80%R. split; [reflexivity | lra].
  - constructor; [| constructor]. exists 90%R. split; [reflexivity | lra].
Defined.

(** ** The provider's tick *)

Section ProviderTick.

Import ReactorProvider.
Variable toString : number -> string.

(** X17: ticks change neither the identity, the alerts, the config, the
    batch count and the maintenance date of a reactor, nor the yield
    optimisation and the anomaly detection of its predictions (only the
    deactivation forecast is recomputed); each tick adds 2/3600 to a
    finite uptime. *)
Theorem ticks_frame (envs : list TickEnv) : forall (r : Reactor),
  let r' := ticks toString envs r in
  id r' = id r /\ name r' = name r /\ location r' = location r /\
  alerts r' = alerts r /\ config r' = config r /\
  totalBatches r' = totalBatches r /\ lastMaintenance r' = lastMaintenance r /\
  yieldOptimization (predictions r') = yieldOptimization (predictions r) /\
  anomalyDetection (predictions r') = anomalyDetection (predictions r) /\
  (forall u : R,
     uptime r = #u ->
     uptime r' = #(u + INR (List.length envs) * (2 / 3600))).
Proof.
  induction envs as [| e rest IH]; intros r.
  - cbn [ticks List.length INR]. repeat split.
    intros u ->. f_equal. lra.
  - cbn zeta in IH |- *. change (ticks toString (e :: rest) r)
      with (ticks toString rest (tickReactor toString e r)).
    destruct (IH (tickReactor toString e r))
      as (H1 & H2 & H3 & H4 & H5 & H6 & H7 & H8 & H9 & H10).
    cbn [tickReactor id name location alerts config totalBatches
         lastMaintenance predictions yieldOptimization anomalyDetection uptime]
      in H1, H2, H3, H4, H5, H6, H7, H8, H9, H10.
    repeat split; try assumption.
    intros u Hu. rewrite Hu in H10. rewrite div_fin in H10 by lra.
    cbn [add] in H10. rewrite (H10 _ eq_refl).
    rewrite length_cons, S_INR. f_equal. lra.
Qed.

Lemma tickReactor_error (e : TickEnv) (r : Reactor) :
  status (tickReactor toString e r) = error ->
  existsb is_open_critical (alerts r) = true.
Proof.
  cbn [tickReactor status].
  destruct (enzymeActivity (tickMetrics e r) <? #70); [discriminate |].
  destruct (existsb is_open_critical (alerts r)); [reflexivity |].
  destruct (isOptimizing e && _); discriminate.
Qed.

(** X18: the status after a tick is never [idle]; it is [error] only when
    the reactor carries an unresolved critical alert, [optimizing] only
    when the latch is set and the reactor is the selected one, and
    [maintenance] exactly when the new enzyme activity is below 70. *)
Theorem tick_status (e : TickEnv) (r : Reactor) :
  let r' := tickReactor toString e r in
  status r' <> idle /\
  (status r' = maintenance
   <-> (enzymeActivity (currentMetrics r') <? #70) = true) /\
  (status r' = error -> existsb is_open_critical (alerts r) = true) /\
  (status r' = optimizing ->
   isOptimizing e = true /\
   exists sel, selectedReactor e = Some sel /\ id sel = id r).
Proof.
  cbn zeta. cbn [tickReactor status currentMetrics].
  destruct (enzymeActivity (tickMetrics e r) <? #70) eqn:E70;
    [| destruct (existsb is_open_critical (alerts r)) eqn:Ecrit;
       [| destruct (isOptimizing e) eqn:Eopt; cbn [andb];
          [destruct (selectedReactor e) as [sel |] eqn:Esel;
           [destruct (String.eqb (id r) (id sel)) eqn:Eid |] |]]];
    repeat split; intros; repeat split;
    try discriminate; try reflexivity; try assumption.
  exists sel. split; [reflexivity |].
  apply String.eqb_eq in Eid. congruence.
Qed.

(** X19: whatever finite flow rate a manual adjustment writes, the next
    tick brings it back into [[100, 200]]: a value of 201.5 or more
    becomes exactly 200 and a value of 98.5 or less exactly 100. *)
Theorem manual_flow_is_clamped toFixed (e : TickEnv) (r : Reactor)
    reactorId now0 stamp0 (v u : R) :
  rnd e 3%nat = #u -> (0 <= u < 1)%R ->
  let adjusted :=
    adjustReactor toFixed toString reactorId "flowRate" #v now0 stamp0 r in
  flowRate (currentMetrics adjusted) = #v /\
  exists f,
    flowRate (tickMetrics e adjusted) = #f /\ (100 <= f <= 200)%R /\
    ((201.5 <= v)%R -> f = 200%R) /\ ((v <= 98.5)%R -> f = 100%R).
Proof.
  intros Hu Hb adjusted. subst adjusted.
  split; [reflexivity |].
  unfold tickMetrics. cbn [flowRate].
  cbn [adjustReactor currentMetrics flowRate String.eqb Ascii.eqb Bool.eqb].
  rewrite Hu. cbn [sub mul add min max].
  eexists. split; [reflexivity |].
  split; [apply clamp_within; lra |].
  split; intros Hv.
  - rewrite Rmin_left by nra. apply Rmax_right. lra.
  - apply Rmax_left. apply Rle_trans with (v + (u - 0.5) * 3)%R;
      [apply Rmin_r | nra].
Qed.

End ProviderTick.

Lemma manual_flow_is_clamped_witness :
  exists f,
    flowRate
      (ReactorProvider.tickMetrics sample_env
         (ReactorProvider.adjustReactor sample_toFixed sample_toString
            "RXN-001" "flowRate" #500 #0 #0 sample_reactor)) = #f /\
    (100 <= f <= 200)%R /\
    ((201.5 <= 500)%R -> f = 200%R) /\ ((500 <= 98.5)%R -> f = 100%R).
Proof.
  apply (proj2 (manual_flow_is_clamped sample_toString sample_toFixed
                  sample_env sample_reactor "RXN-001" #0 #0 500 0.5
                  eq_refl ltac:(lra))).
Defined.

(** ** Manual adjustments and dismissals *)

Lemma Forall2_map_right {A B} (P : A -> B -> Prop) (f : A -> B) (xs : list A) :
  (forall x, P x (f x)) -> Forall2 P xs (map f xs).
Proof.
  intros H. induction xs as [| x xs IH]; cbn [map]; constructor; auto.
Qed.

Lemma Forall2_map_step {A B} (P Q : A -> B -> Prop) (f : B -> B)
    (xs : list A) (ys : list B) :
  (forall x y, P x y -> Q x (f y)) ->
  Forall2 P xs ys -> Forall2 Q xs (map f ys).
Proof.
  intros H. induction 1; cbn [map]; constructor; auto.
Qed.

Section Adjustments.

Import ReactorProvider.
Variable toFixed : nat -> number -> string.
Variable toString : number -> string.

(** One manual adjustment, reactor by reactor. *)
Lemma adjust_each reactorId param value now stamp (r : Reactor) :
  let r' :=
    if negb (String.eqb (id r) reactorId) then r
    else adjustReactor toFixed toString reactorId param value now stamp r in
  id r' = id r /\ status r' = status r /\ history r' = history r /\
  predictions r' = predictions r /\ uptime r' = uptime r /\
  (id r <> reactorId -> r' = r) /\
  (id r = reactorId ->
   exists a,
     alerts r' = a :: firstn 4 (alerts r) /\ is_manual a /\
     alert_parameter a = Some param /\ alert_value a = Some value).
Proof.
  cbn zeta. destruct (String.eqb (id r) reactorId) eqn:E; cbn [negb].
  - apply String.eqb_eq in E. repeat split; try reflexivity.
    + intros Hne. contradiction.
    + intros _. eexists. split; [reflexivity |].
      repeat split; cbn; congruence.
  - apply String.eqb_neq in E. repeat split; try reflexivity.
    intros Heq. contradiction.
Qed.

(** X20: [updateReactorParameter] keeps the list of reactors in place and
    leaves every reactor with another id untouched; on a reactor with the
    given id it keeps status, history, predictions and uptime and replaces
    the alerts by a new unresolved info alert (naming the parameter and
    the value) followed by the first four old ones, so that at most five
    alerts remain. *)
Theorem updateReactorParameter_alerts reactorId param value now stamp
    (rs : list Reactor) :
  Forall2
    (fun r r' =>
       id r' = id r /\ status r' = status r /\ history r' = history r /\
       predictions r' = predictions r /\ uptime r' = uptime r /\
       (id r <> reactorId -> r' = r) /\
       (id r = reactorId ->
        (exists a,
           alerts r' = a :: firstn 4 (alerts r) /\ is_manual a /\
           alert_parameter a = Some param /\ alert_value a = Some value) /\
        List.length (alerts r') = Nat.min (S (List.length (alerts r))) 5))
    rs
    (updateReactorParameter toFixed toString reactorId param value now stamp rs).
Proof.
  unfold updateReactorParameter. apply Forall2_map_right. intros r.
  destruct (adjust_each reactorId param value now stamp r)
    as (H1 & H2 & H3 & H4 & H5 & H6 & H7).
  repeat split; try assumption.
  - apply H7. assumption.
  - destruct (H7 H) as (a & Ha & _). rewrite Ha.
    cbn [List.length]. rewrite length_firstn. lia.
Qed.

Lemma manual_prefix_step (j : nat) (a : Alert) (old : list Alert) :
  is_manual a ->
  (j = 0%nat \/
   (List.length old <= 5)%nat /\ (Nat.min j 5 <= List.length old)%nat /\
   Forall is_manual (firstn j old)) ->
  (List.length (a :: firstn 4 old) <= 5)%nat /\
  (Nat.min (S j) 5 <= List.length (a :: firstn 4 old))%nat /\
  Forall is_manual (firstn (S j) (a :: firstn 4 old)).
Proof.
  intros Ha Hold. rewrite firstn_cons. cbn [List.length].
  rewrite length_firstn.
  split; [lia |]. split.
  - destruct Hold as [-> | (H1 & H2 & _)]; lia.
  - constructor; [assumption |].
    destruct Hold as [-> | (_ & _ & H3)]; [constructor |].
    rewrite firstn_firstn.
    rewrite <- (firstn_skipn (Nat.min j 4) (firstn j old)) in H3.
    apply Forall_app in H3. destruct H3 as [H3 _].
    rewrite firstn_firstn in H3.
    replace (Nat.min (Nat.min j 4) j) with (Nat.min j 4) in H3 by lia.
    exact H3.
Qed.

Lemma applyChanges_prefix (changes : list ParameterAdjustment) reactorId now stamp :
  forall (j k : nat) (rs0 rs : list Reactor),
  Forall2
    (fun r r' =>
       id r' = id r /\
       (id r = reactorId ->
        j = 0%nat \/
        (List.length (alerts r') <= 5)%nat /\
        (Nat.min j 5 <= List.length (alerts r'))%nat /\
        Forall is_manual (firstn j (alerts r'))))
    rs0 rs ->
  Forall2
    (fun r r' =>
       id r' = id r /\
       (id r = reactorId ->
        (j + List.length changes)%nat = 0%nat \/
        (List.length (alerts r') <= 5)%nat /\
        (Nat.min (j + List.length changes) 5 <= List.length (alerts r'))%nat /\
        Forall is_manual (firstn (j + List.length changes) (alerts r'))))
    rs0
    (ReactorContext.applyChanges toFixed toString reactorId changes now stamp k rs).
Proof.
  induction changes as [| c rest IH]; intros j k rs0 rs H.
  - cbn [ReactorContext.applyChanges List.length]. rewrite Nat.add_0_r. exact H.
  - cbn [ReactorContext.applyChanges List.length].
    replace (j + S (List.length rest))%nat with (S j + List.length rest)%nat
      by lia.
    apply IH. unfold updateReactorParameter.
    revert H. apply Forall2_map_step. intros r r' [Hid Hpre].
    destruct (adjust_each reactorId (parameter c) (suggestedValue c)
                (now k) (stamp k) r') as (H1 & _ & _ & _ & _ & _ & H7).
    cbn zeta in H1, H7. split; [congruence |].
    intros Hr. right.
    destruct (H7 ltac:(congruence)) as (a & Ha & Hm & _).
    rewrite Ha. apply manual_prefix_step; [assumption |]. auto.
Qed.

(** X21: five or more adjustments applied to a reactor (by
    [applyOptimization] or one by one) leave it with manual-adjustment
    alerts only: every earlier alert has been pushed out, so that no
    unresolved critical alert is left. *)
Theorem adjustments_evict_alerts reactorId (changes : list ParameterAdjustment)
    now stamp (rs : list Reactor) :
  (5 <= List.length changes)%nat ->
  Forall2
    (fun r r' =>
       id r' = id r /\
       (id r = reactorId ->
        List.length (alerts r') = 5%nat /\
        Forall is_manual (alerts r') /\
        existsb is_open_critical (alerts r') = false))
    rs
    (ReactorContext.applyChanges toFixed toString reactorId changes now stamp 0 rs).
Proof.
  intros Hlen.
  assert (H0 : Forall2
                 (fun r r' : Reactor =>
                    id r' = id r /\
                    (id r = reactorId ->
                     0%nat = 0%nat \/
                     (List.length (alerts r') <= 5)%nat /\
                     (Nat.min 0 5 <= List.length (alerts r'))%nat /\
                     Forall is_manual (firstn 0 (alerts r'))))
                 rs rs).
  { induction rs; constructor; auto. }
  pose proof (applyChanges_prefix changes reactorId now stamp 0 0 rs rs H0) as H.
  cbn [Nat.add] in H.
  eapply Forall2_impl; [| exact H].
  cbn beta. intros r r' [Hid Hpre]. split; [assumption |].
  intros Hr. destruct (Hpre Hr) as [H5 | (H1 & H2 & H3)]; [lia |].
  rewrite firstn_all2 in H3 by lia.
  split; [lia | split; [assumption |]].
  clear - H3. induction H3 as [| a l (Ht & _) _ IH]; [reflexivity |].
  cbn [existsb]. rewrite IH. unfold is_open_critical. rewrite Ht. reflexivity.
Qed.

End Adjustments.

Lemma adjustments_evict_alerts_witness :
  Forall2
    (fun r r' =>
       id r' = id r /\
       (id r = "RXN-001"%string ->
        List.length (alerts r') = 5%nat /\
        Forall is_manual (alerts r') /\
        existsb is_open_critical (alerts r') = false))
    [sample_reactor]
    (ReactorContext.applyChanges sample_toFixed sample_toString "RXN-001"
       sample_changes (fun _ => #0) (fun _ => #0) 0 [sample_reactor]).
Proof.
  apply (adjustments_evict_alerts sample_toFixed sample_toString "RXN-001"
           sample_changes).
  cbn [sample_changes List.length]. lia.
Defined.

Section Dismissal.

Import ReactorContext.

Lemma dismissIn_idempotent (alertId : string) (a : Alert) :
  dismissIn alertId (dismissIn alertId a) = dismissIn alertId a.
Proof.
  unfold dismissIn. destruct (String.eqb (alert_id a) alertId) eqn:E.
  - cbn [alert_id]. rewrite E. reflexivity.
  - rewrite E. reflexivity.
Qed.

Lemma dismissIn_commute (id1 id2 : string) (a : Alert) :
  dismissIn id1 (dismissIn id2 a) = dismissIn id2 (dismissIn id1 a).
Proof.
  unfold dismissIn.
  destruct (String.eqb (alert_id a) id1) eqn:E1;
    destruct (String.eqb (alert_id a) id2) eqn:E2;
    cbn [alert_id]; rewrite ?E1, ?E2; reflexivity.
Qed.

Lemma dismissIn_spec (alertId : string) (a : Alert) :
  let a' := dismissIn alertId a in
  alert_id a' = alert_id a /\ alert_reactorId a' = alert_reactorId a /\
  alert_type a' = alert_type a /\ alert_message a' = alert_message a /\
  alert_timestamp a' = alert_timestamp a /\
  alert_parameter a' = alert_parameter a /\ alert_value a' = alert_value a /\
  alert_resolved a' = (alert_resolved a || String.eqb (alert_id a) alertId).
Proof.
  cbn zeta. unfold dismissIn.
  destruct (String.eqb (alert_id a) alertId);
    cbn [alert_id alert_reactorId alert_type alert_message alert_timestamp
         alert_parameter alert_value alert_resolved];
    repeat split; try reflexivity.
  - now rewrite orb_true_r.
  - now rewrite orb_false_r.
Qed.

(** X22: [dismissAlert] is idempotent, and two dismissals commute; it
    changes nothing but the [resolved] flag of alerts (every reactor field
    other than the alerts, and of every alert the id, reactor id, type,
    message, timestamp, parameter and value are kept), which it sets for
    the alerts with the given id in the reactors with the given id and
    never clears. *)
Theorem dismissAlert_resolves (reactorId alertId : string) (rs : list Reactor) :
  dismissAlert reactorId alertId (dismissAlert reactorId alertId rs)
  = dismissAlert reactorId alertId rs /\
  (forall reactorId' alertId',
     dismissAlert reactorId alertId (dismissAlert reactorId' alertId' rs)
     = dismissAlert reactorId' alertId' (dismissAlert reactorId alertId rs)) /\
  Forall2
    (fun r r' =>
       same_but_alerts
         (fun a a' =>
            alert_id a' = alert_id a /\
            alert_reactorId a' = alert_reactorId a /\
            alert_type a' = alert_type a /\
            alert_message a' = alert_message a /\
            alert_timestamp a' = alert_timestamp a /\
            alert_parameter a' = alert_parameter a /\
            alert_value a' = alert_value a /\
            alert_resolved a'
            = (alert_resolved a
               || (String.eqb (id r) reactorId
                   && String.eqb (alert_id a) alertId)))
         r r')
    rs (dismissAlert reactorId alertId rs).
Proof.
  split; [| split].
  - unfold dismissAlert. rewrite map_map. apply map_ext. intros r.
    destruct (String.eqb (id r) reactorId) eqn:E; cbn [negb id].
    + rewrite E. cbn [negb alerts]. rewrite map_map.
      f_equal. apply map_ext, dismissIn_idempotent.
    + rewrite E. reflexivity.
  - intros reactorId' alertId'. unfold dismissAlert. rewrite !map_map.
    apply map_ext. intros r.
    destruct (String.eqb (id r) reactorId) eqn:E;
      destruct (String.eqb (id r) reactorId') eqn:E';
      cbn [negb id alerts]; rewrite ?E, ?E'; cbn [negb id alerts];
      rewrite ?E, ?E'; cbn [negb]; try reflexivity.
    rewrite !map_map. f_equal. apply map_ext. intros a.
    apply dismissIn_commute.
  - unfold dismissAlert. apply Forall2_map_right. intros r.
    unfold same_but_alerts.
    destruct (String.eqb (id r) reactorId) eqn:E; cbn [negb].
    + cbn [id name location status currentMetrics history predictions config
           uptime totalBatches lastMaintenance alerts].
      repeat split. apply Forall2_map_right. intros a.
      destruct (dismissIn_spec alertId a)
        as (H1 & H2 & H3 & H4 & H5 & H6 & H7 & H8).
      cbn [andb]. repeat split; assumption.
    + repeat split.
      induction (alerts r) as [| a l IH]; constructor; [| assumption].
      cbn [andb]. rewrite orb_false_r. repeat split.
Qed.

End Dismissal.

Section DismissThenTick.

Import ReactorContext.
Variable toFixed : nat -> number -> string.
Variable toString : number -> string.

Lemma dismissed_not_open (alertId : string) (l : list Alert) :
  (forall a, In a l -> is_open_critical a = true -> alert_id a = alertId) ->
  existsb is_open_critical (map (dismissIn alertId) l) = false.
Proof.
  induction l as [| a l IH]; intros H; [reflexivity |].
  cbn [map existsb]. rewrite IH by (intros b Hb; apply H; right; exact Hb).
  rewrite orb_false_r.
  destruct (dismissIn_spec alertId a) as (_ & _ & Ht & _ & _ & _ & _ & Hr).
  unfold is_open_critical at 1. rewrite Ht, Hr.
  destruct (is_open_critical a) eqn:Eo.
  - rewrite (H a (or_introl eq_refl) Eo), String.eqb_refl, orb_true_r.
    now rewrite andb_false_r.
  - unfold is_open_critical in Eo.
    destruct (AlertType_eqb (alert_type a) critical); [| reflexivity].
    cbn [andb] in Eo |- *. apply negb_false_iff in Eo. now rewrite Eo.
Qed.

(** X23: when every unresolved critical alert of a reactor carries the
    dismissed alert id, no tick after the dismissal derives the status
    [error] for that reactor: the status after any non-empty sequence of
    ticks is not [error]. *)
Theorem dismiss_then_tick (reactorId alertId : string) (rs : list Reactor) :
  Forall2
    (fun r r' =>
       id r = reactorId ->
       (forall a, In a (alerts r) -> is_open_critical a = true ->
                  alert_id a = alertId) ->
       forall envs : list ReactorProvider.TickEnv,
         envs <> [] ->
         status (ReactorProvider.ticks toString envs r') <> error)
    rs (dismissAlert reactorId alertId rs).
Proof.
  unfold dismissAlert. apply Forall2_map_right. intros r Hid Honly envs Hne.
  apply String.eqb_eq in Hid. rewrite Hid. cbn [negb].
  set (r' := mkReactor _ _ _ _ _ _ _ _ _ _ _ _).
  assert (Hclean : existsb is_open_critical (alerts r') = false)
    by (apply dismissed_not_open; assumption).
  clearbody r'. revert r' Hclean.
  induction envs as [| e rest IH]; [contradiction |]. intros r' Hclean.
  change (ReactorProvider.ticks toString (e :: rest) r')
    with (ReactorProvider.ticks toString rest
            (ReactorProvider.tickReactor toString e r')).
  destruct rest as [| e' rest'].
  - cbn [ReactorProvider.ticks]. intros Herr.
    apply (tickReactor_error toString e r') in Herr. congruence.
  - apply IH; [discriminate |]. exact Hclean.
Qed.


Local Open Scope string_scope.
Local Open Scope js_scope.

Lemma flow_at_setpoint : (abs (#165 - #165) >? #10) = false.
Proof.
  cbn [sub abs gt]. apply Rgtb_false.
  replace (165 - 165)%R with 0%R by lra. rewrite Rabs_R0. lra.
Qed.

Lemma recommendations_cases (m : ReactorMetrics) :
  map (fun c => (parameter c, suggestedValue c)) (recommendations toFixed m)
  = ((if abs (temperature m - #35.8) >? #0.5 then [("temperature", #35.8)] else [])
     ++ (if abs (pH m - #7.35) >? #0.1 then [("pH", #7.35)] else [])
     ++ (if abs (flowRate m - #165) >? #10 then [("flowRate", #165)] else []))%list.
Proof.
  unfold recommendations. cbv zeta.
  destruct (abs (temperature m - #35.8) >? #0.5);
    destruct (abs (pH m - #7.35) >? #0.1);
    destruct (abs (flowRate m - #165) >? #10); reflexivity.
Qed.

(** X24: applying to a reactor the changes recommended for its own metrics
    sets the temperature and pH targets to 35.8 and 7.35 where those were
    recommended and writes the flow rate 165 where that was recommended;
    the temperature and pH metrics themselves are untouched, so the engine
    run on the new metrics recommends the same changes again, less the
    flow change. *)
Theorem apply_own_recommendations (reactorId : string) (r : Reactor)
    now stamp (rs : list Reactor) :
  id r = reactorId ->
  let m := currentMetrics r in
  Forall2
    (fun x x' =>
       x = r ->
       targetTemperature (config x')
       = (if abs (temperature m - #35.8) >? #0.5 then #35.8
          else targetTemperature (config r)) /\
       targetPH (config x')
       = (if abs (pH m - #7.35) >? #0.1 then #7.35 else targetPH (config r)) /\
       flowRate (currentMetrics x')
       = (if abs (flowRate m - #165) >? #10 then #165 else flowRate m) /\
       temperature (currentMetrics x') = temperature m /\
       pH (currentMetrics x') = pH m /\
       map parameter (recommendations toFixed (currentMetrics x'))
       = filter (fun p => negb (String.eqb p "flowRate"))
           (map parameter (recommendations toFixed m)))
    rs
    (applyChanges toFixed toString reactorId (recommendations toFixed m)
       now stamp 0 rs).
Proof.
  intros Hid m. subst m. apply String.eqb_eq in Hid.
  unfold recommendations. cbv zeta.
  destruct (abs (temperature (currentMetrics r) - #35.8) >? #0.5) eqn:Et;
    destruct (abs (pH (currentMetrics r) - #7.35) >? #0.1) eqn:Ep;
    destruct (abs (flowRate (currentMetrics r) - #165) >? #10) eqn:Ef;
    cbn [push app applyChanges parameter suggestedValue];
    unfold ReactorProvider.updateReactorParameter;
    rewrite ?map_map.
  all: try (apply Forall2_map_right; intros x).
  all: try (rewrite <- (map_id rs) at 2; apply Forall2_map_right; intros x).
  all: intros ->.
  all: cbn [ReactorProvider.adjustReactor id]; rewrite ?Hid; cbn [negb].
  all: cbn [ReactorProvider.adjustReactor id]; rewrite ?Hid; cbn [negb].
  all: cbn [ReactorProvider.adjustReactor id]; rewrite ?Hid; cbn [negb].
  all: cbn [ReactorProvider.adjustReactor id config currentMetrics
         targetTemperature targetPH flowRate temperature pH
         String.eqb Ascii.eqb Bool.eqb].
  all: rewrite ?Et, ?Ep, ?Ef, ?flow_at_setpoint.
  all: repeat split; reflexivity.
Qed.

End DismissThenTick.

Lemma apply_own_recommendations_witness :
  let m := currentMetrics sample_reactor in
  Forall2
    (fun x x' =>
       x = sample_reactor ->
       targetTemperature (config x')
       = (if abs (temperature m - #35.8) >? #0.5 then #35.8
          else targetTemperature (config sample_reactor)) /\
       targetPH (config x')
       = (if abs (pH m - #7.35) >? #0.1 then #7.35
          else targetPH (config sample_reactor)) /\
       flowRate (currentMetrics x')
       = (if abs (flowRate m - #165) >? #10 then #165 else flowRate m) /\
       temperature (currentMetrics x') = temperature m /\
       pH (currentMetrics x') = pH m /\
       map parameter (recommendations sample_toFixed (currentMetrics x'))
       = filter (fun p => negb (String.eqb p "flowRate"))
           (map parameter (recommendations sample_toFixed m)))
    [sample_reactor]
    (ReactorContext.applyChanges sample_toFixed sample_toString "RXN-001"
       (recommendations sample_toFixed m) (fun _ => #0) (fun _ => #0) 0
       [sample_reactor]).
Proof.
  apply (apply_own_recommendations sample_toFixed sample_toString "RXN-001"
           sample_reactor (fun _ => #0) (fun _ => #0) [sample_reactor]).
  reflexivity.
Defined.

(** ** The generated history and the mock reactors *)

Section History.

Variable toFixed : nat -> number -> string.
Variable toString : number -> string.

Local Open Scope string_scope.
Local Open Scope js_scope.

Lemma ceil_div_lt (a b i : nat) :
  (0 < b)%nat -> ((i < (a + b - 1) / b)%nat <-> (i * b < a)%nat).
Proof.
  intros Hb. split; intros H.
  - destruct (Nat.lt_ge_cases (i * b) a) as [Hlt | Hge]; [exact Hlt |].
    exfalso.
    assert ((a + b - 1) / b < S i)%nat
      by (apply Nat.Div0.div_lt_upper_bound; nia).
    lia.
  - apply (Nat.div_le_lower_bound (a + b - 1) b (S i)); [lia | nia].
Qed.

Lemma INR_60 : INR 60 = 60%R.
Proof. rewrite INR_IZR_INZ. reflexivity. Qed.

Lemma pointsCount_test (hours intervalMinutes i : nat) :
  (0 < intervalMinutes)%nat ->
  (ofNat i <? pointsCount hours intervalMinutes) = true
  <-> (i * intervalMinutes < hours * 60)%nat.
Proof.
  intros Hb. unfold pointsCount, ofNat, lt. cbn [mul].
  assert (Hb' : (0 < INR intervalMinutes)%R) by (apply lt_0_INR; exact Hb).
  rewrite div_fin by lra. cbn [gt]. rewrite Rgtb_spec.
  split; intros H.
  - apply INR_lt. rewrite !mult_INR, INR_60.
    apply (Rmult_lt_compat_r (INR intervalMinutes)) in H; [| exact Hb'].
    unfold Rdiv in H. rewrite Rmult_assoc, Rinv_l, Rmult_1_r in H by lra.
    exact H.
  - apply lt_INR in H. rewrite !mult_INR, INR_60 in H.
    apply (Rmult_lt_reg_r (INR intervalMinutes)); [exact Hb' |].
    unfold Rdiv. rewrite Rmult_assoc, Rinv_l, Rmult_1_r by lra. exact H.
Qed.

Lemma historyPoints_length env reactorId hours intervalMinutes n :
  forall i sim,
    List.length (historyPoints toString env reactorId hours intervalMinutes n i sim) = n.
Proof.
  induction n as [| n IH]; intros i sim; cbn [historyPoints List.length];
    [reflexivity | now rewrite IH].
Qed.

Lemma historyPoints_ids env reactorId hours intervalMinutes n :
  forall i sim k p,
    nth_error (historyPoints toString env reactorId hours intervalMinutes n i sim) k
    = Some p ->
    point_id p = reactorId ++ "-" ++ toString (ofNat (i + k)).
Proof.
  induction n as [| n IH]; intros i sim k p; cbn [historyPoints].
  - destruct k; discriminate.
  - destruct k as [| k]; cbn [nth_error].
    + intros [= <-]. cbn [point_id]. now rewrite Nat.add_0_r.
    + intros H. apply IH in H. rewrite H.
      now replace (S i + k)%nat with (i + S k)%nat by lia.
Qed.

Lemma historyPoints_metrics env id1 id2 hours intervalMinutes n :
  forall i sim,
    map point_metrics (historyPoints toString env id1 hours intervalMinutes n i sim)
    = map point_metrics (historyPoints toString env id2 hours intervalMinutes n i sim).
Proof.
  induction n as [| n IH]; intros i sim; cbn [historyPoints map point_metrics];
    [reflexivity | now rewrite IH].
Qed.

(** X25: for a non-empty reactor id and a positive interval,
    [generateHistoricalData] returns one point per pass of its loop: index
    [i] is present exactly when [i < (hours * 60) / intervalMinutes] holds
    in the source's arithmetic, which makes [hours * 60 / intervalMinutes]
    points when the interval divides the span; point [i] carries the id
    [reactorId-i]. *)
Theorem generateHistoricalData_points (reactorId : string) (seed : Z)
    (hours intervalMinutes : nat) (env : HistoryEnv) :
  charCodeAt0 reactorId = Some seed -> (0 < intervalMinutes)%nat ->
  exists h,
    generateHistoricalData toString reactorId hours intervalMinutes env = Some h /\
    (forall i, (i < List.length h)%nat
               <-> (ofNat i <? pointsCount hours intervalMinutes) = true) /\
    (Nat.divide intervalMinutes (hours * 60) ->
     List.length h = (hours * 60 / intervalMinutes)%nat) /\
    (forall i p, nth_error h i = Some p ->
                 point_id p = reactorId ++ "-" ++ toString (ofNat i)).
Proof.
  intros Hseed Hpos. unfold generateHistoricalData, pointPasses.
  rewrite Hseed.
  destruct (Nat.eqb_spec intervalMinutes 0) as [-> | _]; [lia |].
  eexists. split; [reflexivity |].
  rewrite historyPoints_length. split; [| split].
  - intros i. rewrite pointsCount_test by exact Hpos.
    apply ceil_div_lt. exact Hpos.
  - intros [q Hq]. rewrite Hq.
    rewrite Nat.div_mul by lia.
    replace (q * intervalMinutes + intervalMinutes - 1)%nat
      with ((intervalMinutes - 1) + q * intervalMinutes)%nat by lia.
    rewrite Nat.div_add by lia. rewrite Nat.div_small by lia. reflexivity.
  - intros i p H. apply historyPoints_ids in H. exact H.
Qed.

(** X26: the metrics of the generated history depend on the reactor id
    through its first character only: two ids that start alike give the
    same sequence of metrics (timestamps included) from the same clock
    readings, so that only the point ids differ. *)
Theorem history_reads_first_character (id1 id2 : string)
    (hours intervalMinutes : nat) (env : HistoryEnv) :
  charCodeAt0 id1 = charCodeAt0 id2 ->
  option_map (map point_metrics)
    (generateHistoricalData toString id1 hours intervalMinutes env)
  = option_map (map point_metrics)
      (generateHistoricalData toString id2 hours intervalMinutes env).
Proof.
  intros H. unfold generateHistoricalData. rewrite H.
  destruct (charCodeAt0 id2) as [seed |]; [| reflexivity].
  destruct (pointPasses hours intervalMinutes) as [n |]; [| reflexivity].
  cbn [option_map]. f_equal. apply historyPoints_metrics.
Qed.
Lemma generateHistoricalData_day (reactorId : string) (seed : Z) (env : HistoryEnv) :
  charCodeAt0 reactorId = Some seed ->
  exists h,
    generateHistoricalData toString reactorId 24 5 env = Some h /\
    List.length h = 288%nat.
Proof.
  intros Hseed. unfold generateHistoricalData, pointPasses. rewrite Hseed.
  cbn [Nat.eqb]. eexists. split; [reflexivity |].
  rewrite historyPoints_length. reflexivity.
Qed.

Lemma generateAlerts_shape reactorId m history now stamp rnd :
  let derived :=
    generateAlerts toFixed toString reactorId m history now stamp rnd in
  (List.length derived <= 4)%nat /\
  Forall (fun a => alert_reactorId a = reactorId /\
                   (alert_type a = critical -> alert_resolved a = false)) derived /\
  existsb (fun a => AlertType_eqb (alert_type a) critical) derived
  = (abs (pH m - #7.4) >? #0.5) && (abs (pH m - #7.4) >? #0.3)
    || (enzymeActivity m <? #70) && (enzymeActivity m <? #75).
Proof.
  intros derived. subst derived. unfold generateAlerts.
  destruct (abs (pH m - #7.4) >? #0.3);
    destruct (enzymeActivity m <? #75);
    destruct (10 <=? List.length history)%nat;
    try destruct (_ / #10 >? #0.5);
    destruct (productYield m >? #82);
    destruct (abs (pH m - #7.4) >? #0.5);
    destruct (enzymeActivity m <? #70);
    cbn [push app slice_first firstn existsb alert_type AlertType_eqb
         List.length andb orb];
    (split; [lia | split; [| reflexivity]]);
    repeat (constructor; [split; [reflexivity | intros; (reflexivity || discriminate)] |]);
    constructor.
Qed.

Lemma floor_range (lo hi : Z) (x : R) :
  (IZR lo <= x < IZR hi)%R ->
  exists k : Z, floor #x = #(IZR k) /\ (lo <= k < hi)%Z.
Proof.
  intros [Hlo Hhi]. exists (Int_part x). split; [reflexivity |].
  destruct (base_Int_part x) as [Hle Hgt].
  split.
  - assert (IZR lo - 1 < IZR (Int_part x))%R by lra.
    rewrite <- minus_IZR in H. apply lt_IZR in H. lia.
  - apply lt_IZR. lra.
Qed.

Lemma createMockReactor_fresh (reactorId nm loc : string) (code seed : Z)
    (env : MockEnv) :
  charCodeAt0 reactorId = Some code ->
  exists r,
    createMockReactor toFixed toString reactorId nm loc seed env = Some r /\
    id r = reactorId /\ name r = nm /\ location r = loc /\
    List.length (history r) = 288%nat /\
    (List.length (alerts r) <= 4)%nat /\
    (status r = maintenance \/ status r = error \/ status r = running).
Proof.
  intros Hcode.
  destruct (generateHistoricalData_day reactorId code (mock_history env) Hcode)
    as (h & Hh & Hlen).
  unfold createMockReactor. rewrite Hh. unfold SeededRandom.new.
  rewrite !range_eq.
  set (m := ReactorSimulator.getCurrentMetrics _).
  eexists. split; [reflexivity |].
  cbn [id name location history alerts status].
  destruct (generateAlerts_shape reactorId m h (mock_alertsNow env)
              (mock_alertsStamp env) (mock_alertsRnd env)) as (Hn & _ & _).
  repeat split; try assumption.
  destruct (enzymeActivity m <? #70); [tauto |].
  destruct (existsb _ _); tauto.
Qed.


(** X27: for a non-empty id, [createMockReactor] returns a reactor with
    the given id, name and location, a history of 288 points and at most
    four alerts, all carrying its id; its status is maintenance exactly
    when the enzyme activity is below 70, error exactly when it is not and
    the pH is more than 0.5 away from 7.4, and running otherwise; from a
    non-negative seed the batch count is an integer from 50 to 199. *)
Theorem createMockReactor_shape (reactorId nm loc : string) (code seed : Z)
    (env : MockEnv) :
  charCodeAt0 reactorId = Some code ->
  exists r,
    createMockReactor toFixed toString reactorId nm loc seed env = Some r /\
    id r = reactorId /\ name r = nm /\ location r = loc /\
    List.length (history r) = 288%nat /\
    (List.length (alerts r) <= 4)%nat /\
    Forall (fun a => alert_reactorId a = reactorId) (alerts r) /\
    (status r = maintenance
     <-> (enzymeActivity (currentMetrics r) <? #70) = true) /\
    (status r = error
     <-> (enzymeActivity (currentMetrics r) <? #70) = false /\
         (abs (pH (currentMetrics r) - #7.4) >? #0.5) = true) /\
    (status r = maintenance \/ status r = error \/ status r = running) /\
    ((0 <= seed)%Z ->
     exists k : Z, totalBatches r = #(IZR k) /\ (50 <= k <= 199)%Z).
Proof.
  intros Hcode.
  destruct (generateHistoricalData_day reactorId code (mock_history env) Hcode)
    as (h & Hh & Hlen).
  unfold createMockReactor. rewrite Hh. unfold SeededRandom.new.
  rewrite !range_eq.
  set (m := ReactorSimulator.getCurrentMetrics _).
  eexists. split; [reflexivity |].
  cbn [id name location history alerts status currentMetrics totalBatches].
  destruct (generateAlerts_shape reactorId m h (mock_alertsNow env)
              (mock_alertsStamp env) (mock_alertsRnd env)) as (Hn & Hall & Hcrit).
  rewrite Hcrit.
  split; [reflexivity |]. split; [reflexivity |]. split; [reflexivity |].
  split; [exact Hlen |]. split; [exact Hn |].
  split; [revert Hall; apply Forall_impl; intros a [H _]; exact H |].
  split; [| split; [| split]].
  - destruct (enzymeActivity m <? #70); [tauto |].
    cbn [andb orb]. destruct (_ && _); split; discriminate.
  - destruct (enzymeActivity m <? #70); cbn [andb orb].
    + split; [discriminate | intros [H _]; discriminate].
    + rewrite orb_false_r.
      destruct (abs (pH m - #7.4) >? #0.5) eqn:E5; cbn [andb].
      * assert (E3 : (abs (pH m - #7.4) >? #0.3) = true).
        { destruct (pH m) as [| | | p]; cbn [sub abs gt] in E5 |- *;
            try discriminate; try reflexivity.
          apply Rgtb_spec in E5. apply Rgtb_true. lra. }
        rewrite E3. tauto.
      * split; [discriminate | intros [_ H]; discriminate].
  - destruct (enzymeActivity m <? #70); [tauto |].
    destruct (_ || _); tauto.
  - intros Hseed. pose proof (uniform_nonneg seed Hseed) as Hu.
    destruct (floor_range 50 200 (50 + uniform seed * (200 - 50))) as (k & Hk & Hr).
    { split; nra. }
    exists k. split; [exact Hk | lia].
Qed.
End History.

Section HistoryExamples.

Local Open Scope string_scope.
Local Open Scope js_scope.

Lemma generateHistoricalData_points_witness :
  exists h,
    generateHistoricalData sample_toString "RXN-001" 24 5 sample_history_env
    = Some h /\
    (forall i, (i < List.length h)%nat
               <-> (ofNat i <? pointsCount 24 5) = true) /\
    (Nat.divide 5 (24 * 60) -> List.length h = (24 * 60 / 5)%nat) /\
    (forall i p, nth_error h i = Some p ->
                 point_id p = "RXN-001" ++ "-" ++ sample_toString (ofNat i)).
Proof.
  apply (generateHistoricalData_points sample_toString "RXN-001" 82%Z 24 5
           sample_history_env); [reflexivity | lia].
Defined.

Lemma history_reads_first_character_witness :
  option_map (map point_metrics)
    (generateHistoricalData sample_toString "RXN-001" 24 5 sample_history_env)
  = option_map (map point_metrics)
      (generateHistoricalData sample_toString "RXN-002" 24 5 sample_history_env).
Proof.
  apply (history_reads_first_character sample_toString "RXN-001" "RXN-002").
  reflexivity.
Defined.

Lemma createMockReactor_shape_witness :
  exists r,
    createMockReactor sample_toFixed sample_toString "RXN-001" "Reactor Alpha"
      "California Facility - Bay 1" 12345 sample_mock_env = Some r /\
    id r = "RXN-001" /\ name r = "Reactor Alpha" /\
    location r = "California Facility - Bay 1" /\
    List.length (history r) = 288%nat /\
    (List.length (alerts r) <= 4)%nat /\
    Forall (fun a => alert_reactorId a = "RXN-001") (alerts r) /\
    (status r = maintenance
     <-> (enzymeActivity (currentMetrics r) <? #70) = true) /\
    (status r = error
     <-> (enzymeActivity (currentMetrics r) <? #70) = false /\
         (abs (pH (currentMetrics r) - #7.4) >? #0.5) = true) /\
    (status r = maintenance \/ status r = error \/ status r = running) /\
    ((0 <= 12345)%Z ->
     exists k : Z, totalBatches r = #(IZR k) /\ (50 <= k <= 199)%Z).
Proof.
  apply (createMockReactor_shape sample_toFixed sample_toString "RXN-001"
           "Reactor Alpha" "California Facility - Bay 1" 82%Z 12345%Z
           sample_mock_env).
  reflexivity.
Defined.

End HistoryExamples.

(** ** The callbacks of the reactor context *)

Section ContextCallbacks.

Import ReactorContext.
Variable toFixed : nat -> number -> string.
Variable toString : number -> string.

Local Open Scope string_scope.
Local Open Scope js_scope.

Lemma Forall2_mapi_from {A B} (P : A -> B -> Prop) (f : nat -> A -> B)
    (xs : list A) :
  (forall i x, P x (f i x)) -> forall i, Forall2 P xs (mapi_from f i xs).
Proof.
  intros H. induction xs as [| x xs IH]; intros i; cbn [mapi_from];
    constructor; auto.
Qed.

Lemma refreshFrom_frame (reactorId : string) (code : Z)
    (envs : nat -> MockEnv) (rs : list Reactor) :
  charCodeAt0 reactorId = Some code ->
  forall i, exists rs',
    refreshFrom toFixed toString reactorId envs i rs = Some rs' /\
    Forall2 (refreshed reactorId) rs rs'.
Proof.
  intros Hcode.
  induction rs as [| r rs IH]; intros i; cbn [refreshFrom].
  - exists []. split; [reflexivity | constructor].
  - destruct (IH (S i)) as (rest' & -> & Hrest).
    destruct (String.eqb_spec (id r) reactorId) as [Hid | Hid]; cbn [negb].
    + assert (Hc : charCodeAt0 (id r) = Some code) by now rewrite Hid.
      rewrite Hc.
      destruct (createMockReactor_fresh toFixed toString (id r) (name r)
                  (location r) code code
                  (envs i) Hc) as (fresh & -> & H1 & H2 & H3 & H4 & H5 & H6).
      eexists. split; [reflexivity |].
      constructor; [| exact Hrest]. unfold refreshed.
      cbn [id name location config history alerts status].
      repeat split; try assumption. intros Hne. contradiction.
    + eexists. split; [reflexivity |].
      constructor; [| exact Hrest].
      unfold refreshed. repeat split; contradiction.
Qed.

(** X28: for a non-empty id, [refreshReactor] returns a list of the same
    reactors in the same order; identity and user config of every reactor
    are kept; reactors with another id are returned unchanged; a reactor
    with the id comes back with a fresh history of 288 points, at most
    four alerts, and a status that is maintenance, error or running. *)
Theorem refreshReactor_frame (reactorId : string) (code : Z)
    (envs : nat -> MockEnv) (rs : list Reactor) :
  charCodeAt0 reactorId = Some code ->
  exists rs',
    refreshReactor toFixed toString reactorId envs rs = Some rs' /\
    Forall2 (refreshed reactorId) rs rs'.
Proof.
  intros Hcode. exact (refreshFrom_frame reactorId code envs rs Hcode 0%nat).
Qed.

(** X29: [startOptimization] always sets the optimizing flag and changes
    nothing else; a completion is scheduled exactly when some reactor has
    the id, and the reactor it captures is the first one with that id; for
    an unknown id the flag is set and nothing is scheduled that would
    clear it. *)
Theorem startOptimization_latch (reactorId : string) (st : State) :
  let started := startOptimization reactorId st in
  isOptimizing (fst started) = true /\
  reactors (fst started) = reactors st /\
  selectedReactor (fst started) = selectedReactor st /\
  dashboardStats (fst started) = dashboardStats st /\
  optimizationResult (fst started) = optimizationResult st /\
  (snd started = None
   <-> forall r, In r (reactors st) -> id r <> reactorId) /\
  (forall r, snd started = Some r ->
             id r = reactorId /\
             exists before after,
               reactors st = (before ++ r :: after)%list /\
               forall x, In x before -> id x <> reactorId).
Proof.
  cbn zeta. unfold startOptimization, findReactor. cbn [fst snd isOptimizing reactors optimizationResult selectedReactor
       dashboardStats].
  repeat split.
  - intros H r Hin Hid.
    apply (find_none _ _ H) in Hin. apply String.eqb_neq in Hin. contradiction.
  - intros H. induction (reactors st) as [| x xs IH]; [reflexivity |].
    cbn [find]. destruct (String.eqb_spec (id x) reactorId) as [Hid | Hid].
    + exfalso. apply (H x); [left; reflexivity | exact Hid].
    + apply IH. intros r Hr. apply H. right. exact Hr.
  - apply find_some in H. apply String.eqb_eq. tauto.
  - revert H. induction (reactors st) as [| x xs IH]; [discriminate |].
    cbn [find]. destruct (String.eqb_spec (id x) reactorId) as [Hid | Hid].
    + intros [= ->]. exists [], xs. split; [reflexivity |]. intros y [].
    + intros H. destruct (IH H) as (before & after & -> & Hb).
      exists (x :: before), after. split; [reflexivity |].
      intros y [<- | Hy]; [exact Hid | apply Hb; exact Hy].
Qed.

(** X30: the deferred completion clears the optimizing flag and stores a
    completed result whose applied changes are the recommendations of the
    captured reactor and whose improvements, for random draws in [[0, 1)],
    lie in [[8.5, 13.5)], [[12.3, 15.3)] and [[7.8, 9.8)]; reactors with another id are left as
    they are, and each reactor with the id is set to running with an
    unresolved success alert put before its first four alerts, its metrics,
    config, predictions and history untouched. *)
Theorem completeOptimization_result (reactorId : string) (captured : Reactor)
    (env : CompletionEnv) (st : State) :
  (forall k, (k < 3)%nat -> unit_draw (done_rnd env k)) ->
  let st' := completeOptimization toFixed toString reactorId captured env st in
  isOptimizing st' = false /\
  selectedReactor st' = selectedReactor st /\
  (exists res y e c,
     optimizationResult st' = Some res /\
     result_reactorId res = reactorId /\
     result_status res = result_completed /\
     appliedChanges res
     = recommendedChanges (yieldOptimization (predictions captured)) /\
     improvements res = mkImprovements #y #e #c /\
     (8.5 <= y < 13.5)%R /\ (12.3 <= e < 15.3)%R /\ (7.8 <= c < 9.8)%R) /\
  Forall2
    (fun r r' =>
       (id r <> reactorId -> r' = r) /\
       (id r = reactorId ->
        status r' = running /\
        currentMetrics r' = currentMetrics r /\
        config r' = config r /\
        predictions r' = predictions r /\
        history r' = history r /\
        (List.length (alerts r') <= 5)%nat /\
        exists a,
          alerts r' = a :: firstn 4 (alerts r) /\
          alert_type a = success /\ alert_resolved a = false /\
          alert_reactorId a = reactorId /\ alert_parameter a = None))
    (reactors st) (reactors st').
Proof.
  intros Hdraws. cbn zeta. unfold completeOptimization.
  cbn [isOptimizing selectedReactor optimizationResult reactors].
  destruct (Hdraws 0%nat ltac:(lia)) as (u0 & -> & H0).
  destruct (Hdraws 1%nat ltac:(lia)) as (u1 & -> & H1).
  destruct (Hdraws 2%nat ltac:(lia)) as (u2 & -> & H2).
  split; [reflexivity |]. split; [reflexivity |]. split.
  - eexists. exists (8.5 + u0 * 5)%R, (12.3 + u1 * 3)%R, (7.8 + u2 * 2)%R.
    split; [reflexivity |].
    cbn [result_reactorId result_status appliedChanges improvements add mul].
    repeat split; lra.
  - apply Forall2_mapi_from. intros i r.
    destruct (String.eqb_spec (id r) reactorId) as [Hid | Hid]; cbn [negb].
    + split; [intros Hne; contradiction |]. intros _.
      cbn [status currentMetrics config predictions history alerts].
      repeat split.
      * cbn [List.length]. unfold slice_first.
        pose proof (length_firstn 4 (alerts r)). lia.
      * eexists. split; [reflexivity |]. repeat split.
    + split; [reflexivity | intros Heq; contradiction].
Qed.
End ContextCallbacks.

Section ContextExamples.

Local Open Scope string_scope.
Local Open Scope js_scope.

Lemma refreshReactor_frame_witness :
  exists rs',
    ReactorContext.refreshReactor sample_toFixed sample_toString "RXN-001"
      (fun _ => sample_mock_env) [sample_reactor] = Some rs' /\
    Forall2 (refreshed "RXN-001") [sample_reactor] rs'.
Proof.
  apply (refreshReactor_frame sample_toFixed sample_toString "RXN-001" 82%Z).
  reflexivity.
Defined.

Lemma completeOptimization_result_witness :
  let st := ReactorContext.mkState [sample_reactor] None
              (generateDashboardStats [sample_reactor]) true None in
  let st' := ReactorContext.completeOptimization sample_toFixed sample_toString "RXN-001"
               sample_reactor sample_completion_env st in
  ReactorContext.isOptimizing st' = false /\ ReactorContext.selectedReactor st' = ReactorContext.selectedReactor st.
Proof.
  intros st st'.
  pose proof (completeOptimization_result sample_toFixed sample_toString
                "RXN-001" sample_reactor sample_completion_env st) as H.
  assert (Hd : forall k, (k < 3)%nat -> unit_draw (ReactorContext.done_rnd sample_completion_env k)).
  { intros k _. exists 0.5%R. split; [reflexivity | lra]. }
  destruct (H Hd) as (H1 & H2 & _). split; assumption.
Defined.

End ContextExamples.
